(** * Record unification and evidence screening for the RL / ventilator-weaning review

    A shallow embedding of the deduplication and screening code of

      - [filter.py] (revision 20251008004551): [better_record],
        [deduplicate], [apply_filters], [abstract_stage], [main];
      - [rescreen_excluded_with_abstracts.py] (revision 20251008002017):
        [main].

    Modelling conventions.

      - Python [str] values are Rocq [string]s.  The helper functions of
        module [Py] follow CPython on ASCII text; a character above code
        127 is kept as it is, has no case and is neither whitespace nor
        alphanumeric.
      - A record (a Python [dict] with the fixed keys of [norm_record]) is
        a Rocq [Record]; the keys that later stages add are optional
        fields.
      - The dictionaries [by_doi], [by_title] and the provider tables are
        insertion-ordered association lists ([Py.dict]), because
        [dict.values()] is read back in insertion order.
      - An exception is a value [Raise e] of the [result] monad.
      - The [re] module is an interface ([Regex]); [AsciiRe] implements it
        for the pattern fragment the term lists use.
      - Module-level constants that the source calls "tuning knobs" are
        the fields of [knobs], threaded through every function of the
        module; [default_knobs] holds the values written in the source.
      - Network lookups are not modelled: the tables that the fetchers
        return are inputs, and every statement holds for all tables. *)

From Stdlib Require Import Strings.String Strings.Ascii Lists.List.
From Stdlib Require Import ZArith Lia Bool Arith PeanoNat DecimalString.
From Stdlib Require Import Sorting.Permutation.
From Stdlib Require Import DecimalZ DecimalPos.
Import ListNotations.

Local Open Scope string_scope.
Local Open Scope list_scope.
Local Open Scope nat_scope.

(* ------------------------------------------------------------------ *)
(** ** Exceptions *)

Inductive exn : Type :=
| ValueError (msg : string).

Inductive result (A : Type) : Type :=
| Ok (a : A)
| Raise (e : exn).

Arguments Ok {A} a.
Arguments Raise {A} e.

Definition bind {A B : Type} (m : result A) (k : A -> result B) : result B :=
  match m with
  | Ok a => k a
  | Raise e => Raise e
  end.

Notation "x <- m ;; k" := (bind m (fun x => k))
  (at level 61, m at next level, right associativity).

(** [for x in xs: st = step(st, x)], stopping at the first exception. *)
Fixpoint for_each {S A : Type} (step : S -> A -> result S) (xs : list A) (st : S)
  : result S :=
  match xs with
  | [] => Ok st
  | x :: xs' => st' <- step st x ;; for_each step xs' st'
  end.

(* ------------------------------------------------------------------ *)
(** ** Python strings, lists and dictionaries *)

Module Py.

Definition code (c : ascii) : nat := nat_of_ascii c.

Definition between (lo hi : nat) (c : ascii) : bool :=
  (lo <=? code c) && (code c <=? hi).

Definition isupper (c : ascii) : bool := between 65 90 c.
Definition islower (c : ascii) : bool := between 97 122 c.
Definition isdigit (c : ascii) : bool := between 48 57 c.
Definition isalnum (c : ascii) : bool := isupper c || islower c || isdigit c.

(** [str.isspace] and the class [\s] on ASCII: TAB, LF, VT, FF, CR, the
    four separators FS..US, and the space. *)
Definition isspace (c : ascii) : bool :=
  between 9 13 c || between 28 31 c || (code c =? 32).

Definition lower_char (c : ascii) : ascii :=
  if isupper c then ascii_of_nat (code c + 32) else c.

(** [s.lower()] *)
Fixpoint lower (s : string) : string :=
  match s with
  | EmptyString => EmptyString
  | String c r => String (lower_char c) (lower r)
  end.

(** Truth value of a string: [bool(s)]. *)
Definition truthy (s : string) : bool :=
  match s with
  | EmptyString => false
  | String _ _ => true
  end.

(** [s.lstrip()], [s.rstrip()], [s.strip()] *)
Fixpoint lstrip (s : string) : string :=
  match s with
  | EmptyString => EmptyString
  | String c r => if isspace c then lstrip r else s
  end.

Fixpoint rstrip (s : string) : string :=
  match s with
  | EmptyString => EmptyString
  | String c r =>
      match rstrip r with
      | EmptyString => if isspace c then EmptyString else String c EmptyString
      | r' => String c r'
      end
  end.

Definition strip (s : string) : string := rstrip (lstrip s).

(** [re.sub(cls+, " ", s)] for a character class [cls]: every maximal run
    of characters of the class becomes one space. *)
Fixpoint sub_runs_from (cls : ascii -> bool) (in_run : bool) (s : string) : string :=
  match s with
  | EmptyString => EmptyString
  | String c r =>
      if cls c
      then (if in_run then sub_runs_from cls true r
            else String " " (sub_runs_from cls true r))
      else String c (sub_runs_from cls false r)
  end.

Definition sub_runs (cls : ascii -> bool) (s : string) : string :=
  sub_runs_from cls false s.

(** [sub in s] *)
Fixpoint contains (sub s : string) : bool :=
  prefix sub s ||
  match s with
  | EmptyString => false
  | String _ r => contains sub r
  end.

(** [s.startswith(p)] *)
Definition startswith (s p : string) : bool := prefix p s.

(** [s.split(sep)] for a non-empty separator: leftmost, non-overlapping
    occurrences.  [skip] counts the characters of a separator still to be
    passed over, [cur] is the piece being collected. *)
Fixpoint split_from (sep : string) (skip : nat) (cur : string) (s : string)
  : list string :=
  match s with
  | EmptyString => [cur]
  | String c r =>
      match skip with
      | S k => split_from sep k cur r
      | O =>
          if prefix sep s
          then cur :: split_from sep (String.length sep - 1) EmptyString r
          else split_from sep 0 (cur ++ String c EmptyString)%string r
      end
  end.

Definition split (s sep : string) : list string := split_from sep 0 EmptyString s.

(** [l[1]] and [l[-1]] on the result of a split; the callers guard the
    first with [startswith], and a split is never empty. *)
Definition item1 (l : list string) : string := nth 1 l EmptyString.
Definition item_last (l : list string) : string := last l EmptyString.

(** [sep.join(parts)] *)
Definition join (sep : string) (parts : list string) : string := String.concat sep parts.

(** [str(n)] for an integer. *)
Definition str_of_int (n : Z) : string := NilZero.string_of_int (Z.to_int n).

(** [l.index(x)], which raises [ValueError] when [x] is absent. *)
Fixpoint index (l : list string) (x : string) : result nat :=
  match l with
  | [] => Raise (ValueError "is not in list")
  | y :: l' => if (y =? x)%string then Ok 0 else i <- index l' x ;; Ok (S i)
  end.

(** Insertion-ordered dictionaries with string keys. *)
Definition dict (V : Type) : Type := list (string * V).

Fixpoint dict_get {V : Type} (d : dict V) (k : string) : option V :=
  match d with
  | [] => None
  | (k', v) :: d' => if (k' =? k)%string then Some v else dict_get d' k
  end.

(** [d.get(k, default)] *)
Definition dict_get_or {V : Type} (d : dict V) (k : string) (default : V) : V :=
  match dict_get d k with
  | Some v => v
  | None => default
  end.

(** [d[k] = v]: an existing key keeps its position, a new key goes last. *)
Fixpoint dict_set {V : Type} (d : dict V) (k : string) (v : V) : dict V :=
  match d with
  | [] => [(k, v)]
  | (k', v') :: d' =>
      if (k' =? k)%string then (k, v) :: d' else (k', v') :: dict_set d' k v
  end.

Definition dict_keys {V : Type} (d : dict V) : list string := map fst d.
Definition dict_values {V : Type} (d : dict V) : list V := map snd d.

(** [s.replace(old, new)] for a non-empty [old]: every occurrence found
    by a left-to-right scan, which is what [new.join(s.split(old))]
    rebuilds. *)
Definition replace (s old new : string) : string := join new (split s old).

(** [s.isdigit()] on ASCII: at least one character, all of them digits. *)
Fixpoint all_digits (s : string) : bool :=
  match s with
  | EmptyString => true
  | String c r => isdigit c && all_digits r
  end.

Definition str_isdigit (s : string) : bool := truthy s && all_digits s.

(** [int(s)] for a string of digits. *)
Definition digit_value (c : ascii) : Z := Z.of_nat (code c - 48).

Fixpoint int_of_digits_from (acc : Z) (s : string) : Z :=
  match s with
  | EmptyString => acc
  | String c r => int_of_digits_from (10 * acc + digit_value c) r
  end.

Definition int_of_digits (s : string) : Z := int_of_digits_from 0 s.

(** [l[i] = v] for an index within the list. *)
Fixpoint list_set {A : Type} (l : list A) (i : nat) (v : A) : list A :=
  match l, i with
  | [], _ => []
  | _ :: l', O => v :: l'
  | x :: l', S i' => x :: list_set l' i' v
  end.

(** [max(l)] for a non-empty list of integers. *)
Definition max_of (l : list Z) : Z :=
  match l with
  | [] => 0%Z
  | x :: l' => fold_left Z.max l' x
  end.

End Py.

(* ------------------------------------------------------------------ *)
(** ** Regular expressions *)

(** What the code uses of Python's [re]: [re.escape] and, for
    [re.compile(src, flags).search(text)], whether a match exists.  The
    only flag the code passes is [re.IGNORECASE].  [re.compile] raising
    on a malformed pattern is not modelled: the terms of the source all
    compile. *)
Class Regex : Type := {
  re_escape : string -> string;
  re_search : string -> bool -> string -> bool
}.

(** A compiled pattern object. *)
Record pattern : Type := re_compile {
  pat_src : string;
  pat_ignorecase : bool
}.

Definition search `{Regex} (r : pattern) (text : string) : bool :=
  re_search (pat_src r) (pat_ignorecase r) text.

(** An implementation for ASCII text and the pattern fragment of the term
    lists: literal characters, escaped punctuation, [\b], and [c?]. *)
Module AsciiRe.

Inductive atom : Type :=
| Lit (c : ascii)
| Opt (c : ascii)
| WordB.

Definition special : list nat :=
  [40; 41; 91; 93; 123; 125; 63; 42; 43; 45; 124; 94; 36; 92; 46; 38; 126; 35;
   32; 9; 10; 13; 11; 12].

Definition is_special (c : ascii) : bool :=
  existsb (Nat.eqb (Py.code c)) special.

(** [re.escape]: a backslash before every special character. *)
Fixpoint escape (s : string) : string :=
  match s with
  | EmptyString => EmptyString
  | String c r =>
      if is_special c then String "\" (String c (escape r))
      else String c (escape r)
  end.

Definition metachars : list nat := [46; 94; 36; 42; 43; 123; 125; 91; 93; 124; 40; 41].

Definition is_meta (c : ascii) : bool :=
  existsb (Nat.eqb (Py.code c)) metachars.

(** [acc] holds the atoms read so far, last one first; [esc] tells that
    the previous character was a backslash.  [None] is a pattern outside
    the fragment. *)
Fixpoint parse_from (s : string) (acc : list atom) (esc : bool) : option (list atom) :=
  match s with
  | EmptyString => if esc then None else Some (rev acc)
  | String c r =>
      if esc then
        if (c =? "b")%char then parse_from r (WordB :: acc) false
        else if Py.isalnum c then None
        else parse_from r (Lit c :: acc) false
      else if (c =? "\")%char then parse_from r acc true
      else if (c =? "?")%char then
        match acc with
        | Lit x :: acc' => parse_from r (Opt x :: acc') false
        | _ => None
        end
      else if is_meta c then None
      else parse_from r (Lit c :: acc) false
  end.

Definition parse (s : string) : option (list atom) := parse_from s [] false.

Definition is_word (c : ascii) : bool := Py.isalnum c || (Py.code c =? 95).

Definition word_before (prev : option ascii) : bool :=
  match prev with
  | Some c => is_word c
  | None => false
  end.

Definition word_after (s : string) : bool :=
  match s with
  | String c _ => is_word c
  | EmptyString => false
  end.

Definition chr_eq (ignorecase : bool) (c d : ascii) : bool :=
  if ignorecase then (Py.lower_char c =? Py.lower_char d)%char else (c =? d)%char.

(** Does the atom list match at this position?  [prev] is the character
    just before it. *)
Fixpoint match_here (ic : bool) (p : list atom) (prev : option ascii) (s : string)
  : bool :=
  match p with
  | [] => true
  | Lit c :: p' =>
      match s with
      | String d r => chr_eq ic c d && match_here ic p' (Some d) r
      | EmptyString => false
      end
  | Opt c :: p' =>
      match s with
      | String d r => chr_eq ic c d && match_here ic p' (Some d) r
      | EmptyString => false
      end
      || match_here ic p' prev s
  | WordB :: p' =>
      xorb (word_before prev) (word_after s) && match_here ic p' prev s
  end.

Fixpoint search_from (ic : bool) (p : list atom) (prev : option ascii) (s : string)
  : bool :=
  match_here ic p prev s ||
  match s with
  | EmptyString => false
  | String d r => search_from ic p (Some d) r
  end.

Definition search_src (src : string) (ic : bool) (text : string) : bool :=
  match parse src with
  | Some p => search_from ic p None text
  | None => false
  end.

End AsciiRe.

#[export] Instance ascii_regex : Regex := {|
  re_escape := AsciiRe.escape;
  re_search := AsciiRe.search_src
|}.

(* ------------------------------------------------------------------ *)
(** ** Records and tuning knobs *)

(** The dictionary built by [norm_record], with the keys that the
    screening stages add later.  [year] is an integer or the empty string
    in the source; the empty string is [None] here.  The key [abstract]
    is the field [abstract_text], [abstract] being the name of a
    tactic. *)
Record record : Type := mk_record {
  source : string;
  id : string;
  title : string;
  authors : list string;
  year : option Z;
  doi : string;
  url : string;
  venue : string;
  extra : Py.dict string;
  match_mv : option bool;
  match_weaning : option bool;
  match_rl : option bool;
  auto_exclude_reason : option string;
  abstract_text : option string;
  match_mv_abs : option bool;
  match_wean_abs : option bool;
  match_rl_abs : option bool;
  decision : option string
}.

(** [bool(r.get("year"))]: an integer other than zero. *)
Definition year_truthy (r : record) : bool :=
  match year r with
  | Some y => negb (y =? 0)%Z
  | None => false
  end.

(** [str(r["year"])] *)
Definition year_str (r : record) : string :=
  match year r with
  | Some y => Py.str_of_int y
  | None => EmptyString
  end.

(** The constants of the section "tuning knobs" of both scripts. *)
Record knobs : Type := mk_knobs {
  STRICT_REQUIRE_RL : bool;
  CASE_SENSITIVE : bool;
  RL_TERMS : list string;
  MV_TERMS : list string;
  WEAN_TERMS : list string
}.

Definition with_strict (b : bool) (g : knobs) : knobs :=
  mk_knobs b (CASE_SENSITIVE g) (RL_TERMS g) (MV_TERMS g) (WEAN_TERMS g).

Definition with_wean_terms (ts : list string) (g : knobs) : knobs :=
  mk_knobs (STRICT_REQUIRE_RL g) (CASE_SENSITIVE g) (RL_TERMS g) (MV_TERMS g) ts.

(** The values written in the source (the same in both scripts). *)
Definition default_knobs : knobs := {|
  STRICT_REQUIRE_RL := false;
  CASE_SENSITIVE := false;
  RL_TERMS :=
    ["reinforcement learning"; "\bMDP\b"; "markov decision"; "\bQ-?learning\b";
     "fitted q"; "policy gradient"; "actor-critic"; "offline reinforcement";
     "deep reinforcement"; "inverse reinforcement"];
  MV_TERMS :=
    ["mechanical ventilation"; "ventilator"; "ventilatory support";
     "ventilation"; "ventilated"; "patient-ventilator"];
  WEAN_TERMS :=
    ["wean"; "weaning"; "extubat"; "ventilator liberation";
     "spontaneous breathing trial"; "sbt"; "liberation"]
|}.

(** A record as [norm_record] returns it: no stage has annotated it. *)
Definition plain_record (src rid ttl : string) (yr : option Z) (d u ven : string)
  (ex : Py.dict string) : record := {|
  source := src; id := rid; title := ttl; authors := []; year := yr;
  doi := d; url := u; venue := ven; extra := ex;
  match_mv := None; match_weaning := None; match_rl := None;
  auto_exclude_reason := None; abstract_text := None;
  match_mv_abs := None; match_wean_abs := None; match_rl_abs := None;
  decision := None
|}.

(** The same with no URL, no venue and no extra text; [no_doi] and
    [no_title] are the empty strings that [norm_record] stores for an
    absent DOI and an absent title. *)
Definition no_doi : string := EmptyString.
Definition no_title : string := EmptyString.

Definition bare_record (src rid ttl : string) (yr : option Z) (d : string)
  : record :=
  plain_record src rid ttl yr d EmptyString EmptyString [].

(** [r["match_mv"] = mv; r["match_weaning"] = wean; r["match_rl"] = rl] *)
Definition set_title_matches (r : record) (mv wean rl : bool) : record := {|
  source := source r; id := id r; title := title r; authors := authors r;
  year := year r; doi := doi r; url := url r; venue := venue r; extra := extra r;
  match_mv := Some mv; match_weaning := Some wean; match_rl := Some rl;
  auto_exclude_reason := auto_exclude_reason r; abstract_text := abstract_text r;
  match_mv_abs := match_mv_abs r; match_wean_abs := match_wean_abs r;
  match_rl_abs := match_rl_abs r; decision := decision r
|}.

(** [r["auto_exclude_reason"] = reason] *)
Definition set_auto_exclude_reason (r : record) (reason : string) : record := {|
  source := source r; id := id r; title := title r; authors := authors r;
  year := year r; doi := doi r; url := url r; venue := venue r; extra := extra r;
  match_mv := match_mv r; match_weaning := match_weaning r; match_rl := match_rl r;
  auto_exclude_reason := Some reason; abstract_text := abstract_text r;
  match_mv_abs := match_mv_abs r; match_wean_abs := match_wean_abs r;
  match_rl_abs := match_rl_abs r; decision := decision r
|}.

(** [r2 = dict(r); r2["abstract"] = a; r2["match_mv_abs"] = mv;
    r2["match_wean_abs"] = wean; r2["match_rl_abs"] = rl;
    r2["decision"] = d] *)
Definition with_abstract_check (r : record) (a : string) (mv wean rl : bool)
  (d : string) : record := {|
  source := source r; id := id r; title := title r; authors := authors r;
  year := year r; doi := doi r; url := url r; venue := venue r; extra := extra r;
  match_mv := match_mv r; match_weaning := match_weaning r; match_rl := match_rl r;
  auto_exclude_reason := auto_exclude_reason r; abstract_text := Some a;
  match_mv_abs := Some mv; match_wean_abs := Some wean;
  match_rl_abs := Some rl; decision := Some d
|}.

(* ------------------------------------------------------------------ *)
(** ** Abstract lookup, shared by both scripts *)

(** An object of the Semantic Scholar batch answer; only its key
    ["abstract"] is read.  Every stored object has the identifier its
    table key was built from, so the object itself is truthy. *)
Record s2_paper : Type := mk_s2_paper {
  s2_abstract : option string
}.

(** The four tables built from the providers' answers. *)
Record tables : Type := mk_tables {
  pmid_to_abs : Py.dict string;
  s2_map : Py.dict s2_paper;
  openalex_map : Py.dict string;
  arxiv_map : Py.dict string
}.

(** [obj and obj.get("abstract")], as a string that is empty when the
    test fails. *)
Definition s2_abstract_of (o : option s2_paper) : string :=
  match o with
  | Some obj =>
      match s2_abstract obj with
      | Some a => a
      | None => EmptyString
      end
  | None => EmptyString
  end.

(** The provider chain, lines 558-583 of [filter.py] and, word for word,
    lines 273-300 of the rescue script: PubMed, Semantic Scholar by DOI,
    Semantic Scholar by PMID, OpenAlex, arXiv; a later provider is asked
    only while [abstract] is still empty. *)
Definition lookup_abstract (t : tables) (r : record) : string :=
  let abstract := EmptyString in
  let src := Py.lower (source r) in
  let rid := id r in
  let doi := Py.strip (doi r) in
  let url := url r in
  let abstract :=
    if (src =? "pubmed")%string && Py.startswith rid "PMID:" then
      let pmid := Py.item1 (Py.split rid "PMID:") in
      Py.dict_get_or (pmid_to_abs t) pmid EmptyString
    else abstract in
  let abstract :=
    if negb (Py.truthy abstract) && Py.truthy doi then
      let obj := Py.dict_get (s2_map t) ("DOI:" ++ doi)%string in
      if Py.truthy (s2_abstract_of obj) then s2_abstract_of obj else abstract
    else abstract in
  let abstract :=
    if negb (Py.truthy abstract) && (src =? "pubmed")%string
       && Py.startswith rid "PMID:" then
      let obj :=
        Py.dict_get (s2_map t) ("PMID:" ++ Py.item1 (Py.split rid "PMID:"))%string in
      if Py.truthy (s2_abstract_of obj) then s2_abstract_of obj else abstract
    else abstract in
  let abstract :=
    if negb (Py.truthy abstract)
       && ((src =? "openalex")%string || Py.contains "openalex.org" rid) then
      let key := Py.item_last (Py.split rid "/") in
      Py.dict_get_or (openalex_map t) key EmptyString
    else abstract in
  let abstract :=
    if negb (Py.truthy abstract)
       && ((src =? "arxiv")%string || Py.contains "arxiv.org/abs/" url) then
      if Py.truthy (Py.dict_get_or (arxiv_map t) url EmptyString)
      then Py.dict_get_or (arxiv_map t) url EmptyString
      else Py.dict_get_or (arxiv_map t) rid EmptyString
    else abstract in
  abstract.

(** [abs_clean]: the abstract found, if any, with every whitespace run
    collapsed to one space, then stripped. *)
Definition abs_clean_of (t : tables) (r : record) : string :=
  Py.strip (Py.sub_runs Py.isspace (lookup_abstract t r)).

(* ------------------------------------------------------------------ *)
(** ** The PRISMA count object *)

(** [prisma["abstract_stage"]] *)
Record abs_counts : Type := mk_abs_counts {
  cnt_checked : Z;
  cnt_kept : Z;
  cnt_dropped_by_abstract : Z;
  cnt_no_abstract : Z
}.

(** [prisma["abstract_rescreen"]] *)
Record rescreen_counts : Type := mk_rescreen_counts {
  rs_checked : Z;
  rs_rescued : Z;
  rs_no_abstract : Z
}.

(** [prisma["notes"]] *)
Record prisma_notes : Type := mk_prisma_notes {
  note_strict_require_rl : bool;
  note_mv_terms : list string;
  note_weaning_terms : list string;
  note_rl_terms : list string
}.

(** The JSON object of [prisma_counts.json]; an absent key is [None]. *)
Record prisma : Type := mk_prisma {
  identified_raw_total : option Z;
  after_dedup : option Z;
  auto_screen_in : option Z;
  auto_screen_out : option Z;
  notes : option prisma_notes;
  abstract_stage_counts : option abs_counts;
  auto_screen_in_after_abstract : option Z;
  abstract_rescreen : option rescreen_counts;
  auto_screen_out_after_abstract : option Z
}.

(** [prisma = {}] *)
Definition empty_prisma : prisma :=
  mk_prisma None None None None None None None None None.

(** [int(prisma.get(key, 0))]; the counts of the stored object are the
    integers that [main] of [filter.py] wrote. *)
Definition int_or_0 (v : option Z) : Z :=
  match v with
  | Some n => n
  | None => 0%Z
  end.

(** [len(l)] as a Python integer. *)
Definition len {A : Type} (l : list A) : Z := Z.of_nat (List.length l).

(* ------------------------------------------------------------------ *)
(** ** filter.py: deduplication *)

Module Filter.

Definition normalize_text (s : string) : string :=
  Py.strip (Py.sub_runs Py.isspace s).

(** The class [[^a-z0-9]]. *)
Definition not_key_char (c : ascii) : bool :=
  negb (Py.islower c || Py.isdigit c).

Definition norm_title_key (title : string) : string :=
  let t := Py.lower (normalize_text title) in
  let t := Py.sub_runs not_key_char t in
  let t := Py.strip (Py.sub_runs Py.isspace t) in
  t.

Definition SOURCE_PRIORITY : list string :=
  ["web_of_science"; "scopus"; "openalex"; "semantic_scholar";
   "google_scholar"; "arxiv"; "pubmed"].

(** Choose a "better" record between [a] and [b] when keys collide.  The
    last two lines are the source's: both return [a]. *)
Definition better_record (a b : record) : result record :=
  if Py.truthy (doi a) && negb (Py.truthy (doi b)) then Ok a
  else if Py.truthy (doi b) && negb (Py.truthy (doi a)) then Ok b
  else if String.length (title b) <? String.length (title a) then Ok a
  else if String.length (title a) <? String.length (title b) then Ok b
  else
    ia <- Py.index SOURCE_PRIORITY (source a) ;;
    ib <- Py.index SOURCE_PRIORITY (source b) ;;
    if ia <? ib then Ok a
    else Ok a.

(** The three local variables of [deduplicate]. *)
Record dedup_state : Type := mk_dedup {
  by_doi : Py.dict record;
  by_title : Py.dict record;
  kept : list record
}.

(** The body of [if key in d: d[key] = better_record(d[key], r) else:
    d[key] = r]. *)
Definition merge_into (d : Py.dict record) (key : string) (r : record)
  : result (Py.dict record) :=
  match Py.dict_get d key with
  | Some old => best <- better_record old r ;; Ok (Py.dict_set d key best)
  | None => Ok (Py.dict_set d key r)
  end.

(** One iteration of the loop of [deduplicate]. *)
Definition dedup_step (st : dedup_state) (r : record) : result dedup_state :=
  let doi := Py.lower (doi r) in
  if Py.truthy doi then
    d <- merge_into (by_doi st) doi r ;;
    Ok (mk_dedup d (by_title st) (kept st))
  else
    let key := norm_title_key (title r) in
    if negb (Py.truthy key) then
      Ok (mk_dedup (by_doi st) (by_title st) (kept st ++ [r]))
    else
      let key := if year_truthy r then (key ++ "|" ++ year_str r)%string else key in
      d <- merge_into (by_title st) key r ;;
      Ok (mk_dedup (by_doi st) d (kept st)).

Definition dedup_finish (st : dedup_state) : list record :=
  kept st ++ Py.dict_values (by_doi st) ++ Py.dict_values (by_title st).

Definition deduplicate (records : list record) : result (list record) :=
  st <- for_each dedup_step records (mk_dedup [] [] []) ;;
  Ok (dedup_finish st).

(* ------------------------------------------------------------------ *)
(** ** filter.py: helpers of the normalizers and of the file I/O *)

(** The match of [(19|20)\d{2}] at the start of [s], as an integer. *)
Definition year_at (s : string) : option Z :=
  match s with
  | String a (String b (String c (String d _))) =>
      if (((a =? "1")%char && (b =? "9")%char)
          || ((a =? "2")%char && (b =? "0")%char))
         && Py.isdigit c && Py.isdigit d
      then Some (Py.int_of_digits
                   (String a (String b (String c (String d EmptyString)))))
      else None
  | _ => None
  end.

(** [re.search(r"(19|20)\d{2}", s)]: the leftmost match. *)
Fixpoint search_year (s : string) : option Z :=
  match year_at s with
  | Some y => Some y
  | None =>
      match s with
      | EmptyString => None
      | String _ r => search_year r
      end
  end.

(** [safe_year(text)]; the callers pass a string or [None].  The same
    function is in the rescue script. *)
Definition safe_year (text : option string) : option Z :=
  match text with
  | None => None
  | Some s => if negb (Py.truthy s) then None else search_year s
  end.

(** The values that the normalizers pass as [year]. *)
Inductive year_arg : Type :=
| YearInt (n : Z)
| YearStr (s : string)
| YearNone.

(** [x or ""] *)
Definition or_empty (x : option string) : string :=
  match x with
  | Some s => s
  | None => EmptyString
  end.

Definition norm_record (source : string) (_id title : option string)
  (authors : option (list string)) (year : year_arg)
  (doi url venue : option string) (extra : option (Py.dict string)) : record := {|
  source := source;
  id := or_empty _id;
  title := if Py.truthy (or_empty title) then normalize_text (or_empty title)
           else EmptyString;
  authors := match authors with Some l => l | None => [] end;
  year := match year with
          | YearInt n => Some n
          | YearStr s => if Py.str_isdigit s then Some (Py.int_of_digits s)
                         else None
          | YearNone => None
          end;
  doi := Py.strip (Py.replace (or_empty doi) "https://doi.org/" EmptyString);
  url := Py.strip (or_empty url);
  venue := if Py.truthy (or_empty venue) then normalize_text (or_empty venue)
           else EmptyString;
  extra := match extra with Some d => d | None => [] end;
  match_mv := None; match_weaning := None; match_rl := None;
  auto_exclude_reason := None; abstract_text := None;
  match_mv_abs := None; match_wean_abs := None; match_rl_abs := None;
  decision := None
|}.

(** [normalize_pubmed], from the parsed file on: [data] is [None] when
    the file is missing or empty, else the list under ["pmids"]. *)
Definition normalize_pubmed (data : option (list string)) : list record :=
  match data with
  | None => []
  | Some pmids =>
      map (fun pmid =>
             norm_record "pubmed" (Some ("PMID:" ++ pmid)%string) None None
                         YearNone None
                         (Some ("https://pubmed.ncbi.nlm.nih.gov/" ++ pmid
                                ++ "/")%string)
                         None None)
          pmids
  end.



(** One pass of [for pos in positions: if 0 <= pos < len(words):
    words[pos] = word]. *)
Definition place_word (word : string) (words : list string) (pos : Z)
  : list string :=
  if (0 <=? pos)%Z && (pos <? Z.of_nat (List.length words))%Z
  then Py.list_set words (Z.to_nat pos) word
  else words.

(** [reconstruct_openalex_abstract]; [None] is an argument that is not a
    dictionary.  The same function is in the rescue script. *)
Definition reconstruct_openalex_abstract
  (abstract_inv_idx : option (Py.dict (list Z))) : string :=
  match abstract_inv_idx with
  | None => EmptyString
  | Some idx =>
      let maxpos :=
        fold_left (fun maxpos positions =>
                     match positions with
                     | [] => maxpos
                     | _ => Z.max maxpos (Py.max_of positions)
                     end)
                  (Py.dict_values idx) (-1)%Z in
      let words :=
        repeat EmptyString
               (if (0 <=? maxpos)%Z then Z.to_nat (maxpos + 1) else 0) in
      let words :=
        fold_left (fun words '(word, positions) =>
                     fold_left (place_word word) positions words)
                  idx words in
      Py.strip (Py.join " " (filter Py.truthy words))
  end.

(* ------------------------------------------------------------------ *)
(** ** filter.py: stage 1, the title-level screen *)

Section Screening.
Context {RE : Regex}.

Definition compile_terms (g : knobs) (terms : list string) : list pattern :=
  let ignorecase := negb (CASE_SENSITIVE g) in
  map (fun t =>
         re_compile
           (if Py.startswith t "\b" || Py.contains "[" t || Py.contains "*" t
               || Py.contains " " t
            then t else re_escape t)
           ignorecase)
      terms.

Definition RL_RX (g : knobs) : list pattern := compile_terms g (RL_TERMS g).
Definition MV_RX (g : knobs) : list pattern := compile_terms g (MV_TERMS g).
Definition WEAN_RX (g : knobs) : list pattern := compile_terms g (WEAN_TERMS g).

Definition text_blob (rec : record) : string :=
  let parts := [title rec; venue rec] in
  let extra := extra rec in
  let parts := parts ++ [Py.dict_get_or extra "snippet" EmptyString] in
  let parts := parts ++ [Py.dict_get_or extra "pub_summary" EmptyString] in
  Py.join " " (filter Py.truthy parts).

Definition matches_any (rx_list : list pattern) (text : string) : bool :=
  existsb (fun r => search r text) rx_list.

(** One iteration of the loop of [apply_filters]; the state is the pair
    [(screened_in, screened_out)]. *)
Definition apply_filters_step (g : knobs) (st : list record * list record)
  (r : record) : list record * list record :=
  let '(screened_in, screened_out) := st in
  let blob := text_blob r in
  let has_mv := matches_any (MV_RX g) blob in
  let has_wean := matches_any (WEAN_RX g) blob in
  let has_rl := matches_any (RL_RX g) blob in
  if has_mv && has_wean && (has_rl || negb (STRICT_REQUIRE_RL g)) then
    let r := set_title_matches r has_mv has_wean has_rl in
    (screened_in ++ [r], screened_out)
  else
    let reason := [] in
    let reason := if negb has_mv then reason ++ ["no_mv"] else reason in
    let reason := if negb has_wean then reason ++ ["no_weaning"] else reason in
    let reason :=
      if STRICT_REQUIRE_RL g && negb has_rl then reason ++ ["no_rl"] else reason in
    let r :=
      set_auto_exclude_reason r
        (match reason with
         | [] => "no_match"
         | _ => Py.join "," reason
         end) in
    (screened_in, screened_out ++ [r]).

Definition apply_filters (g : knobs) (records : list record)
  : list record * list record :=
  fold_left (apply_filters_step g) records ([], []).

(* ------------------------------------------------------------------ *)
(** ** filter.py: stage 2, the abstract-level screen *)

Definition abs_compile_terms (terms : list string) : list pattern :=
  map (fun t =>
         if existsb (fun ch => Py.contains (String ch EmptyString) t)
                    (list_ascii_of_string "\[]()|?*+{}")
            || Py.contains " " t
         then re_compile t true
         else re_compile (re_escape t) true)
      terms.

Definition ABS_RL_RX (g : knobs) : list pattern := abs_compile_terms (RL_TERMS g).
Definition ABS_MV_RX (g : knobs) : list pattern := abs_compile_terms (MV_TERMS g).
Definition ABS_WEAN_RX (g : knobs) : list pattern := abs_compile_terms (WEAN_TERMS g).

Definition abs_matches_any (rx_list : list pattern) (text : string) : bool :=
  if negb (Py.truthy text) then false
  else existsb (fun r => search r text) rx_list.

(** The local variables of the second loop of [abstract_stage]. *)
Record stage2_state : Type := mk_stage2 {
  keepers : list record;
  dropped : list record;
  checked : Z;
  kept_cnt : Z;
  dropped_cnt : Z;
  noabs : Z
}.

Definition abstract_stage_step (g : knobs) (t : tables) (st : stage2_state)
  (r : record) : stage2_state :=
  let checked := (checked st + 1)%Z in
  let abs_clean := abs_clean_of t r in
  let mv := abs_matches_any (ABS_MV_RX g) abs_clean in
  let rl := abs_matches_any (ABS_RL_RX g) abs_clean in
  let wean := abs_matches_any (ABS_WEAN_RX g) abs_clean in
  if negb (Py.truthy abs_clean) then
    let r2 := with_abstract_check r EmptyString false false false "keep_no_abstract" in
    mk_stage2 (keepers st ++ [r2]) (dropped st) checked
              (kept_cnt st + 1)%Z (dropped_cnt st) (noabs st + 1)%Z
  else if mv && rl then
    let r2 := with_abstract_check r abs_clean mv wean rl "keep" in
    mk_stage2 (keepers st ++ [r2]) (dropped st) checked
              (kept_cnt st + 1)%Z (dropped_cnt st) (noabs st)
  else
    let r2 := with_abstract_check r abs_clean mv wean rl "drop_by_abstract" in
    mk_stage2 (keepers st) (dropped st ++ [r2]) checked
              (kept_cnt st) (dropped_cnt st + 1)%Z (noabs st).

(** [abstract_stage] after the tables have been fetched: returns
    [(keepers, dropped, counts)]. *)
Definition abstract_stage (g : knobs) (t : tables) (screened_rows : list record)
  : list record * list record * abs_counts :=
  let st :=
    fold_left (abstract_stage_step g t) screened_rows
              (mk_stage2 [] [] 0%Z 0%Z 0%Z 0%Z) in
  (keepers st, dropped st,
   mk_abs_counts (checked st) (kept_cnt st) (dropped_cnt st) (noabs st)).

(** What [main] writes: the three CSV files and the count object. *)
Record outputs : Type := mk_outputs {
  screened_candidates : list record;
  excluded_non_mv_weaning : list record;
  abstract_check : list record;
  prisma_counts : prisma
}.

(** [main], from the concatenated normalizer outputs [all_records] on.
    [t] holds the answers of the providers to the stage-2 lookups. *)
Definition main (g : knobs) (t : tables) (all_records : list record)
  : result outputs :=
  dedup <- deduplicate all_records ;;
  let '(screened_in, screened_out) := apply_filters g dedup in
  let prisma :=
    mk_prisma (Some (len all_records)) (Some (len dedup))
              (Some (len screened_in)) (Some (len screened_out))
              (Some (mk_prisma_notes (STRICT_REQUIRE_RL g) (MV_TERMS g)
                                     (WEAN_TERMS g) (RL_TERMS g)))
              None None None None in
  match screened_in with
  | _ :: _ =>
      let '(kept, dropped, abs_counts) := abstract_stage g t screened_in in
      let prisma :=
        mk_prisma (identified_raw_total prisma) (after_dedup prisma)
                  (auto_screen_in prisma) (auto_screen_out prisma) (notes prisma)
                  (Some abs_counts)
                  (Some (int_or_0 (auto_screen_in prisma)
                         - cnt_dropped_by_abstract abs_counts)%Z)
                  (abstract_rescreen prisma)
                  (auto_screen_out_after_abstract prisma) in
      Ok (mk_outputs screened_in screened_out kept prisma)
  | [] =>
      let prisma :=
        mk_prisma (identified_raw_total prisma) (after_dedup prisma)
                  (auto_screen_in prisma) (auto_screen_out prisma) (notes prisma)
                  (Some (mk_abs_counts 0 0 0 0))
                  (Some 0%Z)
                  (abstract_rescreen prisma)
                  (auto_screen_out_after_abstract prisma) in
      Ok (mk_outputs screened_in screened_out [] prisma)
  end.

End Screening.

End Filter.

(* ------------------------------------------------------------------ *)
(** ** rescreen_excluded_with_abstracts.py: the rescue pass *)

Module Rescreen.

Section Rescue.
Context {RE : Regex}.

Definition compile_terms (g : knobs) (terms : list string) : list pattern :=
  let ignorecase := negb (CASE_SENSITIVE g) in
  map (fun t =>
         if existsb (fun ch => Py.contains (String ch EmptyString) t)
                    (list_ascii_of_string "\[]()|?*+{}")
            || Py.contains " " t
         then re_compile t ignorecase
         else re_compile (re_escape t) ignorecase)
      terms.

Definition RL_RX (g : knobs) : list pattern := compile_terms g (RL_TERMS g).
Definition MV_RX (g : knobs) : list pattern := compile_terms g (MV_TERMS g).
Definition WEAN_RX (g : knobs) : list pattern := compile_terms g (WEAN_TERMS g).

Definition matches_any (rx_list : list pattern) (text : string) : bool :=
  if negb (Py.truthy text) then false
  else existsb (fun r => search r text) rx_list.

(** The local variables of the evaluation loop of [main]. *)
Record rescue_state : Type := mk_rescue {
  out_rows : list record;
  rescued : Z;
  confirmed : Z;
  noabs : Z
}.

Definition rescue_step (g : knobs) (t : tables) (st : rescue_state) (r : record)
  : rescue_state :=
  let abs_clean := abs_clean_of t r in
  let mv := matches_any (MV_RX g) abs_clean in
  let wean := matches_any (WEAN_RX g) abs_clean in
  let rl := matches_any (RL_RX g) abs_clean in
  let '(decision, rescued, confirmed, noabs) :=
    if Py.truthy abs_clean then
      if mv && wean && (rl || negb (STRICT_REQUIRE_RL g)) then
        ("rescue", (rescued st + 1)%Z, confirmed st, noabs st)
      else
        ("confirmed_exclude", rescued st, (confirmed st + 1)%Z, noabs st)
    else
      ("keep_no_abstract", rescued st, confirmed st, (noabs st + 1)%Z) in
  let r2 := with_abstract_check r abs_clean mv wean rl decision in
  mk_rescue (out_rows st ++ [r2]) rescued confirmed noabs.

(** [r.get("decision") != "confirmed_exclude"] *)
Definition not_confirmed_exclude (r : record) : bool :=
  match decision r with
  | Some d => negb (d =? "confirmed_exclude")%string
  | None => true
  end.

(** [main], from the rows of the excluded CSV on.  [t] holds the answers
    of the providers; [stored] is the count object read from
    [prisma_counts.json], [None] when the file is missing or unreadable.
    Returns the rows written to [abstract_check.*] and the count object
    written back. *)
Definition main (g : knobs) (t : tables) (stored : option prisma)
  (rows : list record) : list record * prisma :=
  let st := fold_left (rescue_step g t) rows (mk_rescue [] 0%Z 0%Z 0%Z) in
  let keepers := filter not_confirmed_exclude (out_rows st) in
  let abstract_rescreen :=
    mk_rescreen_counts (len (out_rows st)) (rescued st) (noabs st) in
  let prisma :=
    match stored with
    | Some p => p
    | None => empty_prisma
    end in
  let old_in := int_or_0 (auto_screen_in prisma) in
  let old_out := int_or_0 (auto_screen_out prisma) in
  let prisma :=
    mk_prisma (identified_raw_total prisma) (after_dedup prisma)
              (auto_screen_in prisma) (auto_screen_out prisma) (notes prisma)
              (abstract_stage_counts prisma)
              (Some (old_in + rescued st)%Z)
              (Some abstract_rescreen)
              (Some (Z.max 0 (old_out - rescued st))) in
  (keepers, prisma).

End Rescue.

End Rescreen.

(* ------------------------------------------------------------------ *)
(** * Vocabulary of the statements *)

(** ** Identity keys *)

(** Where [deduplicate] files a record: under a key of [by_doi], under a
    key of [by_title], or nowhere (it goes straight to [kept]). *)
Inductive identity : Type :=
| ByDoi (key : string)
| ByTitle (key : string)
| Standalone.

(** The identity key of a record: the lower-cased DOI; without a DOI the
    normalized-title key, followed by [|year] when there is a year;
    nothing when that title key is empty too. *)
Definition identity_key (r : record) : identity :=
  if Py.truthy (Py.lower (doi r)) then ByDoi (Py.lower (doi r))
  else if negb (Py.truthy (Filter.norm_title_key (title r))) then Standalone
  else if year_truthy r
       then ByTitle (Filter.norm_title_key (title r) ++ "|" ++ year_str r)%string
       else ByTitle (Filter.norm_title_key (title r)).

Definition identity_eqb (i j : identity) : bool :=
  match i, j with
  | ByDoi k, ByDoi k' => (k =? k')%string
  | ByTitle k, ByTitle k' => (k =? k')%string
  | Standalone, Standalone => true
  | _, _ => false
  end.

Definition has_identity (i : identity) (r : record) : bool :=
  identity_eqb (identity_key r) i.

Definition is_standalone : record -> bool := has_identity Standalone.

(** ** The loop invariant of [deduplicate] *)

(** A dictionary of [deduplicate] after the records [xs]: its keys are
    distinct, every value is one of [xs] and carries the key it is filed
    under, and every key met so far is present. *)
Record dict_wf (tag : string -> identity) (xs : list record)
  (d : Py.dict record) : Prop := mk_dict_wf {
  wf_nodup : NoDup (Py.dict_keys d);
  wf_key : forall k v, In (k, v) d -> identity_key v = tag k /\ In v xs;
  wf_cover : forall x k,
    In x xs -> identity_key x = tag k -> In k (Py.dict_keys d)
}.

Record dedup_inv (xs : list record) (st : Filter.dedup_state) : Prop :=
  mk_dedup_inv {
  inv_kept : Filter.kept st = filter is_standalone xs;
  inv_doi : dict_wf ByDoi xs (Filter.by_doi st);
  inv_title : dict_wf ByTitle xs (Filter.by_title st);
  inv_len :
    List.length (Filter.kept st) + List.length (Filter.by_doi st)
    + List.length (Filter.by_title st) <= List.length xs
}.

(** ** Example inputs *)

(** Two records of the tie case: a PubMed record seen first, a Web of
    Science record seen second, same title, same year, no DOI. *)
Definition tie_pubmed : record :=
  bare_record "pubmed" "PMID:31" "Weaning" (Some 2020%Z) no_doi.

Definition tie_wos : record :=
  bare_record "web_of_science" "WOS:77" "Weaning" (Some 2020%Z) no_doi.

(** A PubMed record with a DOI and a short title, and a Web of Science
    record with a longer title and no DOI. *)
Definition doi_short : record :=
  bare_record "pubmed" "PMID:5" "Short" None "10.1/ab".

Definition nodoi_long : record :=
  bare_record "web_of_science" "WOS:9" "A much longer title" None no_doi.

(** Two screened-in records and their provider tables: PubMed returns a
    blank abstract for the first, OpenAlex an abstract with a ventilator
    and no RL term for the second. *)
Definition blank_pubmed : record :=
  bare_record "pubmed" "PMID:1" "RL-based ventilator weaning protocol"
              (Some 2020%Z) no_doi.

Definition dogs_openalex : record :=
  bare_record "openalex" "https://openalex.org/W1" "Ventilation in dogs"
              (Some 2020%Z) no_doi.

Definition story_tables : tables :=
  mk_tables [("1", "   ")] [] [("W1", "the ventilator  story ")] [].

(** A record that stage 1 excluded, and the provider tables that give it
    an abstract with MV and weaning evidence but no RL evidence. *)
Definition sedation_row : record :=
  bare_record "openalex" "https://openalex.org/W7" "Sedation protocols"
               (Some 2019%Z) no_doi.

Definition sedation_tables : tables :=
  mk_tables [] [] [("W7", "Ventilator weaning outcomes in adults")] [].

(** Three raw records: two pass stage 1, and the abstract of the second
    has no RL evidence, so stage 2 drops it. *)
Definition raw_three : list record :=
  [bare_record "pubmed" "PMID:1" "RL-based ventilator weaning protocol"
                (Some 2020%Z) no_doi;
   plain_record "openalex" "https://openalex.org/W1" "Ventilation in dogs"
                (Some 2020%Z) no_doi EmptyString EmptyString
                [("snippet", "weaning q-learning")];
   bare_record "scopus" "S1" "Markov decision process"
                (Some 2020%Z) "10.1/AB"].

Definition raw_three_tables : tables :=
  mk_tables [] [] [("W1", "the ventilator  story ")] [].

(** Six raw records: two share a DOI up to case, two share a title key
    and a year, two have neither DOI nor title. *)
Definition dup_records : list record :=
  [bare_record "pubmed" "PMID:1" "Weaning by RL" (Some 2020%Z) no_doi;
   bare_record "pubmed" "PMID:2" no_title None no_doi;
   bare_record "web_of_science" "WOS:1" "weaning BY rl" (Some 2020%Z) no_doi;
   bare_record "scopus" "S1" "Weaning by RL!!" (Some 2020%Z) "10.1/AB";
   bare_record "arxiv" "A1" "x" None "10.1/ab";
   bare_record "pubmed" "PMID:3" no_title None no_doi].

(** What [deduplicate] returns on [dup_records]. *)
Definition dup_merged : list record :=
  Eval vm_compute in
    match Filter.deduplicate dup_records with
    | Ok out => out
    | Raise _ => []
    end.

(** What [main] of [filter.py] writes on [raw_three]. *)
Definition raw_three_outputs : Filter.outputs :=
  Eval vm_compute in
    match Filter.main default_knobs raw_three_tables raw_three with
    | Ok o => o
    | Raise _ => Filter.mk_outputs [] [] [] empty_prisma
    end.

Section Vocabulary.
Context {RE : Regex}.

(** ** Stage 1 *)

(** Evidence in the title-level blob of a record. *)
Definition has_mv (g : knobs) (r : record) : bool :=
  Filter.matches_any (Filter.MV_RX g) (Filter.text_blob r).

Definition has_wean (g : knobs) (r : record) : bool :=
  Filter.matches_any (Filter.WEAN_RX g) (Filter.text_blob r).

Definition has_rl (g : knobs) (r : record) : bool :=
  Filter.matches_any (Filter.RL_RX g) (Filter.text_blob r).

(** The decision rule: MV and weaning, and RL unless strict mode is off. *)
Definition title_evidence (g : knobs) (r : record) : bool :=
  has_mv g r && has_wean g r && (has_rl g r || negb (STRICT_REQUIRE_RL g)).

(** The reason codes, in the order [no_mv], [no_weaning], [no_rl]. *)
Definition reason_codes (g : knobs) (r : record) : list string :=
  (if has_mv g r then [] else ["no_mv"]) ++
  (if has_wean g r then [] else ["no_weaning"]) ++
  (if STRICT_REQUIRE_RL g && negb (has_rl g r) then ["no_rl"] else []).

Definition exclusion_reason (g : knobs) (r : record) : string :=
  match reason_codes g r with
  | [] => "no_match"
  | codes => Py.join "," codes
  end.

(** The rows that stage 1 emits for a record. *)
Definition screened_in_row (g : knobs) (r : record) : record :=
  set_title_matches r (has_mv g r) (has_wean g r) (has_rl g r).

Definition screened_out_row (g : knobs) (r : record) : record :=
  set_auto_exclude_reason r (exclusion_reason g r).

(** ** Stage 2 *)

(** Evidence in an abstract text, as [abstract_stage] computes it. *)
Definition abs_has_mv (g : knobs) (a : string) : bool :=
  Filter.abs_matches_any (Filter.ABS_MV_RX g) a.

Definition abs_has_rl (g : knobs) (a : string) : bool :=
  Filter.abs_matches_any (Filter.ABS_RL_RX g) a.

Definition abs_has_wean (g : knobs) (a : string) : bool :=
  Filter.abs_matches_any (Filter.ABS_WEAN_RX g) a.

(** The fail-open rule over a cleaned abstract. *)
Definition stage2_decision (g : knobs) (a : string) : string :=
  if negb (Py.truthy a) then "keep_no_abstract"
  else if abs_has_mv g a && abs_has_rl g a then "keep"
  else "drop_by_abstract".

Definition is_dropped (g : knobs) (t : tables) (r : record) : bool :=
  (stage2_decision g (abs_clean_of t r) =? "drop_by_abstract")%string.

Definition has_no_abstract (t : tables) (r : record) : bool :=
  negb (Py.truthy (abs_clean_of t r)).

(** The row that stage 2 emits for a record. *)
Definition stage2_row (g : knobs) (t : tables) (r : record) : record :=
  let a := abs_clean_of t r in
  with_abstract_check r a (abs_has_mv g a) (abs_has_wean g a) (abs_has_rl g a)
                      (stage2_decision g a).

(** ** Rescue pass *)

(** Evidence in an abstract text, as the rescue script computes it. *)
Definition rescue_has_mv (g : knobs) (a : string) : bool :=
  Rescreen.matches_any (Rescreen.MV_RX g) a.

Definition rescue_has_wean (g : knobs) (a : string) : bool :=
  Rescreen.matches_any (Rescreen.WEAN_RX g) a.

Definition rescue_has_rl (g : knobs) (a : string) : bool :=
  Rescreen.matches_any (Rescreen.RL_RX g) a.

(** MV and weaning, and RL unless strict mode is off. *)
Definition abstract_evidence (g : knobs) (a : string) : bool :=
  rescue_has_mv g a && rescue_has_wean g a
  && (rescue_has_rl g a || negb (STRICT_REQUIRE_RL g)).

Definition rescue_decision (g : knobs) (a : string) : string :=
  if Py.truthy a then
    if abstract_evidence g a then "rescue" else "confirmed_exclude"
  else "keep_no_abstract".

Definition is_rescued (g : knobs) (t : tables) (r : record) : bool :=
  (rescue_decision g (abs_clean_of t r) =? "rescue")%string.

Definition is_confirmed (g : knobs) (t : tables) (r : record) : bool :=
  (rescue_decision g (abs_clean_of t r) =? "confirmed_exclude")%string.

(** The row that the rescue pass builds for a record. *)
Definition rescue_row (g : knobs) (t : tables) (r : record) : record :=
  let a := abs_clean_of t r in
  with_abstract_check r a (rescue_has_mv g a) (rescue_has_wean g a)
                      (rescue_has_rl g a) (rescue_decision g a).

(** The decisions that the loop of the rescue script takes, row by row,
    before [confirmed_exclude] rows are filtered out. *)
Definition rescue_decisions (g : knobs) (t : tables) (rows : list record)
  : list (option string) :=
  map decision
      (Rescreen.out_rows
         (fold_left (Rescreen.rescue_step g t) rows
                    (Rescreen.mk_rescue [] 0%Z 0%Z 0%Z))).

(** The decisions of stage 2, keepers first, dropped rows second. *)
Definition stage2_decisions (g : knobs) (t : tables) (rows : list record)
  : list (option string) * list (option string) :=
  let '(keepers, dropped, _) := Filter.abstract_stage g t rows in
  (map decision keepers, map decision dropped).

End Vocabulary.

(* ------------------------------------------------------------------ *)
(** * Further vocabulary *)

(** All four provider tables empty: every lookup failed or found
    nothing. *)
Definition empty_tables : tables := mk_tables [] [] [] [].

(** The row of a record that is kept for want of an abstract. *)
Definition kept_without_abstract (r : record) : record :=
  with_abstract_check r EmptyString false false false "keep_no_abstract".

(** A record that gives the provider chain nothing to look up: its
    source is none of PubMed, OpenAlex and arXiv, it has no DOI, its id
    is no OpenAlex URL and its URL is no arXiv abstract page. *)
Definition no_identifier (r : record) : bool :=
  negb (Py.lower (source r) =? "pubmed")%string
  && negb (Py.lower (source r) =? "openalex")%string
  && negb (Py.lower (source r) =? "arxiv")%string
  && negb (Py.truthy (Py.strip (doi r)))
  && negb (Py.contains "openalex.org" (id r))
  && negb (Py.contains "arxiv.org/abs/" (url r)).

(** Every abstract text that the tables hold. *)
Definition table_texts (t : tables) : list string :=
  Py.dict_values (pmid_to_abs t)
  ++ map (fun o => s2_abstract_of (Some o)) (Py.dict_values (s2_map t))
  ++ Py.dict_values (openalex_map t)
  ++ Py.dict_values (arxiv_map t).

(** The dictionary a record is filed in. *)
Definition keyed_by_doi (i : identity) : bool :=
  match i with
  | ByDoi _ => true
  | _ => false
  end.

Definition keyed_by_title (i : identity) : bool :=
  match i with
  | ByTitle _ => true
  | _ => false
  end.

Definition not_keyed (i : identity) : bool :=
  match i with
  | Standalone => true
  | _ => false
  end.

Definition filed_by_doi (r : record) : bool := keyed_by_doi (identity_key r).
Definition filed_by_title (r : record) : bool := keyed_by_title (identity_key r).

(** The string under which a keyed record is filed. *)
Definition key_string (i : identity) : string :=
  match i with
  | ByDoi k => k
  | ByTitle k => k
  | Standalone => EmptyString
  end.

(** The keys of a list in the order in which each is first seen. *)
Definition first_seen (l : list identity) : list identity :=
  fold_left (fun acc i => if existsb (identity_eqb i) acc then acc else acc ++ [i])
            l [].

(** Every character of a string satisfies a test. *)
Fixpoint all_chars (p : ascii -> bool) (s : string) : bool :=
  match s with
  | EmptyString => true
  | String c r => p c && all_chars p r
  end.

(** The characters of a normalized title key: lower-case letters,
    digits and the space. *)
Definition key_char (c : ascii) : bool :=
  Py.islower c || Py.isdigit c || (c =? " ")%char.

(** The year that [deduplicate] appends to a title key: the year of the
    record unless it is absent or zero. *)
Definition effective_year (r : record) : option Z :=
  if year_truthy r then year r else None.

(** A tidy string: its only whitespace is single spaces between other
    characters.  [after_space] tells that the character before the
    string is a space (or that the string starts the text). *)
Fixpoint tidy_from (after_space : bool) (s : string) : bool :=
  match s with
  | EmptyString => negb after_space
  | String c r =>
      if Py.isspace c
      then (c =? " ")%char && negb after_space && tidy_from true r
      else tidy_from false r
  end.

Definition tidy (s : string) : bool :=
  match s with
  | EmptyString => true
  | _ => tidy_from true s
  end.

(** The same without the condition on the two ends. *)
Fixpoint collapsed_from (after_space : bool) (s : string) : bool :=
  match s with
  | EmptyString => true
  | String c r =>
      if Py.isspace c
      then (c =? " ")%char && negb after_space && collapsed_from true r
      else collapsed_from false r
  end.

(** The inverted index [idx] describes the word sequence [ws]: every
    position listed for a word is a position of [ws] that holds that
    word, and every position of [ws] is listed. *)
Definition describes (idx : Py.dict (list Z)) (ws : list string) : Prop :=
  (forall w ps p, In (w, ps) idx -> In p ps ->
     (0 <= p < Z.of_nat (List.length ws))%Z /\
     nth (Z.to_nat p) ws EmptyString = w) /\
  (forall i, i < List.length ws ->
     exists w ps, In (w, ps) idx /\ In (Z.of_nat i) ps).

(** Position [i] is listed in [ps]; it is listed somewhere in [idx]. *)
Definition listed_in (i : nat) (ps : list Z) : bool :=
  existsb (Z.eqb (Z.of_nat i)) ps.

Definition listed (i : nat) (idx : Py.dict (list Z)) : bool :=
  existsb (fun e => listed_in i (snd e)) idx.

(** A word: not empty, no whitespace in it. *)
Definition is_word (w : string) : bool :=
  Py.truthy w && all_chars (fun c => negb (Py.isspace c)) w.

(** An example index, for the words below. *)
Definition cat_index : Py.dict (list Z) :=
  [("the", [0; 3]%Z); ("cat", [1]%Z); ("saw", [2]%Z); ("dog", [4]%Z)].

Definition cat_words : list string := ["the"; "cat"; "saw"; "the"; "dog"].

(** Two records with the same DOI up to letter case. *)
Definition scopus_doi : record :=
  bare_record "scopus" "S1" "Weaning by RL!!" (Some 2020%Z) "10.1/AB".

Definition arxiv_doi : record :=
  bare_record "arxiv" "A1" "x" None "10.1/ab".

(** A PubMed table with one abstract. *)
Definition pubmed_tables : tables :=
  mk_tables [("31", "A trial of ventilator weaning.")] [] [] [].

(* ------------------------------------------------------------------ *)
(** * Properties *)

(** Membership in a list of literals. *)
Ltac in_list := simpl; repeat (first [left; reflexivity | right]).

(** ** Python helpers *)

Lemma truthy_true_iff (s : string) : Py.truthy s = true <-> s <> EmptyString.
Proof.
  destruct s; simpl; split; intro H; try discriminate; try reflexivity.
  now elim H.
Qed.

Lemma truthy_lower (s : string) : Py.truthy (Py.lower s) = Py.truthy s.
Proof. destruct s; reflexivity. Qed.

Lemma index_in (l : list string) (x : string) :
  In x l -> exists i, Py.index l x = Ok i.
Proof.
  induction l as [|y l IH]; simpl; intros Hin; [contradiction|].
  destruct (String.eqb_spec y x) as [->|Hne].
  - now exists 0.
  - destruct Hin as [->|Hin]; [now elim Hne|].
    destruct (IH Hin) as [i ->]. simpl. now exists (S i).
Qed.

(** ** [better_record] *)

(** Whatever [better_record] returns is one of its two arguments. *)
Lemma better_record_selects (a b w : record) :
  Filter.better_record a b = Ok w -> w = a \/ w = b.
Proof.
  unfold Filter.better_record.
  repeat match goal with
         | |- context [if ?c then _ else _] => destruct c
         | |- context [bind ?m _] => destruct m; simpl
         end; intros H; inversion H; auto.
Qed.

(** It raises only when a source is missing from [SOURCE_PRIORITY]. *)
Lemma better_record_returns (a b : record) :
  In (source a) Filter.SOURCE_PRIORITY ->
  In (source b) Filter.SOURCE_PRIORITY ->
  exists w, Filter.better_record a b = Ok w.
Proof.
  intros Ha Hb. unfold Filter.better_record.
  destruct (index_in _ _ Ha) as [ia ->], (index_in _ _ Hb) as [ib ->]. simpl.
  repeat match goal with
         | |- context [if ?c then _ else _] => destruct c
         end; eauto.
Qed.

(** Once DOI presence and title length tie, the first argument wins
    whatever the two sources are. *)
Lemma better_record_tie_keeps_first (a b w : record) :
  Py.truthy (doi a) = Py.truthy (doi b) ->
  String.length (title a) = String.length (title b) ->
  Filter.better_record a b = Ok w -> w = a.
Proof.
  intros Hd Hl. unfold Filter.better_record.
  rewrite Hd, Hl, Nat.ltb_irrefl.
  destruct (Py.truthy (doi b)); cbn [andb negb];
    destruct (Py.index Filter.SOURCE_PRIORITY (source a)); cbn [bind];
    try discriminate;
    destruct (Py.index Filter.SOURCE_PRIORITY (source b)); cbn [bind];
    try discriminate;
    match goal with |- context [if ?c then _ else _] => destruct c end;
    intros H; now inversion H.
Qed.

(** C1 (code evaluated at the failing input).  [tie_pubmed] and [tie_wos]
    have the same identity key, the same DOI status and titles of equal
    length; Web of Science is first in [SOURCE_PRIORITY] and PubMed
    last, yet [better_record] returns the PubMed record, and so does
    [deduplicate]: the source ordering is computed and then ignored, the
    first-seen record always wins. *)
Theorem better_record_ignores_source_priority :
  identity_key tie_pubmed = identity_key tie_wos /\
  Py.truthy (doi tie_pubmed) = Py.truthy (doi tie_wos) /\
  String.length (title tie_pubmed) = String.length (title tie_wos) /\
  Py.index Filter.SOURCE_PRIORITY (source tie_wos) = Ok 0 /\
  Py.index Filter.SOURCE_PRIORITY (source tie_pubmed) = Ok 6 /\
  Filter.better_record tie_pubmed tie_wos = Ok tie_pubmed /\
  tie_pubmed <> tie_wos /\
  Filter.deduplicate [tie_pubmed; tie_wos] = Ok [tie_pubmed].
Proof.
  repeat split; try reflexivity. discriminate.
Qed.

(** C6.  DOI precedence: when exactly one of [a], [b] has a non-empty
    [doi], [better_record a b] returns that one, whatever the titles and
    the sources are (no assumption is made on them, nor on the keys). *)
Theorem better_record_doi_precedence (a b : record) :
  (doi a <> EmptyString /\ doi b = EmptyString) \/
  (doi a = EmptyString /\ doi b <> EmptyString) ->
  exists w,
    Filter.better_record a b = Ok w /\
    doi w <> EmptyString /\
    (doi b = EmptyString -> w = a) /\
    (doi a = EmptyString -> w = b).
Proof.
  intros [[Ha Hb]|[Ha Hb]]; unfold Filter.better_record.
  - apply truthy_true_iff in Ha. rewrite Ha, Hb. simpl.
    exists a. apply truthy_true_iff in Ha. repeat split; auto.
    intros Hc. now elim Ha.
  - apply truthy_true_iff in Hb. rewrite Ha, Hb. simpl.
    exists b. apply truthy_true_iff in Hb. repeat split; auto.
    intros Hc. now elim Hb.
Qed.

(** A record with a DOI against a longer-titled record of the
    top-priority source without one. *)
Lemma better_record_doi_precedence_witness :
  ((doi doi_short <> EmptyString /\ doi nodoi_long = EmptyString) \/
   (doi doi_short = EmptyString /\ doi nodoi_long <> EmptyString)) /\
  exists w,
    Filter.better_record doi_short nodoi_long = Ok w /\
    doi w <> EmptyString /\
    (doi nodoi_long = EmptyString -> w = doi_short) /\
    (doi doi_short = EmptyString -> w = nodoi_long).
Proof.
  assert (H : (doi doi_short <> EmptyString /\ doi nodoi_long = EmptyString) \/
              (doi doi_short = EmptyString /\ doi nodoi_long <> EmptyString)).
  { left. split; [discriminate | reflexivity]. }
  split; [exact H|]. exact (better_record_doi_precedence doi_short nodoi_long H).
Defined.

(** ** Stage 1: [apply_filters] *)

Section Stage1.
Context {RE : Regex}.

(** "The blob matches at least one term of the list." *)
Lemma matches_any_iff (g : knobs) (terms : list string) (blob : string) :
  Filter.matches_any (Filter.compile_terms g terms) blob = true <->
  exists rx, In rx (Filter.compile_terms g terms) /\ search rx blob = true.
Proof. unfold Filter.matches_any. apply existsb_exists. Qed.

Lemma apply_filters_step_eq (g : knobs) (si so : list record) (r : record) :
  Filter.apply_filters_step g (si, so) r =
  if title_evidence g r
  then (si ++ [screened_in_row g r], so)
  else (si, so ++ [screened_out_row g r]).
Proof.
  unfold Filter.apply_filters_step, title_evidence, screened_in_row,
    screened_out_row, exclusion_reason, reason_codes, has_mv, has_wean, has_rl.
  destruct (Filter.matches_any (Filter.MV_RX g) (Filter.text_blob r)),
    (Filter.matches_any (Filter.WEAN_RX g) (Filter.text_blob r)),
    (Filter.matches_any (Filter.RL_RX g) (Filter.text_blob r)),
    (STRICT_REQUIRE_RL g); reflexivity.
Qed.

Lemma apply_filters_from (g : knobs) (records si so : list record) :
  fold_left (Filter.apply_filters_step g) records (si, so) =
  (si ++ map (screened_in_row g) (filter (title_evidence g) records),
   so ++ map (screened_out_row g)
             (filter (fun r => negb (title_evidence g r)) records)).
Proof.
  revert si so. induction records as [|r records IH]; intros si so;
    cbn [fold_left filter map].
  - now rewrite !app_nil_r.
  - rewrite apply_filters_step_eq.
    destruct (title_evidence g r); cbn [negb map]; rewrite IH;
      now rewrite <- !app_assoc.
Qed.

Lemma apply_filters_eq (g : knobs) (records : list record) :
  Filter.apply_filters g records =
  (map (screened_in_row g) (filter (title_evidence g) records),
   map (screened_out_row g)
       (filter (fun r => negb (title_evidence g r)) records)).
Proof. unfold Filter.apply_filters. now rewrite apply_filters_from. Qed.

(** The stage-1 annotations leave the evidence blob alone. *)
Lemma title_evidence_screened_in_row (g : knobs) (r : record) :
  title_evidence g (screened_in_row g r) = title_evidence g r.
Proof. reflexivity. Qed.

Lemma title_evidence_screened_out_row (g : knobs) (r : record) :
  title_evidence g (screened_out_row g r) = title_evidence g r.
Proof. reflexivity. Qed.

Lemma filter_partition_length {A : Type} (p : A -> bool) (l : list A) :
  List.length (filter p l) + List.length (filter (fun x => negb (p x)) l)
  = List.length l.
Proof.
  induction l as [|x l IH]; simpl; [reflexivity|].
  destruct (p x); simpl; lia.
Qed.

(** A record fails the rule only with at least one reason code, so the
    default [no_match] is never written. *)
Lemma reason_codes_nonempty (g : knobs) (r : record) :
  title_evidence g r = false -> reason_codes g r <> [].
Proof.
  unfold title_evidence, reason_codes.
  destruct (has_mv g r), (has_wean g r), (has_rl g r), (STRICT_REQUIRE_RL g);
    simpl; intros H; discriminate.
Qed.

(** C2.  [apply_filters] splits the merged records in two: a record whose
    title+venue+snippet blob has MV evidence and weaning evidence (and RL
    evidence unless [STRICT_REQUIRE_RL] is off) goes to [screened_in]
    with its three flags; every other record goes to [screened_out] with
    the reason codes [no_mv], [no_weaning], [no_rl] that apply, in that
    order, joined by commas ([no_rl] only in strict mode; [no_match] if
    there were none, which never happens).  No row is in both lists and
    the two lengths add up to the number of records. *)
Theorem apply_filters_partition (g : knobs) (records : list record) :
  let '(screened_in, screened_out) := Filter.apply_filters g records in
  (forall x, In x screened_in <->
     exists r, In r records /\ title_evidence g r = true /\
               x = screened_in_row g r) /\
  (forall x, In x screened_out <->
     exists r, In r records /\ title_evidence g r = false /\
               x = screened_out_row g r) /\
  (forall r, title_evidence g r = false ->
     reason_codes g r <> [] /\
     auto_exclude_reason (screened_out_row g r)
     = Some (Py.join "," (reason_codes g r))) /\
  (forall x, In x screened_in -> ~ In x screened_out) /\
  List.length screened_in + List.length screened_out = List.length records.
Proof.
  rewrite apply_filters_eq.
  assert (Hin : forall x,
    In x (map (screened_in_row g) (filter (title_evidence g) records)) <->
    exists r, In r records /\ title_evidence g r = true /\
              x = screened_in_row g r).
  { intros x. rewrite in_map_iff. split.
    - intros (r & <- & Hr). apply filter_In in Hr. exists r. tauto.
    - intros (r & Hr & He & ->). exists r. split; [reflexivity|].
      apply filter_In. tauto. }
  assert (Hout : forall x,
    In x (map (screened_out_row g)
              (filter (fun r => negb (title_evidence g r)) records)) <->
    exists r, In r records /\ title_evidence g r = false /\
              x = screened_out_row g r).
  { intros x. rewrite in_map_iff. split.
    - intros (r & <- & Hr). apply filter_In in Hr. exists r.
      destruct Hr as [Hr He]. apply negb_true_iff in He. tauto.
    - intros (r & Hr & He & ->). exists r. split; [reflexivity|].
      apply filter_In. rewrite He. tauto. }
  split; [exact Hin|]. split; [exact Hout|]. split; [|split].
  - intros r H. pose proof (reason_codes_nonempty g r H) as Hne.
    split; [exact Hne|].
    unfold screened_out_row, exclusion_reason. simpl.
    destruct (reason_codes g r); [now elim Hne | reflexivity].
  - intros x Hx Hx'. apply Hin in Hx. apply Hout in Hx'.
    destruct Hx as (r & _ & He & ->), Hx' as (r' & _ & He' & Heq).
    rewrite <- title_evidence_screened_in_row in He. rewrite Heq in He.
    rewrite title_evidence_screened_out_row in He. congruence.
  - rewrite !length_map. apply filter_partition_length.
Qed.

End Stage1.

(** ** Stage 2: [abstract_stage] *)

Lemma len_cons {A : Type} (l : list A) (x : A) : len (x :: l) = (len l + 1)%Z.
Proof. unfold len. simpl List.length. lia. Qed.

Lemma len_map {A B : Type} (f : A -> B) (l : list A) : len (map f l) = len l.
Proof. unfold len. now rewrite length_map. Qed.

(** The lookup chain reads [source], [id], [doi] and [url] only. *)
Lemma abs_clean_of_with_abstract_check (t : tables) (r : record) (a : string)
  (mv wean rl : bool) (d : string) :
  abs_clean_of t (with_abstract_check r a mv wean rl d) = abs_clean_of t r.
Proof. reflexivity. Qed.

Section Stage2.
Context {RE : Regex}.

Lemma abs_matches_any_empty (rx : list pattern) :
  Filter.abs_matches_any rx EmptyString = false.
Proof. reflexivity. Qed.

(** "The abstract matches at least one term of the list." *)
Lemma abs_matches_any_iff (terms : list string) (a : string) :
  Filter.abs_matches_any (Filter.abs_compile_terms terms) a = true <->
  a <> EmptyString /\
  exists rx, In rx (Filter.abs_compile_terms terms) /\ search rx a = true.
Proof.
  unfold Filter.abs_matches_any. destruct a as [|c a]; simpl.
  - split; [discriminate | intros [H _]; now elim H].
  - rewrite existsb_exists. split.
    + intros H. split; [discriminate | exact H].
    + now intros [_ H].
Qed.

Lemma abstract_stage_step_eq (g : knobs) (t : tables)
  (st : Filter.stage2_state) (r : record) :
  Filter.abstract_stage_step g t st r =
  Filter.mk_stage2
    (Filter.keepers st ++ (if is_dropped g t r then [] else [stage2_row g t r]))
    (Filter.dropped st ++ (if is_dropped g t r then [stage2_row g t r] else []))
    (Filter.checked st + 1)
    (Filter.kept_cnt st + (if is_dropped g t r then 0 else 1))
    (Filter.dropped_cnt st + (if is_dropped g t r then 1 else 0))
    (Filter.noabs st + (if has_no_abstract t r then 1 else 0)).
Proof.
  unfold Filter.abstract_stage_step, is_dropped, has_no_abstract, stage2_row,
    stage2_decision, abs_has_mv, abs_has_rl, abs_has_wean.
  destruct (abs_clean_of t r) as [|c a] eqn:Ha.
  - cbn [Py.truthy negb String.eqb]. rewrite !abs_matches_any_empty.
    rewrite !app_nil_r, !Z.add_0_r. reflexivity.
  - cbn [Py.truthy negb].
    destruct (Filter.abs_matches_any (Filter.ABS_MV_RX g) (String c a)),
      (Filter.abs_matches_any (Filter.ABS_RL_RX g) (String c a));
      cbn [andb]; rewrite ?app_nil_r, ?Z.add_0_r; reflexivity.
Qed.

Lemma abstract_stage_from (g : knobs) (t : tables) (rows : list record)
  (st : Filter.stage2_state) :
  fold_left (Filter.abstract_stage_step g t) rows st =
  Filter.mk_stage2
    (Filter.keepers st
       ++ map (stage2_row g t) (filter (fun r => negb (is_dropped g t r)) rows))
    (Filter.dropped st ++ map (stage2_row g t) (filter (is_dropped g t) rows))
    (Filter.checked st + len rows)
    (Filter.kept_cnt st + len (filter (fun r => negb (is_dropped g t r)) rows))
    (Filter.dropped_cnt st + len (filter (is_dropped g t) rows))
    (Filter.noabs st + len (filter (has_no_abstract t) rows)).
Proof.
  revert st. induction rows as [|r rows IH]; intros st;
    cbn [fold_left filter map].
  - destruct st. cbn. now rewrite !app_nil_r, !Z.add_0_r.
  - rewrite IH, abstract_stage_step_eq. cbn [Filter.keepers Filter.dropped
      Filter.checked Filter.kept_cnt Filter.dropped_cnt Filter.noabs].
    destruct (is_dropped g t r), (has_no_abstract t r); cbn [negb map];
      rewrite ?len_cons, <- ?app_assoc; cbn [app]; f_equal; lia.
Qed.

Lemma abstract_stage_eq (g : knobs) (t : tables) (rows : list record) :
  Filter.abstract_stage g t rows =
  (map (stage2_row g t) (filter (fun r => negb (is_dropped g t r)) rows),
   map (stage2_row g t) (filter (is_dropped g t) rows),
   mk_abs_counts (len rows)
                 (len (filter (fun r => negb (is_dropped g t r)) rows))
                 (len (filter (is_dropped g t) rows))
                 (len (filter (has_no_abstract t) rows))).
Proof.
  unfold Filter.abstract_stage. rewrite abstract_stage_from. reflexivity.
Qed.

Lemma stage2_decision_nonempty (g : knobs) (a : string) :
  a <> EmptyString ->
  stage2_decision g a =
  if abs_has_mv g a && abs_has_rl g a then "keep" else "drop_by_abstract".
Proof.
  intros Ha. unfold stage2_decision. apply truthy_true_iff in Ha. now rewrite Ha.
Qed.

(** The weaning terms play no part in the decision. *)
Lemma stage2_decision_wean_terms (g : knobs) (ws : list string) (a : string) :
  stage2_decision (with_wean_terms ws g) a = stage2_decision g a.
Proof. reflexivity. Qed.

Lemma in_dropped_inv (g : knobs) (t : tables) (rows : list record) (x : record) :
  In x (map (stage2_row g t) (filter (is_dropped g t) rows)) ->
  exists r, In r rows /\ x = stage2_row g t r /\
            stage2_decision g (abs_clean_of t r) = "drop_by_abstract".
Proof.
  rewrite in_map_iff. intros (r & <- & Hr). apply filter_In in Hr.
  destruct Hr as [Hr Hd]. exists r. repeat split; auto.
  now apply String.eqb_eq in Hd.
Qed.

Lemma in_keepers_inv (g : knobs) (t : tables) (rows : list record) (x : record) :
  In x (map (stage2_row g t) (filter (fun r => negb (is_dropped g t r)) rows)) ->
  exists r, In r rows /\ x = stage2_row g t r /\
            stage2_decision g (abs_clean_of t r) <> "drop_by_abstract".
Proof.
  rewrite in_map_iff. intros (r & <- & Hr). apply filter_In in Hr.
  destruct Hr as [Hr Hd]. exists r. repeat split; auto.
  apply negb_true_iff in Hd. now apply String.eqb_neq in Hd.
Qed.

(** C3.  Fail-open: a screened-in record whose cleaned abstract is empty
    gets [decision = keep_no_abstract] (empty abstract, all three flags
    false) and is among the keepers; no row built from it is among the
    dropped rows, and every dropped row carries [drop_by_abstract] with a
    non-empty abstract. *)
Theorem abstract_stage_fail_open (g : knobs) (t : tables) (rows : list record)
  (r : record) :
  In r rows ->
  abs_clean_of t r = EmptyString ->
  let '(keepers, dropped, _) := Filter.abstract_stage g t rows in
  In (with_abstract_check r EmptyString false false false "keep_no_abstract")
     keepers /\
  (forall a mv wean rl d,
     ~ In (with_abstract_check r a mv wean rl d) dropped) /\
  (forall x, In x dropped ->
     decision x = Some "drop_by_abstract" /\
     exists a, abstract_text x = Some a /\ a <> EmptyString).
Proof.
  intros Hin Ha. rewrite abstract_stage_eq. split; [|split].
  - apply in_map_iff. exists r. split.
    + unfold stage2_row. rewrite Ha. reflexivity.
    + apply filter_In. split; [exact Hin|].
      unfold is_dropped. now rewrite Ha.
  - intros a mv wean rl d Hx. apply in_dropped_inv in Hx.
    destruct Hx as (r' & _ & Heq & Hd).
    assert (Hc : abs_clean_of t r' = abs_clean_of t r).
    { rewrite <- (abs_clean_of_with_abstract_check t r a mv wean rl d), Heq.
      reflexivity. }
    rewrite Hc, Ha in Hd. discriminate.
  - intros x Hx. apply in_dropped_inv in Hx.
    destruct Hx as (r' & _ & -> & Hd). split.
    + unfold stage2_row. cbn [decision with_abstract_check]. now rewrite Hd.
    + exists (abs_clean_of t r'). split; [reflexivity|].
      intros He. rewrite He in Hd. discriminate.
Qed.

End Stage2.

(** [blank_pubmed] is kept, [dogs_openalex] is the one dropped row. *)
Lemma abstract_stage_fail_open_witness :
  In blank_pubmed [dogs_openalex; blank_pubmed] /\
  abs_clean_of story_tables blank_pubmed = EmptyString /\
  let '(keepers, dropped, _) :=
    Filter.abstract_stage default_knobs story_tables
                          [dogs_openalex; blank_pubmed] in
  In (with_abstract_check blank_pubmed EmptyString false false false
                          "keep_no_abstract")
     keepers /\
  (forall a mv wean rl d,
     ~ In (with_abstract_check blank_pubmed a mv wean rl d) dropped) /\
  (forall x, In x dropped ->
     decision x = Some "drop_by_abstract" /\
     exists a, abstract_text x = Some a /\ a <> EmptyString).
Proof.
  assert (H1 : In blank_pubmed [dogs_openalex; blank_pubmed])
    by (right; left; reflexivity).
  assert (H2 : abs_clean_of story_tables blank_pubmed = EmptyString)
    by reflexivity.
  split; [exact H1|]. split; [exact H2|].
  exact (abstract_stage_fail_open default_knobs story_tables
           [dogs_openalex; blank_pubmed] blank_pubmed H1 H2).
Defined.

Section Stage2Decision.
Context {RE : Regex}.

(** C4.  For a screened-in record with a non-empty cleaned abstract [a]:
    its row, carrying [a] and the three flags computed on [a], is among
    the keepers with [decision = keep] exactly when [a] has MV evidence
    and RL evidence, and among the dropped rows with
    [decision = drop_by_abstract] exactly when it lacks one of them.  The
    weaning flag is stored in [match_wean_abs]; replacing the weaning
    term list by any other list changes no decision and no count. *)
Theorem abstract_stage_decision (g : knobs) (t : tables) (rows : list record)
  (r : record) :
  In r rows ->
  abs_clean_of t r <> EmptyString ->
  let a := abs_clean_of t r in
  let row := with_abstract_check r a (abs_has_mv g a) (abs_has_wean g a)
                                 (abs_has_rl g a) in
  let '(keepers, dropped, counts) := Filter.abstract_stage g t rows in
  (In (row "keep") keepers <-> abs_has_mv g a && abs_has_rl g a = true) /\
  (In (row "drop_by_abstract") dropped <->
     abs_has_mv g a && abs_has_rl g a = false) /\
  (forall d, In (row d) keepers -> ~ In (row d) dropped) /\
  match_wean_abs (row "keep") = Some (abs_has_wean g a) /\
  (forall ws,
     stage2_decisions (with_wean_terms ws g) t rows
     = (map decision keepers, map decision dropped) /\
     snd (Filter.abstract_stage (with_wean_terms ws g) t rows) = counts).
Proof.
  intros Hin Ha a row. rewrite abstract_stage_eq.
  pose proof (stage2_decision_nonempty g a Ha) as Hdec.
  assert (Hrow : stage2_row g t r = row (stage2_decision g a)) by reflexivity.
  split; [|split; [|split; [|split]]].
  - split.
    + intros Hx. apply in_keepers_inv in Hx.
      destruct Hx as (r' & _ & Heq & _).
      assert (Hc : abs_clean_of t r' = a).
      { change a with (abs_clean_of t (row "keep")). now rewrite Heq. }
      apply (f_equal decision) in Heq. unfold stage2_row in Heq.
      cbn [decision with_abstract_check row] in Heq. rewrite Hc in Heq.
      rewrite Hdec in Heq.
      destruct (abs_has_mv g a && abs_has_rl g a); [reflexivity|discriminate].
    + intros Hb. apply in_map_iff. exists r. split.
      * rewrite Hrow, Hdec, Hb. reflexivity.
      * apply filter_In. split; [exact Hin|].
        unfold is_dropped. fold a. now rewrite Hdec, Hb.
  - split.
    + intros Hx. apply in_dropped_inv in Hx.
      destruct Hx as (r' & _ & Heq & _).
      assert (Hc : abs_clean_of t r' = a).
      { change a with (abs_clean_of t (row "drop_by_abstract")). now rewrite Heq. }
      apply (f_equal decision) in Heq. unfold stage2_row in Heq.
      cbn [decision with_abstract_check row] in Heq. rewrite Hc in Heq.
      rewrite Hdec in Heq.
      destruct (abs_has_mv g a && abs_has_rl g a); [discriminate|reflexivity].
    + intros Hb. apply in_map_iff. exists r. split.
      * rewrite Hrow, Hdec, Hb. reflexivity.
      * apply filter_In. split; [exact Hin|].
        unfold is_dropped. fold a. now rewrite Hdec, Hb.
  - intros d Hk Hd. apply in_keepers_inv in Hk. apply in_dropped_inv in Hd.
    destruct Hk as (r1 & _ & Heq1 & Hn1), Hd as (r2 & _ & Heq2 & Hd2).
    assert (Hc1 : abs_clean_of t r1 = a).
    { change a with (abs_clean_of t (row d)). now rewrite Heq1. }
    assert (Hc2 : abs_clean_of t r2 = a).
    { change a with (abs_clean_of t (row d)). now rewrite Heq2. }
    rewrite Hc1 in Hn1. rewrite Hc2 in Hd2. contradiction.
  - reflexivity.
  - intros ws. unfold stage2_decisions. rewrite abstract_stage_eq.
    split; [|reflexivity].
    f_equal; rewrite !map_map; reflexivity.
Qed.

End Stage2Decision.

(** Scenario D: screened in at stage 1, the abstract mentions a
    ventilator but no RL term. *)
Lemma abstract_stage_decision_witness :
  In dogs_openalex [dogs_openalex; blank_pubmed] /\
  abs_clean_of story_tables dogs_openalex <> EmptyString /\
  let g := default_knobs in
  let a := abs_clean_of story_tables dogs_openalex in
  let row := with_abstract_check dogs_openalex a (abs_has_mv g a)
                                 (abs_has_wean g a) (abs_has_rl g a) in
  let '(keepers, dropped, counts) :=
    Filter.abstract_stage g story_tables [dogs_openalex; blank_pubmed] in
  (In (row "keep") keepers <-> abs_has_mv g a && abs_has_rl g a = true) /\
  (In (row "drop_by_abstract") dropped <->
     abs_has_mv g a && abs_has_rl g a = false) /\
  (forall d, In (row d) keepers -> ~ In (row d) dropped) /\
  match_wean_abs (row "keep") = Some (abs_has_wean g a) /\
  (forall ws,
     stage2_decisions (with_wean_terms ws g) story_tables
                      [dogs_openalex; blank_pubmed]
     = (map decision keepers, map decision dropped) /\
     snd (Filter.abstract_stage (with_wean_terms ws g) story_tables
                                [dogs_openalex; blank_pubmed]) = counts).
Proof.
  assert (H1 : In dogs_openalex [dogs_openalex; blank_pubmed])
    by (left; reflexivity).
  assert (H2 : abs_clean_of story_tables dogs_openalex <> EmptyString)
    by (vm_compute; discriminate).
  split; [exact H1|]. split; [exact H2|].
  exact (abstract_stage_decision default_knobs story_tables
           [dogs_openalex; blank_pubmed] dogs_openalex H1 H2).
Defined.

(** ** The rescue pass *)

Section RescuePass.
Context {RE : Regex}.

Lemma rescue_step_eq (g : knobs) (t : tables) (st : Rescreen.rescue_state)
  (r : record) :
  Rescreen.rescue_step g t st r =
  Rescreen.mk_rescue
    (Rescreen.out_rows st ++ [rescue_row g t r])
    (Rescreen.rescued st + (if is_rescued g t r then 1 else 0))
    (Rescreen.confirmed st + (if is_confirmed g t r then 1 else 0))
    (Rescreen.noabs st + (if has_no_abstract t r then 1 else 0)).
Proof.
  unfold Rescreen.rescue_step, is_rescued, is_confirmed, has_no_abstract,
    rescue_row, rescue_decision, abstract_evidence, rescue_has_mv,
    rescue_has_wean, rescue_has_rl.
  destruct (Py.truthy (abs_clean_of t r)); cbn [negb].
  - destruct (Rescreen.matches_any (Rescreen.MV_RX g) (abs_clean_of t r)
              && Rescreen.matches_any (Rescreen.WEAN_RX g) (abs_clean_of t r)
              && (Rescreen.matches_any (Rescreen.RL_RX g) (abs_clean_of t r)
                  || negb (STRICT_REQUIRE_RL g)));
      cbn [String.eqb Ascii.eqb Bool.eqb]; rewrite !Z.add_0_r; reflexivity.
  - cbn [String.eqb Ascii.eqb Bool.eqb]. rewrite !Z.add_0_r. reflexivity.
Qed.

Lemma rescue_from (g : knobs) (t : tables) (rows : list record)
  (st : Rescreen.rescue_state) :
  fold_left (Rescreen.rescue_step g t) rows st =
  Rescreen.mk_rescue
    (Rescreen.out_rows st ++ map (rescue_row g t) rows)
    (Rescreen.rescued st + len (filter (is_rescued g t) rows))
    (Rescreen.confirmed st + len (filter (is_confirmed g t) rows))
    (Rescreen.noabs st + len (filter (has_no_abstract t) rows)).
Proof.
  revert st. induction rows as [|r rows IH]; intros st;
    cbn [fold_left filter map].
  - destruct st. cbn. now rewrite !app_nil_r, !Z.add_0_r.
  - rewrite IH, rescue_step_eq. cbn [Rescreen.out_rows Rescreen.rescued
      Rescreen.confirmed Rescreen.noabs].
    destruct (is_rescued g t r), (is_confirmed g t r), (has_no_abstract t r);
      rewrite ?len_cons, <- ?app_assoc; cbn [app]; f_equal; lia.
Qed.

Lemma rescue_decisions_eq (g : knobs) (t : tables) (rows : list record) :
  rescue_decisions g t rows =
  map (fun r => Some (rescue_decision g (abs_clean_of t r))) rows.
Proof.
  unfold rescue_decisions. rewrite rescue_from. cbn [Rescreen.out_rows app].
  rewrite map_map. reflexivity.
Qed.

Lemma filter_map_commute {A B : Type} (f : A -> B) (p : B -> bool) (l : list A) :
  filter p (map f l) = map f (filter (fun x => p (f x)) l).
Proof.
  induction l as [|x l IH]; simpl; [reflexivity|].
  destruct (p (f x)); simpl; now rewrite IH.
Qed.

(** What [main] of the rescue script returns. *)
Lemma rescue_main_eq (g : knobs) (t : tables) (stored : option prisma)
  (rows : list record) :
  Rescreen.main g t stored rows =
  let base := match stored with Some p => p | None => empty_prisma end in
  let n := len (filter (is_rescued g t) rows) in
  (map (rescue_row g t) (filter (fun r => negb (is_confirmed g t r)) rows),
   mk_prisma (identified_raw_total base) (after_dedup base)
             (auto_screen_in base) (auto_screen_out base) (notes base)
             (abstract_stage_counts base)
             (Some (int_or_0 (auto_screen_in base) + n)%Z)
             (Some (mk_rescreen_counts
                      (len rows) n (len (filter (has_no_abstract t) rows))))
             (Some (Z.max 0 (int_or_0 (auto_screen_out base) - n)))).
Proof.
  unfold Rescreen.main. rewrite rescue_from.
  cbn [Rescreen.out_rows Rescreen.rescued Rescreen.noabs app].
  rewrite filter_map_commute. cbv zeta.
  rewrite len_map, !Z.add_0_l. reflexivity.
Qed.

Lemma rescue_decision_cases (g : knobs) (a : string) :
  rescue_decision g a = "rescue" \/
  rescue_decision g a = "confirmed_exclude" \/
  rescue_decision g a = "keep_no_abstract".
Proof.
  unfold rescue_decision.
  destruct (Py.truthy a), (abstract_evidence g a); auto.
Qed.

Lemma rescue_decision_rescue_iff (g : knobs) (a : string) :
  rescue_decision g a = "rescue" <->
  a <> EmptyString /\ abstract_evidence g a = true.
Proof.
  unfold rescue_decision. destruct a as [|c a]; cbn [Py.truthy].
  - split; [discriminate | intros [H _]; now elim H].
  - destruct (abstract_evidence g (String c a)); split;
      try discriminate; auto.
    + intros _. split; [discriminate | reflexivity].
    + intros [_ H]. discriminate.
Qed.

(** C5.  The rescue pass, row by row: with an abstract, [rescue] exactly
    when the abstract has MV evidence and weaning evidence (and RL
    evidence unless [STRICT_REQUIRE_RL] is off), [confirmed_exclude]
    otherwise; without an abstract, [keep_no_abstract].  The rows written
    out are the rows of the records not decided [confirmed_exclude]: each
    carries [rescue] or [keep_no_abstract], and a row carrying [rescue]
    has a non-empty abstract that satisfies the evidence predicate. *)
Theorem rescue_pass_decisions (g : knobs) (t : tables) (stored : option prisma)
  (rows : list record) :
  let '(keepers, _) := Rescreen.main g t stored rows in
  rescue_decisions g t rows
  = map (fun r => Some (rescue_decision g (abs_clean_of t r))) rows /\
  (forall a, a <> EmptyString ->
     rescue_decision g a =
     if rescue_has_mv g a && rescue_has_wean g a
        && (rescue_has_rl g a || negb (STRICT_REQUIRE_RL g))
     then "rescue" else "confirmed_exclude") /\
  rescue_decision g EmptyString = "keep_no_abstract" /\
  (forall x, In x keepers <->
     exists r, In r rows /\ x = rescue_row g t r /\
               rescue_decision g (abs_clean_of t r) <> "confirmed_exclude") /\
  (forall x, In x keepers ->
     decision x = Some "rescue" \/ decision x = Some "keep_no_abstract") /\
  (forall x, In x keepers -> decision x = Some "rescue" ->
     exists a, abstract_text x = Some a /\ a <> EmptyString /\
               rescue_has_mv g a && rescue_has_wean g a
               && (rescue_has_rl g a || negb (STRICT_REQUIRE_RL g)) = true).
Proof.
  rewrite rescue_main_eq. cbv zeta.
  assert (Hk : forall x,
    In x (map (rescue_row g t) (filter (fun r => negb (is_confirmed g t r)) rows))
    <-> exists r, In r rows /\ x = rescue_row g t r /\
                  rescue_decision g (abs_clean_of t r) <> "confirmed_exclude").
  { intros x. rewrite in_map_iff. split.
    - intros (r & <- & Hr). apply filter_In in Hr. destruct Hr as [Hr Hc].
      exists r. repeat split; auto.
      apply negb_true_iff in Hc. now apply String.eqb_neq in Hc.
    - intros (r & Hr & -> & Hc). exists r. split; [reflexivity|].
      apply filter_In. split; [exact Hr|].
      apply negb_true_iff. now apply String.eqb_neq. }
  split; [apply rescue_decisions_eq|].
  split; [|split; [reflexivity|split; [exact Hk|split]]].
  - intros a Ha. unfold rescue_decision, abstract_evidence.
    apply truthy_true_iff in Ha. now rewrite Ha.
  - intros x Hx. apply Hk in Hx. destruct Hx as (r & _ & -> & Hc).
    unfold rescue_row. cbn [decision with_abstract_check].
    destruct (rescue_decision_cases g (abs_clean_of t r)) as [H|[H|H]];
      rewrite H in *; auto. now elim Hc.
  - intros x Hx Hd. apply Hk in Hx. destruct Hx as (r & _ & -> & _).
    unfold rescue_row in Hd. cbn [decision with_abstract_check] in Hd.
    injection Hd as Hd. apply rescue_decision_rescue_iff in Hd.
    exists (abs_clean_of t r). split; [reflexivity|]. exact Hd.
Qed.

End RescuePass.

(** ** The strict-RL switch *)

(** C9 (counterexample).  [sedation_row] has an abstract with MV and
    weaning evidence and no RL evidence: the rescue pass decides [rescue]
    with the switch off and [confirmed_exclude] with the switch on. *)
Lemma strict_mode_changes_rescue_decision :
  rescue_decisions (with_strict false default_knobs) sedation_tables [sedation_row]
  <> rescue_decisions (with_strict true default_knobs) sedation_tables [sedation_row].
Proof. vm_compute. discriminate. Qed.

Section StrictSwitch.
Context {RE : Regex}.

Lemma rescue_decision_strict_irrelevant (g : knobs) (a : string) (b1 b2 : bool) :
  a = EmptyString \/ rescue_has_rl g a = true \/
  rescue_has_mv g a && rescue_has_wean g a = false ->
  rescue_decision (with_strict b1 g) a = rescue_decision (with_strict b2 g) a.
Proof.
  unfold rescue_decision, abstract_evidence.
  change (rescue_has_mv (with_strict b1 g) a) with (rescue_has_mv g a).
  change (rescue_has_mv (with_strict b2 g) a) with (rescue_has_mv g a).
  change (rescue_has_wean (with_strict b1 g) a) with (rescue_has_wean g a).
  change (rescue_has_wean (with_strict b2 g) a) with (rescue_has_wean g a).
  change (rescue_has_rl (with_strict b1 g) a) with (rescue_has_rl g a).
  change (rescue_has_rl (with_strict b2 g) a) with (rescue_has_rl g a).
  intros [->|[H|H]].
  - reflexivity.
  - rewrite H. reflexivity.
  - rewrite H. reflexivity.
Qed.

(** C9 (amended).  Stage 2 does not read the switch: its keepers, its
    dropped rows and its counts are the same in two runs that differ only
    in [STRICT_REQUIRE_RL].  The rescue pass reads it: its decisions are
    the same in the two runs for rows whose cleaned abstract is empty,
    has RL evidence, or lacks MV or weaning evidence; for a row whose
    non-empty abstract has MV and weaning evidence and no RL evidence,
    the decision is [rescue] with the switch off and [confirmed_exclude]
    with the switch on. *)
Theorem strict_mode_scope (g : knobs) (t : tables) (rows : list record)
  (b1 b2 : bool) :
  Filter.abstract_stage (with_strict b1 g) t rows
  = Filter.abstract_stage (with_strict b2 g) t rows /\
  (Forall (fun r =>
             abs_clean_of t r = EmptyString \/
             rescue_has_rl g (abs_clean_of t r) = true \/
             rescue_has_mv g (abs_clean_of t r)
             && rescue_has_wean g (abs_clean_of t r) = false) rows ->
   rescue_decisions (with_strict b1 g) t rows
   = rescue_decisions (with_strict b2 g) t rows) /\
  (forall r,
     abs_clean_of t r <> EmptyString ->
     rescue_has_mv g (abs_clean_of t r)
     && rescue_has_wean g (abs_clean_of t r) = true ->
     rescue_has_rl g (abs_clean_of t r) = false ->
     rescue_decisions (with_strict false g) t [r] = [Some "rescue"] /\
     rescue_decisions (with_strict true g) t [r] = [Some "confirmed_exclude"]).
Proof.
  split; [reflexivity|]. split.
  - intros Hall. rewrite !rescue_decisions_eq.
    apply map_ext_in. intros r Hr. f_equal.
    apply rescue_decision_strict_irrelevant.
    rewrite Forall_forall in Hall. now apply Hall.
  - intros r Ha Hmw Hrl. rewrite !rescue_decisions_eq. cbn [map].
    unfold rescue_decision, abstract_evidence.
    change (rescue_has_mv (with_strict false g)) with (rescue_has_mv g).
    change (rescue_has_mv (with_strict true g)) with (rescue_has_mv g).
    change (rescue_has_wean (with_strict false g)) with (rescue_has_wean g).
    change (rescue_has_wean (with_strict true g)) with (rescue_has_wean g).
    change (rescue_has_rl (with_strict false g)) with (rescue_has_rl g).
    change (rescue_has_rl (with_strict true g)) with (rescue_has_rl g).
    apply truthy_true_iff in Ha. rewrite Ha, Hmw, Hrl. split; reflexivity.
Qed.

(** ** The PRISMA count object *)

Lemma filter_main_inv (g : knobs) (t : tables) (all_records : list record)
  (o : Filter.outputs) :
  Filter.main g t all_records = Ok o ->
  exists dropped,
    auto_screen_in (Filter.prisma_counts o)
    = Some (len (Filter.screened_candidates o)) /\
    auto_screen_out (Filter.prisma_counts o)
    = Some (len (Filter.excluded_non_mv_weaning o)) /\
    option_map cnt_dropped_by_abstract
               (abstract_stage_counts (Filter.prisma_counts o)) = Some dropped /\
    auto_screen_in_after_abstract (Filter.prisma_counts o)
    = Some (len (Filter.screened_candidates o) - dropped)%Z.
Proof.
  unfold Filter.main. destruct (Filter.deduplicate all_records) as [dedup|e];
    cbn [bind]; [|discriminate].
  destruct (Filter.apply_filters g dedup) as [si so].
  destruct si as [|x si].
  - intros H. injection H as <-. exists 0%Z. cbn. repeat split.
  - destruct (Filter.abstract_stage g t (x :: si)) as [[k d] c].
    intros H. injection H as <-. exists (cnt_dropped_by_abstract c).
    cbn. repeat split.
Qed.

(** C10.  The rescue pass writes
    [auto_screen_in_after_abstract = auto_screen_in + rescued] and
    [auto_screen_out_after_abstract = max(0, auto_screen_out - rescued)],
    read from the stage-1 counts of the stored object, whatever value
    [auto_screen_in_after_abstract] had there.  Run on the count object
    that [main] of [filter.py] wrote, where that value was
    [auto_screen_in - dropped_by_abstract], it leaves
    [len(screened_in) + rescued]: the stage-2 drops stay recorded under
    [abstract_stage] and are absent from the total. *)
Theorem rescue_overwrites_screen_in_total (g1 g2 : knobs) (t1 t2 : tables)
  (all_records rows : list record) (o : Filter.outputs) (stored : option prisma) :
  Filter.main g1 t1 all_records = Ok o ->
  let rescued := len (filter (is_rescued g2 t2) rows) in
  (let base := match stored with Some p => p | None => empty_prisma end in
   let p := snd (Rescreen.main g2 t2 stored rows) in
   option_map rs_rescued (abstract_rescreen p) = Some rescued /\
   auto_screen_in_after_abstract p
   = Some (int_or_0 (auto_screen_in base) + rescued)%Z /\
   auto_screen_out_after_abstract p
   = Some (Z.max 0 (int_or_0 (auto_screen_out base) - rescued)) /\
   auto_screen_in p = auto_screen_in base /\
   auto_screen_out p = auto_screen_out base /\
   abstract_stage_counts p = abstract_stage_counts base) /\
  (let p1 := Filter.prisma_counts o in
   let p := snd (Rescreen.main g2 t2 (Some p1) rows) in
   exists dropped,
     option_map cnt_dropped_by_abstract (abstract_stage_counts p1) = Some dropped /\
     auto_screen_in_after_abstract p1
     = Some (len (Filter.screened_candidates o) - dropped)%Z /\
     auto_screen_in_after_abstract p
     = Some (len (Filter.screened_candidates o) + rescued)%Z /\
     auto_screen_out_after_abstract p
     = Some (Z.max 0 (len (Filter.excluded_non_mv_weaning o) - rescued)) /\
     option_map cnt_dropped_by_abstract (abstract_stage_counts p) = Some dropped).
Proof.
  intros Hmain rescued. split.
  - rewrite rescue_main_eq. cbn. repeat split.
  - destruct (filter_main_inv _ _ _ _ Hmain) as (dropped & Hin & Hout & Hd & Ha).
    cbv zeta. rewrite rescue_main_eq. cbn. exists dropped.
    rewrite Hin, Hout. cbn. repeat split; assumption.
Qed.

End StrictSwitch.

(** [raw_three] through both passes: stage 1 lets two records in, stage 2
    drops one of them, the rescue pass brings [sedation_row] back. *)
Lemma rescue_overwrites_screen_in_total_witness :
  Filter.main default_knobs raw_three_tables raw_three = Ok raw_three_outputs /\
  let rescued := len (filter (is_rescued default_knobs sedation_tables)
                             [sedation_row]) in
  (let base := empty_prisma in
   let p := snd (Rescreen.main default_knobs sedation_tables None
                               [sedation_row]) in
   option_map rs_rescued (abstract_rescreen p) = Some rescued /\
   auto_screen_in_after_abstract p
   = Some (int_or_0 (auto_screen_in base) + rescued)%Z /\
   auto_screen_out_after_abstract p
   = Some (Z.max 0 (int_or_0 (auto_screen_out base) - rescued)) /\
   auto_screen_in p = auto_screen_in base /\
   auto_screen_out p = auto_screen_out base /\
   abstract_stage_counts p = abstract_stage_counts base) /\
  (let p1 := Filter.prisma_counts raw_three_outputs in
   let p := snd (Rescreen.main default_knobs sedation_tables (Some p1)
                               [sedation_row]) in
   exists dropped,
     option_map cnt_dropped_by_abstract (abstract_stage_counts p1) = Some dropped /\
     auto_screen_in_after_abstract p1
     = Some (len (Filter.screened_candidates raw_three_outputs) - dropped)%Z /\
     auto_screen_in_after_abstract p
     = Some (len (Filter.screened_candidates raw_three_outputs) + rescued)%Z /\
     auto_screen_out_after_abstract p
     = Some (Z.max 0 (len (Filter.excluded_non_mv_weaning raw_three_outputs)
                      - rescued)) /\
     option_map cnt_dropped_by_abstract (abstract_stage_counts p) = Some dropped).
Proof.
  split; [vm_compute; reflexivity|].
  apply (rescue_overwrites_screen_in_total
           default_knobs default_knobs raw_three_tables sedation_tables
           raw_three [sedation_row] raw_three_outputs None).
  vm_compute. reflexivity.
Defined.

(** The same run in numbers: two records screened in, one dropped by its
    abstract, one rescued; the stored total becomes 3, not 2. *)
Example both_passes_in_numbers :
  let p1 := Filter.prisma_counts raw_three_outputs in
  let p := snd (Rescreen.main default_knobs sedation_tables (Some p1)
                              [sedation_row]) in
  auto_screen_in p1 = Some 2%Z /\
  option_map cnt_dropped_by_abstract (abstract_stage_counts p1) = Some 1%Z /\
  auto_screen_in_after_abstract p1 = Some 1%Z /\
  option_map rs_rescued (abstract_rescreen p) = Some 1%Z /\
  auto_screen_in_after_abstract p = Some 3%Z.
Proof. vm_compute. repeat split. Qed.

(** ** Dictionaries *)

Section DictFacts.
Variable V : Type.
Implicit Types (d : Py.dict V) (k : string) (v : V).

Lemma dict_get_none_iff d k :
  Py.dict_get d k = None <-> ~ In k (Py.dict_keys d).
Proof.
  induction d as [|[k' v'] d IH]; simpl.
  - tauto.
  - destruct (String.eqb_spec k' k) as [->|Hne].
    + split; [discriminate | intros H; elim H; now left].
    + rewrite IH. split; [intros H [E|E]; auto | intros H E; apply H; auto].
Qed.

Lemma dict_get_in d k v : Py.dict_get d k = Some v -> In (k, v) d.
Proof.
  induction d as [|[k' v'] d IH]; simpl; [discriminate|].
  destruct (String.eqb_spec k' k) as [->|Hne].
  - intros H. injection H as ->. now left.
  - intros H. right. now apply IH.
Qed.

Lemma dict_set_new d k v :
  Py.dict_get d k = None -> Py.dict_set d k v = d ++ [(k, v)].
Proof.
  induction d as [|[k' v'] d IH]; simpl; [reflexivity|].
  destruct (String.eqb_spec k' k) as [->|Hne]; [discriminate|].
  intros H. now rewrite IH.
Qed.

Lemma dict_set_keys_present d k v v0 :
  Py.dict_get d k = Some v0 -> Py.dict_keys (Py.dict_set d k v) = Py.dict_keys d.
Proof.
  induction d as [|[k' v'] d IH]; simpl; [discriminate|].
  destruct (String.eqb_spec k' k) as [->|Hne]; [reflexivity|].
  intros H. simpl. now rewrite IH.
Qed.

Lemma dict_set_length_present d k v v0 :
  Py.dict_get d k = Some v0 ->
  List.length (Py.dict_set d k v) = List.length d.
Proof.
  intros H. apply (dict_set_keys_present d k v) in H.
  apply (f_equal (@List.length string)) in H.
  unfold Py.dict_keys in H. now rewrite !length_map in H.
Qed.

Lemma dict_set_in d k v k' v' :
  In (k', v') (Py.dict_set d k v) -> (k' = k /\ v' = v) \/ In (k', v') d.
Proof.
  induction d as [|[k0 v0] d IH]; simpl.
  - intros [H|[]]. injection H as <- <-. now left.
  - destruct (String.eqb_spec k0 k) as [->|Hne]; simpl.
    + intros [H|H]; [injection H as <- <-; now left | right; now right].
    + intros [H|H]; [right; now left|].
      destruct (IH H) as [E|E]; [now left | right; now right].
Qed.

End DictFacts.

Arguments dict_get_none_iff {V} d k.
Arguments dict_get_in {V} d k v.
Arguments dict_set_new {V} d k v.
Arguments dict_set_keys_present {V} d k v v0.
Arguments dict_set_length_present {V} d k v v0.
Arguments dict_set_in {V} d k v k' v'.

(** ** The loop of [deduplicate] *)

Lemma for_each_app {S A : Type} (step : S -> A -> result S) (l1 l2 : list A)
  (st : S) :
  for_each step (l1 ++ l2) st = st' <- for_each step l1 st ;; for_each step l2 st'.
Proof.
  revert st. induction l1 as [|x l1 IH]; intros st; simpl; [reflexivity|].
  destruct (step st x); simpl; [apply IH | reflexivity].
Qed.

Lemma identity_eqb_eq (i j : identity) : identity_eqb i j = true <-> i = j.
Proof.
  destruct i, j; simpl; try (split; [discriminate | intros H; discriminate]);
    try rewrite String.eqb_eq; split; intros H;
    try congruence; try reflexivity.
Qed.

Lemma has_identity_iff (i : identity) (r : record) :
  has_identity i r = true <-> identity_key r = i.
Proof. unfold has_identity. apply identity_eqb_eq. Qed.

Lemma has_identity_false (i : identity) (r : record) :
  identity_key r <> i -> has_identity i r = false.
Proof.
  intros H. destruct (has_identity i r) eqn:E; [|reflexivity].
  apply has_identity_iff in E. contradiction.
Qed.

(** One iteration, read through the identity key of the record. *)
Lemma dedup_step_by_key (st : Filter.dedup_state) (r : record) :
  Filter.dedup_step st r =
  match identity_key r with
  | ByDoi k =>
      d <- Filter.merge_into (Filter.by_doi st) k r ;;
      Ok (Filter.mk_dedup d (Filter.by_title st) (Filter.kept st))
  | ByTitle k =>
      d <- Filter.merge_into (Filter.by_title st) k r ;;
      Ok (Filter.mk_dedup (Filter.by_doi st) d (Filter.kept st))
  | Standalone =>
      Ok (Filter.mk_dedup (Filter.by_doi st) (Filter.by_title st)
                          (Filter.kept st ++ [r]))
  end.
Proof.
  unfold Filter.dedup_step, identity_key.
  destruct (Py.truthy (Py.lower (doi r))); [reflexivity|].
  destruct (Py.truthy (Filter.norm_title_key (title r))); cbn [negb];
    [|reflexivity].
  destruct (year_truthy r); reflexivity.
Qed.

Lemma merge_into_selects (d d' : Py.dict record) (k : string) (r : record) :
  Filter.merge_into d k r = Ok d' ->
  exists w, d' = Py.dict_set d k w /\
            (w = r \/ Py.dict_get d k = Some w).
Proof.
  unfold Filter.merge_into. destruct (Py.dict_get d k) as [old|] eqn:Hg.
  - destruct (Filter.better_record old r) as [best|e] eqn:Hb; cbn [bind];
      [|discriminate].
    intros H. injection H as <-. exists best. split; [reflexivity|].
    destruct (better_record_selects _ _ _ Hb) as [->| ->]; auto.
  - intros H. injection H as <-. exists r. auto.
Qed.

Lemma dict_wf_weaken (tag : string -> identity) (xs : list record)
  (d : Py.dict record) (r : record) :
  (forall k, identity_key r <> tag k) ->
  dict_wf tag xs d -> dict_wf tag (xs ++ [r]) d.
Proof.
  intros Hr [Hn Hk Hc]. constructor.
  - exact Hn.
  - intros k v Hin. destruct (Hk k v Hin) as [H1 H2]. split; [exact H1|].
    apply in_or_app. now left.
  - intros x k Hx Hid. apply in_app_or in Hx. destruct Hx as [Hx|[<-|[]]].
    + now apply (Hc x k).
    + now elim (Hr k).
Qed.

Lemma dict_wf_merge (tag : string -> identity) (xs : list record)
  (d d' : Py.dict record) (k : string) (r : record) :
  (forall k1 k2, tag k1 = tag k2 -> k1 = k2) ->
  identity_key r = tag k ->
  dict_wf tag xs d ->
  Filter.merge_into d k r = Ok d' ->
  dict_wf tag (xs ++ [r]) d' /\
  List.length d' <= S (List.length d).
Proof.
  intros Hinj Hr [Hn Hk Hc] Hm.
  destruct (merge_into_selects _ _ _ _ Hm) as (w & -> & Hw).
  assert (Hwkey : identity_key w = tag k /\ In w (xs ++ [r])).
  { destruct Hw as [->|Hg].
    - split; [exact Hr|]. apply in_or_app. right. now left.
    - apply dict_get_in in Hg. destruct (Hk _ _ Hg) as [H1 H2].
      split; [exact H1|]. apply in_or_app. now left. }
  destruct (Py.dict_get d k) as [old|] eqn:Hg.
  - (* the key was present: same keys, same length *)
    pose proof (dict_set_keys_present d k w old Hg) as Hkeys.
    split; [constructor|].
    + now rewrite Hkeys.
    + intros k' v' Hin. apply dict_set_in in Hin.
      destruct Hin as [[-> ->]|Hin]; [exact Hwkey|].
      destruct (Hk _ _ Hin) as [H1 H2]. split; [exact H1|].
      apply in_or_app. now left.
    + intros x k' Hx Hid. rewrite Hkeys.
      apply in_app_or in Hx. destruct Hx as [Hx|[<-|[]]].
      * now apply (Hc x k').
      * rewrite Hr in Hid. apply Hinj in Hid. subst k'.
        apply dict_get_in in Hg.
        unfold Py.dict_keys. apply in_map_iff. now exists (k, old).
    + rewrite (dict_set_length_present d k w old Hg). lia.
  - (* a new key goes last *)
    pose proof (proj1 (dict_get_none_iff d k) Hg) as Hnew.
    rewrite (dict_set_new d k w Hg).
    split; [constructor|].
    + unfold Py.dict_keys in *. rewrite map_app. simpl.
      apply NoDup_app; auto.
      * constructor; [intros []|constructor].
      * intros x Hx [<-|[]]. contradiction.
    + intros k' v' Hin. apply in_app_or in Hin.
      destruct Hin as [Hin|[H|[]]].
      * destruct (Hk _ _ Hin) as [H1 H2]. split; [exact H1|].
        apply in_or_app. now left.
      * injection H as <- <-. exact Hwkey.
    + intros x k' Hx Hid. unfold Py.dict_keys in *. rewrite map_app.
      apply in_or_app. apply in_app_or in Hx. destruct Hx as [Hx|[<-|[]]].
      * left. now apply (Hc x k').
      * right. rewrite Hr in Hid. apply Hinj in Hid. subst k'. now left.
    + rewrite length_app. simpl. lia.
Qed.

Lemma filter_snoc {A : Type} (p : A -> bool) (l : list A) (x : A) :
  filter p (l ++ [x]) = filter p l ++ (if p x then [x] else []).
Proof. rewrite filter_app. reflexivity. Qed.

Lemma filter_none {A : Type} (p : A -> bool) (l : list A) :
  (forall x, In x l -> p x = false) -> filter p l = [].
Proof.
  induction l as [|x l IH]; simpl; intros H; [reflexivity|].
  rewrite (H x (or_introl eq_refl)). apply IH. intros y Hy. apply H. now right.
Qed.

Lemma filter_all {A : Type} (p : A -> bool) (l : list A) :
  (forall x, In x l -> p x = true) -> filter p l = l.
Proof.
  induction l as [|x l IH]; simpl; intros H; [reflexivity|].
  rewrite (H x (or_introl eq_refl)). f_equal. apply IH. intros y Hy.
  apply H. now right.
Qed.

Lemma ByDoi_inj (k1 k2 : string) : ByDoi k1 = ByDoi k2 -> k1 = k2.
Proof. congruence. Qed.

Lemma ByTitle_inj (k1 k2 : string) : ByTitle k1 = ByTitle k2 -> k1 = k2.
Proof. congruence. Qed.

Lemma dedup_inv_init : dedup_inv [] (Filter.mk_dedup [] [] []).
Proof.
  constructor; simpl; try reflexivity; try lia;
    constructor; simpl; try constructor; intros; contradiction.
Qed.

(** One iteration preserves the invariant. *)
Lemma dedup_inv_step (xs : list record) (st st' : Filter.dedup_state)
  (r : record) :
  dedup_inv xs st ->
  Filter.dedup_step st r = Ok st' ->
  dedup_inv (xs ++ [r]) st'.
Proof.
  intros [Hkept Hdoi Htitle Hlen]. rewrite dedup_step_by_key.
  destruct (identity_key r) as [k|k|] eqn:Hid.
  - destruct (Filter.merge_into (Filter.by_doi st) k r) as [d|e] eqn:Hm;
      cbn [bind]; [|discriminate].
    intros H. injection H as <-.
    destruct (dict_wf_merge ByDoi xs _ _ k r ByDoi_inj Hid Hdoi Hm) as [Hwf Hl].
    constructor; cbn [Filter.kept Filter.by_doi Filter.by_title].
    + rewrite filter_snoc, Hkept. unfold is_standalone.
      rewrite has_identity_false by congruence. now rewrite app_nil_r.
    + exact Hwf.
    + apply dict_wf_weaken; [intros k'; congruence | exact Htitle].
    + rewrite length_app. simpl. lia.
  - destruct (Filter.merge_into (Filter.by_title st) k r) as [d|e] eqn:Hm;
      cbn [bind]; [|discriminate].
    intros H. injection H as <-.
    destruct (dict_wf_merge ByTitle xs _ _ k r ByTitle_inj Hid Htitle Hm)
      as [Hwf Hl].
    constructor; cbn [Filter.kept Filter.by_doi Filter.by_title].
    + rewrite filter_snoc, Hkept. unfold is_standalone.
      rewrite has_identity_false by congruence. now rewrite app_nil_r.
    + apply dict_wf_weaken; [intros k'; congruence | exact Hdoi].
    + exact Hwf.
    + rewrite length_app. simpl. lia.
  - intros H. injection H as <-.
    constructor; cbn [Filter.kept Filter.by_doi Filter.by_title].
    + rewrite filter_snoc, Hkept. unfold is_standalone.
      rewrite (proj2 (has_identity_iff Standalone r) Hid). reflexivity.
    + apply dict_wf_weaken; [intros k'; congruence | exact Hdoi].
    + apply dict_wf_weaken; [intros k'; congruence | exact Htitle].
    + rewrite !length_app. simpl. lia.
Qed.

Lemma dedup_inv_loop (records xs : list record) (st st' : Filter.dedup_state) :
  dedup_inv xs st ->
  for_each Filter.dedup_step records st = Ok st' ->
  dedup_inv (xs ++ records) st'.
Proof.
  revert xs st. induction records as [|r records IH]; intros xs st Hinv; simpl.
  - intros H. injection H as <-. now rewrite app_nil_r.
  - destruct (Filter.dedup_step st r) as [st1|e] eqn:Hs; cbn [bind];
      [|discriminate].
    intros H. replace (xs ++ r :: records) with ((xs ++ [r]) ++ records)
      by now rewrite <- app_assoc.
    apply (IH _ st1); [|exact H]. now apply (dedup_inv_step xs st).
Qed.

(** With every source in [SOURCE_PRIORITY], no iteration raises. *)
Lemma merge_into_returns (tag : string -> identity) (xs : list record)
  (d : Py.dict record) (k : string) (r : record) :
  dict_wf tag xs d ->
  Forall (fun x => In (source x) Filter.SOURCE_PRIORITY) xs ->
  In (source r) Filter.SOURCE_PRIORITY ->
  exists d', Filter.merge_into d k r = Ok d'.
Proof.
  intros [_ Hk _] Hall Hr. unfold Filter.merge_into.
  destruct (Py.dict_get d k) as [old|] eqn:Hg; [|eauto].
  apply dict_get_in in Hg. destruct (Hk _ _ Hg) as [_ Hin].
  rewrite Forall_forall in Hall.
  destruct (better_record_returns old r (Hall _ Hin) Hr) as [w ->].
  cbn [bind]. eauto.
Qed.

Lemma dedup_step_returns (xs : list record) (st : Filter.dedup_state)
  (r : record) :
  dedup_inv xs st ->
  Forall (fun x => In (source x) Filter.SOURCE_PRIORITY) xs ->
  In (source r) Filter.SOURCE_PRIORITY ->
  exists st', Filter.dedup_step st r = Ok st'.
Proof.
  intros [_ Hdoi Htitle _] Hall Hr. rewrite dedup_step_by_key.
  destruct (identity_key r) as [k|k|].
  - destruct (merge_into_returns ByDoi xs _ k r Hdoi Hall Hr) as [d ->].
    cbn [bind]. eauto.
  - destruct (merge_into_returns ByTitle xs _ k r Htitle Hall Hr) as [d ->].
    cbn [bind]. eauto.
  - eauto.
Qed.

Lemma dedup_loop_returns (records xs : list record) (st : Filter.dedup_state) :
  dedup_inv xs st ->
  Forall (fun x => In (source x) Filter.SOURCE_PRIORITY) (xs ++ records) ->
  exists st', for_each Filter.dedup_step records st = Ok st'.
Proof.
  revert xs st. induction records as [|r records IH]; intros xs st Hinv Hall;
    simpl; [eauto|].
  assert (Hxs : Forall (fun x => In (source x) Filter.SOURCE_PRIORITY) xs).
  { apply Forall_app in Hall. tauto. }
  assert (Hr : In (source r) Filter.SOURCE_PRIORITY).
  { apply Forall_app in Hall. destruct Hall as [_ Hall]. now inversion Hall. }
  destruct (dedup_step_returns xs st r Hinv Hxs Hr) as [st1 Hs].
  rewrite Hs. cbn [bind]. apply (IH (xs ++ [r])).
  - now apply (dedup_inv_step xs st).
  - now rewrite <- app_assoc.
Qed.

(** In a well-formed dictionary a key that is present selects exactly
    one of the values. *)
Lemma dict_wf_unique (tag : string -> identity) (xs : list record)
  (d : Py.dict record) (k : string) :
  (forall k1 k2, tag k1 = tag k2 -> k1 = k2) ->
  dict_wf tag xs d ->
  In k (Py.dict_keys d) ->
  exists w, filter (has_identity (tag k)) (Py.dict_values d) = [w] /\ In w xs.
Proof.
  intros Hinj [Hn Hk _]. clear - Hinj Hn Hk.
  induction d as [|[k0 v0] d IH]; simpl; [intros []|].
  inversion Hn as [|? ? Hnotin Hn']; subst.
  assert (Hk' : forall k1 v, In (k1, v) d -> identity_key v = tag k1 /\ In v xs).
  { intros k1 v Hin. apply Hk. now right. }
  destruct (Hk k0 v0 (or_introl eq_refl)) as [Hid0 Hin0].
  intros [->|Hin].
  - exists v0. split; [|exact Hin0].
    rewrite (proj2 (has_identity_iff (tag k) v0) Hid0). f_equal.
    apply filter_none. intros x Hx. apply has_identity_false.
    unfold Py.dict_values in Hx. apply in_map_iff in Hx.
    destruct Hx as ([k1 v1] & <- & Hx). simpl.
    destruct (Hk' _ _ Hx) as [Hid1 _]. rewrite Hid1. intros E.
    apply Hinj in E. subst k1. apply Hnotin.
    unfold Py.dict_keys. apply in_map_iff. now exists (k, v1).
  - rewrite has_identity_false.
    + now apply IH.
    + rewrite Hid0. intros E. apply Hinj in E. subst k0. contradiction.
Qed.

Lemma dict_wf_values_other (tag : string -> identity) (xs : list record)
  (d : Py.dict record) (i : identity) :
  (forall k, tag k <> i) ->
  dict_wf tag xs d ->
  filter (has_identity i) (Py.dict_values d) = [].
Proof.
  intros Hi [_ Hk _]. apply filter_none. intros x Hx.
  unfold Py.dict_values in Hx. apply in_map_iff in Hx.
  destruct Hx as ([k v] & <- & Hx). simpl. apply has_identity_false.
  destruct (Hk _ _ Hx) as [-> _]. apply Hi.
Qed.

Lemma dict_wf_values_in (tag : string -> identity) (xs : list record)
  (d : Py.dict record) (x : record) :
  dict_wf tag xs d -> In x (Py.dict_values d) -> In x xs.
Proof.
  intros [_ Hk _] Hx. unfold Py.dict_values in Hx. apply in_map_iff in Hx.
  destruct Hx as ([k v] & <- & Hx). simpl. now destruct (Hk _ _ Hx).
Qed.

Lemma kept_filter_other (xs : list record) (i : identity) :
  i <> Standalone -> filter (has_identity i) (filter is_standalone xs) = [].
Proof.
  intros Hi. apply filter_none. intros x Hx. apply filter_In in Hx.
  destruct Hx as [_ Hx]. apply has_identity_iff in Hx.
  apply has_identity_false. congruence.
Qed.

(** C7.  Merge totality and completeness.  On records whose sources are
    the seven that the normalizers write, [deduplicate] returns a list
    [out] that is no longer than its input and made of input records.
    The records without DOI and without title key pass through
    unchanged, each one as often as it was given and in the given order.
    For every other input record, exactly one element of [out] has its
    identity key, and that element is an input record. *)
Theorem deduplicate_merge_totality (records : list record) :
  Forall (fun r => In (source r) Filter.SOURCE_PRIORITY) records ->
  exists out,
    Filter.deduplicate records = Ok out /\
    List.length out <= List.length records /\
    (forall x, In x out -> In x records) /\
    filter is_standalone out = filter is_standalone records /\
    (forall r, In r records -> identity_key r <> Standalone ->
       exists w,
         filter (has_identity (identity_key r)) out = [w] /\
         identity_key w = identity_key r /\ In w records).
Proof.
  intros Hall.
  destruct (dedup_loop_returns records [] _ dedup_inv_init Hall) as [st Hst].
  pose proof (dedup_inv_loop records [] _ st dedup_inv_init Hst) as Hinv.
  cbn [app] in Hinv. destruct Hinv as [Hkept Hdoi Htitle Hlen].
  exists (Filter.dedup_finish st). unfold Filter.deduplicate. rewrite Hst.
  cbn [bind]. unfold Filter.dedup_finish.
  split; [reflexivity|]. split; [|split; [|split]].
  - rewrite !length_app. unfold Py.dict_values. rewrite !length_map. lia.
  - intros x Hx. apply in_app_or in Hx. destruct Hx as [Hx|Hx].
    + rewrite Hkept in Hx. apply filter_In in Hx. tauto.
    + apply in_app_or in Hx. destruct Hx as [Hx|Hx].
      * now apply (dict_wf_values_in ByDoi records (Filter.by_doi st)).
      * now apply (dict_wf_values_in ByTitle records (Filter.by_title st)).
  - rewrite !filter_app. unfold is_standalone at 2 3.
    rewrite (dict_wf_values_other ByDoi records (Filter.by_doi st) Standalone)
      by (discriminate || assumption).
    rewrite (dict_wf_values_other ByTitle records (Filter.by_title st) Standalone)
      by (discriminate || assumption).
    rewrite !app_nil_r, Hkept. apply filter_all.
    intros x Hx. apply filter_In in Hx. tauto.
  - intros r Hr Hid.
    cut (exists w,
           filter (has_identity (identity_key r))
                  (Filter.kept st ++ Py.dict_values (Filter.by_doi st)
                   ++ Py.dict_values (Filter.by_title st)) = [w] /\
           In w records).
    { intros (w & Hf & Hw). exists w. split; [exact Hf|]. split; [|exact Hw].
      apply has_identity_iff.
      assert (Hin : In w [w]) by now left.
      rewrite <- Hf in Hin. apply filter_In in Hin. tauto. }
    rewrite !filter_app, Hkept.
    rewrite (kept_filter_other records _ Hid). cbn [app].
    destruct (identity_key r) as [k|k|] eqn:Hk; [| |now elim Hid].
    + rewrite (dict_wf_values_other ByTitle records (Filter.by_title st) (ByDoi k))
        by (discriminate || assumption).
      rewrite app_nil_r.
      apply (dict_wf_unique ByDoi records _ k ByDoi_inj Hdoi).
      destruct Hdoi as [_ _ Hc]. now apply (Hc r k).
    + rewrite (dict_wf_values_other ByDoi records (Filter.by_doi st) (ByTitle k))
        by (discriminate || assumption).
      cbn [app].
      apply (dict_wf_unique ByTitle records _ k ByTitle_inj Htitle).
      destruct Htitle as [_ _ Hc]. now apply (Hc r k).
Qed.

(** ** Idempotence of [deduplicate] *)

Lemma run_standalone (l : list record) (st : Filter.dedup_state) :
  (forall x, In x l -> identity_key x = Standalone) ->
  for_each Filter.dedup_step l st =
  Ok (Filter.mk_dedup (Filter.by_doi st) (Filter.by_title st)
                      (Filter.kept st ++ l)).
Proof.
  revert st. induction l as [|x l IH]; intros st Hl; simpl.
  - rewrite app_nil_r. now destruct st.
  - rewrite dedup_step_by_key, (Hl x (or_introl eq_refl)). cbn [bind].
    rewrite IH by (intros y Hy; apply Hl; now right).
    cbn [Filter.kept Filter.by_doi Filter.by_title].
    now rewrite <- app_assoc.
Qed.

Lemma merge_into_new (d : Py.dict record) (k : string) (r : record) :
  ~ In k (Py.dict_keys d) -> Filter.merge_into d k r = Ok (d ++ [(k, r)]).
Proof.
  intros Hk. apply dict_get_none_iff in Hk. unfold Filter.merge_into.
  rewrite Hk. now rewrite dict_set_new.
Qed.

Lemma run_by_doi (D : Py.dict record) (st : Filter.dedup_state) :
  NoDup (Py.dict_keys D) ->
  (forall k v, In (k, v) D -> identity_key v = ByDoi k) ->
  (forall k, In k (Py.dict_keys D) -> ~ In k (Py.dict_keys (Filter.by_doi st))) ->
  for_each Filter.dedup_step (Py.dict_values D) st =
  Ok (Filter.mk_dedup (Filter.by_doi st ++ D) (Filter.by_title st)
                      (Filter.kept st)).
Proof.
  revert st. induction D as [|[k v] D IH]; intros st Hn Hk Hd; simpl.
  - rewrite app_nil_r. now destruct st.
  - inversion Hn as [|? ? Hnotin Hn']; subst.
    rewrite dedup_step_by_key, (Hk k v (or_introl eq_refl)).
    rewrite merge_into_new by (apply Hd; now left). cbn [bind].
    rewrite IH; cbn [Filter.kept Filter.by_doi Filter.by_title].
    + now rewrite <- app_assoc.
    + exact Hn'.
    + intros k' v' Hin. apply Hk. now right.
    + intros k' Hin Hin'. unfold Py.dict_keys in Hin'. rewrite map_app in Hin'.
      apply in_app_or in Hin'. destruct Hin' as [Hin'|[<-|[]]].
      * apply (Hd k'); [now right | exact Hin'].
      * contradiction.
Qed.

Lemma run_by_title (D : Py.dict record) (st : Filter.dedup_state) :
  NoDup (Py.dict_keys D) ->
  (forall k v, In (k, v) D -> identity_key v = ByTitle k) ->
  (forall k, In k (Py.dict_keys D) -> ~ In k (Py.dict_keys (Filter.by_title st))) ->
  for_each Filter.dedup_step (Py.dict_values D) st =
  Ok (Filter.mk_dedup (Filter.by_doi st) (Filter.by_title st ++ D)
                      (Filter.kept st)).
Proof.
  revert st. induction D as [|[k v] D IH]; intros st Hn Hk Hd; simpl.
  - rewrite app_nil_r. now destruct st.
  - inversion Hn as [|? ? Hnotin Hn']; subst.
    rewrite dedup_step_by_key, (Hk k v (or_introl eq_refl)).
    rewrite merge_into_new by (apply Hd; now left). cbn [bind].
    rewrite IH; cbn [Filter.kept Filter.by_doi Filter.by_title].
    + now rewrite <- app_assoc.
    + exact Hn'.
    + intros k' v' Hin. apply Hk. now right.
    + intros k' Hin Hin'. unfold Py.dict_keys in Hin'. rewrite map_app in Hin'.
      apply in_app_or in Hin'. destruct Hin' as [Hin'|[<-|[]]].
      * apply (Hd k'); [now right | exact Hin'].
      * contradiction.
Qed.

(** C8.  Idempotence: whenever [deduplicate] returns a list, running it
    again on that list returns the same list, element for element and in
    the same order. *)
Theorem deduplicate_idempotent (records out : list record) :
  Filter.deduplicate records = Ok out ->
  Filter.deduplicate out = Ok out.
Proof.
  unfold Filter.deduplicate.
  destruct (for_each Filter.dedup_step records (Filter.mk_dedup [] [] []))
    as [st|e] eqn:Hst; cbn [bind]; [|discriminate].
  intros H. injection H as <-.
  pose proof (dedup_inv_loop records [] _ st dedup_inv_init Hst) as Hinv.
  cbn [app] in Hinv. destruct Hinv as [Hkept [Hn1 Hk1 _] [Hn2 Hk2 _] _].
  unfold Filter.dedup_finish at 1. rewrite for_each_app.
  rewrite run_standalone.
  2:{ intros x Hx. rewrite Hkept in Hx. apply filter_In in Hx.
      now apply has_identity_iff. }
  cbn [bind]. rewrite for_each_app.
  rewrite run_by_doi; cbn [Filter.by_doi Filter.by_title Filter.kept].
  2:{ exact Hn1. }
  2:{ intros k v Hin. now destruct (Hk1 k v Hin). }
  2:{ intros k _ []. }
  cbn [bind app]. rewrite run_by_title;
    cbn [Filter.by_doi Filter.by_title Filter.kept].
  2:{ exact Hn2. }
  2:{ intros k v Hin. now destruct (Hk2 k v Hin). }
  2:{ intros k _ []. }
  cbn [bind app]. reflexivity.
Qed.

(** [dup_records]: six records in, four out. *)
Lemma deduplicate_merge_totality_witness :
  Forall (fun r => In (source r) Filter.SOURCE_PRIORITY) dup_records /\
  exists out,
    Filter.deduplicate dup_records = Ok out /\
    List.length out <= List.length dup_records /\
    (forall x, In x out -> In x dup_records) /\
    filter is_standalone out = filter is_standalone dup_records /\
    (forall r, In r dup_records -> identity_key r <> Standalone ->
       exists w,
         filter (has_identity (identity_key r)) out = [w] /\
         identity_key w = identity_key r /\ In w dup_records).
Proof.
  assert (H : Forall (fun r => In (source r) Filter.SOURCE_PRIORITY) dup_records).
  { unfold dup_records. repeat (apply Forall_cons; [in_list|]). apply Forall_nil. }
  split; [exact H|]. exact (deduplicate_merge_totality dup_records H).
Defined.

Example deduplicate_dup_records :
  map id dup_merged = ["PMID:2"; "PMID:3"; "S1"; "PMID:1"] /\
  Filter.deduplicate dup_records = Ok dup_merged.
Proof. split; reflexivity. Qed.

(** A second pass over [dup_merged] changes nothing. *)
Lemma deduplicate_idempotent_witness :
  Filter.deduplicate dup_records = Ok dup_merged /\
  Filter.deduplicate dup_merged = Ok dup_merged.
Proof.
  assert (H : Filter.deduplicate dup_records = Ok dup_merged)
    by (vm_compute; reflexivity).
  split; [exact H|]. exact (deduplicate_idempotent dup_records dup_merged H).
Defined.

(** A record with a DOI and a record without one are never filed under
    the same key, which is why the statement of DOI precedence assumes
    nothing about keys. *)
Lemma identity_key_doi_presence (a b : record) :
  doi a <> EmptyString -> doi b = EmptyString ->
  identity_key a <> identity_key b.
Proof.
  intros Ha Hb. unfold identity_key. rewrite !truthy_lower, Hb.
  apply truthy_true_iff in Ha. rewrite Ha. cbn [Py.truthy].
  destruct (negb (Py.truthy (Filter.norm_title_key (title b))));
    [discriminate|].
  destruct (year_truthy b); discriminate.
Qed.

(** With unknown sources the tie case raises instead of returning. *)
Example better_record_unknown_source :
  Filter.better_record
    (bare_record "crossref" "X1" "Weaning" None no_doi)
    (bare_record "pubmed" "PMID:9" "Weaning" None no_doi)
  = Raise (ValueError "is not in list").
Proof. reflexivity. Qed.

(** ** The scenarios of the specification *)

(** Scenario A: MV and weaning evidence in the title, no abstract. *)
Example scenario_A :
  let r := bare_record "scopus" "S9" "RL-based ventilator weaning protocol"
                        None no_doi in
  let '(screened_in, screened_out) := Filter.apply_filters default_knobs [r] in
  screened_in = [set_title_matches r true true false] /\
  screened_out = [] /\
  stage2_decisions default_knobs (mk_tables [] [] [] []) screened_in
  = ([Some "keep_no_abstract"], []).
Proof. vm_compute. repeat split. Qed.

(** Scenario B: same DOI, titles of length 10 and 40. *)
Example scenario_B :
  let short := bare_record "scopus" "S1" "0123456789" None "10.1/ab" in
  let long := bare_record "arxiv" "A1" "0123456789012345678901234567890123456789"
                           None "10.1/ab" in
  Filter.deduplicate [short; long] = Ok [long] /\
  Filter.deduplicate [long; short] = Ok [long].
Proof. split; reflexivity. Qed.

(** Scenario C: excluded for [no_weaning], rescued by its abstract. *)
Example scenario_C :
  let r := bare_record "openalex" "https://openalex.org/W3"
                        "Ventilator settings by machine" None no_doi in
  let t := mk_tables [] []
             [("W3", "A ventilator weaning policy learned with Q-learning")] [] in
  let '(_, screened_out) := Filter.apply_filters default_knobs [r] in
  map auto_exclude_reason screened_out = [Some "no_weaning"] /\
  map decision (fst (Rescreen.main default_knobs t None screened_out))
  = [Some "rescue"].
Proof. vm_compute. split; reflexivity. Qed.

(** Scenario D: screened in, the abstract has no RL term. *)
Example scenario_D :
  let r := bare_record "openalex" "https://openalex.org/W4"
                        "Ventilator weaning in adults" None no_doi in
  let t := mk_tables [] [] [("W4", "We describe ventilator practice.")] [] in
  let '(screened_in, _) := Filter.apply_filters default_knobs [r] in
  stage2_decisions default_knobs t screened_in = ([], [Some "drop_by_abstract"]).
Proof. vm_compute. reflexivity. Qed.

(** Every term of the source compiles to a pattern of the fragment that
    [AsciiRe] implements, under each of the three compile functions. *)
Example default_terms_in_fragment :
  forallb (fun rx => match AsciiRe.parse (pat_src rx) with
                     | Some _ => true
                     | None => false
                     end)
          (Filter.RL_RX default_knobs ++ Filter.MV_RX default_knobs
           ++ Filter.WEAN_RX default_knobs ++ Filter.ABS_RL_RX default_knobs
           ++ Filter.ABS_MV_RX default_knobs ++ Filter.ABS_WEAN_RX default_knobs
           ++ Rescreen.RL_RX default_knobs ++ Rescreen.MV_RX default_knobs
           ++ Rescreen.WEAN_RX default_knobs)
  = true.
Proof. reflexivity. Qed.

(** Stage 1 does read the switch: the record of scenario A has no RL
    term in its title and is excluded for [no_rl] in strict mode. *)
Example strict_mode_changes_stage1 :
  let r := bare_record "scopus" "S9" "RL-based ventilator weaning protocol"
                       None no_doi in
  map auto_exclude_reason
      (snd (Filter.apply_filters (with_strict true default_knobs) [r]))
  = [Some "no_rl"] /\
  snd (Filter.apply_filters (with_strict false default_knobs) [r]) = [].
Proof. vm_compute. split; reflexivity. Qed.

(* ------------------------------------------------------------------ *)
(** * Further properties of the code *)

(** ** [better_record]: errors and the title rule *)

Lemma index_ok_in (l : list string) (x : string) (i : nat) :
  Py.index l x = Ok i -> In x l.
Proof.
  revert i. induction l as [|y l IH]; simpl; intros i; [discriminate|].
  destruct (String.eqb_spec y x) as [->|Hne]; [now left|].
  destruct (Py.index l x) as [j|e] eqn:E; simpl; [|discriminate].
  intros _. right. now apply (IH j).
Qed.

(** X1.  [better_record] raises exactly in the tie case with a source
    outside [SOURCE_PRIORITY]: when both records have a DOI or neither
    has, the titles are equally long, and one of the two sources is not
    in the list.  In every other case it returns. *)
Theorem better_record_raises_iff (a b : record) :
  (exists e, Filter.better_record a b = Raise e) <->
  Py.truthy (doi a) = Py.truthy (doi b) /\
  String.length (title a) = String.length (title b) /\
  (~ In (source a) Filter.SOURCE_PRIORITY \/
   ~ In (source b) Filter.SOURCE_PRIORITY).
Proof.
  unfold Filter.better_record. split.
  - intros [e He].
    destruct (Py.truthy (doi a)), (Py.truthy (doi b)); cbn [andb negb] in He;
      try discriminate;
      (destruct (Nat.ltb_spec (String.length (title b)) (String.length (title a)));
         [discriminate|]);
      (destruct (Nat.ltb_spec (String.length (title a)) (String.length (title b)));
         [discriminate|]);
      (split; [reflexivity|]); (split; [lia|]);
      destruct (Py.index Filter.SOURCE_PRIORITY (source a)) as [ia|ea] eqn:Ea;
      cbn [bind] in He;
      try (left; intros Hin; destruct (index_in _ _ Hin) as [i Hi];
           congruence);
      destruct (Py.index Filter.SOURCE_PRIORITY (source b)) as [ib|eb] eqn:Eb;
      cbn [bind] in He;
      try (right; intros Hin; destruct (index_in _ _ Hin) as [i Hi];
           congruence);
      destruct (ia <? ib); discriminate.
  - intros (Hd & Hl & Hs). rewrite Hd, Hl, Nat.ltb_irrefl.
    assert (Hc : Py.truthy (doi b) && negb (Py.truthy (doi b)) = false)
      by now destruct (Py.truthy (doi b)).
    rewrite Hc.
    destruct (Py.index Filter.SOURCE_PRIORITY (source a)) as [ia|ea] eqn:Ea;
      cbn [bind]; [|eauto].
    destruct (Py.index Filter.SOURCE_PRIORITY (source b)) as [ib|eb] eqn:Eb;
      cbn [bind]; [|eauto].
    destruct Hs as [Hs|Hs]; elim Hs.
    + now apply (index_ok_in _ _ ia).
    + now apply (index_ok_in _ _ ib).
Qed.

(** X2.  When both records have a DOI, or neither has, the record that
    [better_record] returns has a title at least as long as either
    title. *)
Theorem better_record_longest_title (a b w : record) :
  Py.truthy (doi a) = Py.truthy (doi b) ->
  Filter.better_record a b = Ok w ->
  String.length (title a) <= String.length (title w) /\
  String.length (title b) <= String.length (title w).
Proof.
  intros Hd. unfold Filter.better_record. rewrite Hd.
  assert (Hc : Py.truthy (doi b) && negb (Py.truthy (doi b)) = false)
    by now destruct (Py.truthy (doi b)).
  rewrite Hc.
  destruct (Nat.ltb_spec (String.length (title b)) (String.length (title a))).
  { intros H'. injection H' as <-. lia. }
  destruct (Nat.ltb_spec (String.length (title a)) (String.length (title b))).
  { intros H'. injection H' as <-. lia. }
  destruct (Py.index Filter.SOURCE_PRIORITY (source a)); cbn [bind];
    [|discriminate].
  destruct (Py.index Filter.SOURCE_PRIORITY (source b)); cbn [bind];
    [|discriminate].
  destruct (_ <? _); intros H'; injection H' as <-; lia.
Qed.

Lemma better_record_longest_title_witness :
  Py.truthy (doi tie_wos) = Py.truthy (doi nodoi_long) /\
  Filter.better_record tie_wos nodoi_long = Ok nodoi_long /\
  String.length (title tie_wos) <= String.length (title nodoi_long) /\
  String.length (title nodoi_long) <= String.length (title nodoi_long).
Proof.
  assert (H1 : Py.truthy (doi tie_wos) = Py.truthy (doi nodoi_long))
    by reflexivity.
  assert (H2 : Filter.better_record tie_wos nodoi_long = Ok nodoi_long)
    by reflexivity.
  split; [exact H1|]. split; [exact H2|].
  exact (better_record_longest_title tie_wos nodoi_long nodoi_long H1 H2).
Defined.

(** ** Substrings and the evidence blob *)

Lemma prefix_app (p x : string) : prefix p (p ++ x)%string = true.
Proof.
  induction p as [|c p IH]; simpl; [now destruct x|].
  destruct (ascii_dec c c) as [_|Hne]; [exact IH | now elim Hne].
Qed.

Lemma prefix_refl (p : string) : prefix p p = true.
Proof.
  induction p as [|c p IH]; simpl; [reflexivity|].
  destruct (ascii_dec c c) as [_|Hne]; [exact IH | now elim Hne].
Qed.

Lemma contains_prefix (p s : string) : prefix p s = true -> Py.contains p s = true.
Proof. intros H. destruct s; simpl in *; now rewrite H. Qed.

Lemma contains_app_r (p x y : string) :
  Py.contains p y = true -> Py.contains p (x ++ y)%string = true.
Proof.
  intros H. induction x as [|c x IH]; [exact H|].
  cbn [append Py.contains]. rewrite IH. apply orb_true_r.
Qed.

Lemma contains_join (sep p : string) (parts : list string) :
  In p parts -> Py.contains p (Py.join sep parts) = true.
Proof.
  unfold Py.join. induction parts as [|x rest IH]; [intros []|].
  intros Hin. cbn [String.concat]. destruct rest as [|y rest].
  - destruct Hin as [->|[]]. apply contains_prefix, prefix_refl.
  - destruct Hin as [->|Hin].
    + apply contains_prefix, prefix_app.
    + apply contains_app_r, contains_app_r. now apply IH.
Qed.

Lemma contains_empty (s : string) : Py.contains EmptyString s = true.
Proof. destruct s; reflexivity. Qed.

Section Stage1More.
Context {RE : Regex}.

(** X3.  The title, the venue, the snippet and the publication summary
    of a record are each a substring of its evidence blob, so a literal
    term found in one of them is found in the blob; a record with none
    of the four has the empty blob. *)
Theorem text_blob_contains_parts (r : record) :
  Py.contains (title r) (Filter.text_blob r) = true /\
  Py.contains (venue r) (Filter.text_blob r) = true /\
  Py.contains (Py.dict_get_or (extra r) "snippet" EmptyString)
              (Filter.text_blob r) = true /\
  Py.contains (Py.dict_get_or (extra r) "pub_summary" EmptyString)
              (Filter.text_blob r) = true /\
  (title r = EmptyString -> venue r = EmptyString ->
   Py.dict_get (extra r) "snippet" = None ->
   Py.dict_get (extra r) "pub_summary" = None ->
   Filter.text_blob r = EmptyString).
Proof.
  assert (H : forall p,
    In p [title r; venue r; Py.dict_get_or (extra r) "snippet" EmptyString;
          Py.dict_get_or (extra r) "pub_summary" EmptyString] ->
    Py.contains p (Filter.text_blob r) = true).
  { intros p Hp. destruct p as [|c p]; [apply contains_empty|].
    apply contains_join. apply filter_In. split; [exact Hp | reflexivity]. }
  repeat split; try (apply H; simpl; tauto).
  intros Ht Hv Hs Hp. unfold Filter.text_blob, Py.dict_get_or.
  now rewrite Ht, Hv, Hs, Hp.
Qed.

Lemma title_evidence_strict (g : knobs) (r : record) :
  title_evidence (with_strict true g) r = true ->
  title_evidence (with_strict false g) r = true.
Proof.
  unfold title_evidence. cbn [STRICT_REQUIRE_RL with_strict negb].
  change (has_mv (with_strict true g) r) with (has_mv g r).
  change (has_mv (with_strict false g) r) with (has_mv g r).
  change (has_wean (with_strict true g) r) with (has_wean g r).
  change (has_wean (with_strict false g) r) with (has_wean g r).
  change (has_rl (with_strict true g) r) with (has_rl g r).
  change (has_rl (with_strict false g) r) with (has_rl g r).
  destruct (has_mv g r), (has_wean g r), (has_rl g r); simpl; auto.
Qed.

(** X4.  Strict mode only removes candidates: every row that stage 1
    screens in with [STRICT_REQUIRE_RL] on is screened in, identically
    annotated, with the switch off; the strict list is no longer than
    the other; and with the switch off the reason [no_rl] is never
    given. *)
Theorem strict_mode_only_removes (g : knobs) (records : list record) :
  (forall x,
     In x (fst (Filter.apply_filters (with_strict true g) records)) ->
     In x (fst (Filter.apply_filters (with_strict false g) records))) /\
  List.length (fst (Filter.apply_filters (with_strict true g) records))
  <= List.length (fst (Filter.apply_filters (with_strict false g) records)) /\
  (forall r, ~ In "no_rl" (reason_codes (with_strict false g) r)).
Proof.
  rewrite !apply_filters_eq. cbn [fst]. split; [|split].
  - intros x Hx. apply in_map_iff in Hx. destruct Hx as (r & <- & Hr).
    apply filter_In in Hr. destruct Hr as [Hr He].
    apply in_map_iff. exists r. split; [reflexivity|].
    apply filter_In. split; [exact Hr|]. now apply title_evidence_strict.
  - rewrite !length_map. induction records as [|r records IH]; simpl; [lia|].
    destruct (title_evidence (with_strict true g) r) eqn:E.
    + rewrite (title_evidence_strict g r E). simpl. lia.
    + destruct (title_evidence (with_strict false g) r); simpl; lia.
  - intros r. unfold reason_codes. cbn [STRICT_REQUIRE_RL with_strict andb].
    destruct (has_mv (with_strict false g) r),
      (has_wean (with_strict false g) r); simpl; intuition discriminate.
Qed.

Lemma filter_map_same {A : Type} (f : A -> A) (p : A -> bool) (l : list A) :
  (forall x, p (f x) = p x) ->
  filter p (map f (filter p l)) = map f (filter p l).
Proof.
  intros Hp. apply filter_all. intros y Hy. apply in_map_iff in Hy.
  destruct Hy as (x & <- & Hx). apply filter_In in Hx. rewrite Hp. tauto.
Qed.

Lemma filter_map_none {A : Type} (f : A -> A) (p : A -> bool) (l : list A) :
  (forall x, p (f x) = p x) ->
  filter p (map f (filter (fun x => negb (p x)) l)) = [].
Proof.
  intros Hp. apply filter_none. intros y Hy. apply in_map_iff in Hy.
  destruct Hy as (x & <- & Hx). apply filter_In in Hx. rewrite Hp.
  destruct Hx as [_ Hx]. now apply negb_true_iff in Hx.
Qed.

(** X5.  Stage 1 is stable under its own output: screening the
    screened-in rows again screens all of them in, unchanged and in the
    same order, and screening the screened-out rows again screens all of
    them out with the same reasons. *)
Theorem apply_filters_again (g : knobs) (records : list record) :
  let '(screened_in, screened_out) := Filter.apply_filters g records in
  Filter.apply_filters g screened_in = (screened_in, []) /\
  Filter.apply_filters g screened_out = ([], screened_out).
Proof.
  rewrite apply_filters_eq. split; rewrite apply_filters_eq.
  - rewrite (filter_map_same (screened_in_row g) (title_evidence g))
      by reflexivity.
    f_equal.
    + rewrite map_map. apply map_ext. intros r. reflexivity.
    + replace (filter (fun r => negb (title_evidence g r))
                 (map (screened_in_row g) (filter (title_evidence g) records)))
        with (@nil record); [reflexivity|].
      symmetry. apply filter_none. intros y Hy. apply in_map_iff in Hy.
      destruct Hy as (x & <- & Hx). apply filter_In in Hx.
      rewrite title_evidence_screened_in_row. destruct Hx as [_ ->].
      reflexivity.
  - rewrite (filter_map_none (screened_out_row g) (title_evidence g))
      by reflexivity.
    f_equal.
    rewrite (filter_map_same (screened_out_row g)
               (fun r => negb (title_evidence g r))) by reflexivity.
    rewrite map_map. apply map_ext. intros r. reflexivity.
Qed.

End Stage1More.

(** ** The provider chain *)

Lemma dict_get_or_in {V : Type} (d : Py.dict V) (k : string) (v0 : V) :
  Py.dict_get_or d k v0 = v0 \/ In (Py.dict_get_or d k v0) (Py.dict_values d).
Proof.
  unfold Py.dict_get_or. destruct (Py.dict_get d k) as [x|] eqn:E.
  - right. apply dict_get_in in E.
    unfold Py.dict_values. apply in_map_iff. now exists (k, x).
  - now left.
Qed.

Lemma s2_abstract_of_in (d : Py.dict s2_paper) (k : string) :
  s2_abstract_of (Py.dict_get d k) = EmptyString \/
  In (s2_abstract_of (Py.dict_get d k))
     (map (fun o => s2_abstract_of (Some o)) (Py.dict_values d)).
Proof.
  destruct (Py.dict_get d k) as [o|] eqn:E; [|now left].
  right. apply dict_get_in in E. apply in_map_iff. exists o.
  split; [reflexivity|]. unfold Py.dict_values. apply in_map_iff.
  now exists (k, o).
Qed.

Lemma if_preserves {A : Type} (P : A -> Prop) (c : bool) (x y : A) :
  P x -> P y -> P (if c then x else y).
Proof. now destruct c. Qed.

Lemma lookup_abstract_in_tables (t : tables) (r : record) :
  lookup_abstract t r = EmptyString \/ In (lookup_abstract t r) (table_texts t).
Proof.
  set (P := fun a : string => a = EmptyString \/ In a (table_texts t)).
  assert (P0 : P EmptyString) by now left.
  assert (Ppm : forall k, P (Py.dict_get_or (pmid_to_abs t) k EmptyString)).
  { intros k. destruct (dict_get_or_in (pmid_to_abs t) k EmptyString) as [E|E];
      [now left|]. right. unfold table_texts. apply in_or_app. now left. }
  assert (Ps2 : forall k, P (s2_abstract_of (Py.dict_get (s2_map t) k))).
  { intros k. destruct (s2_abstract_of_in (s2_map t) k) as [E|E];
      [now left|]. right. unfold table_texts. apply in_or_app. right.
    apply in_or_app. now left. }
  assert (Poa : forall k, P (Py.dict_get_or (openalex_map t) k EmptyString)).
  { intros k.
    destruct (dict_get_or_in (openalex_map t) k EmptyString) as [E|E];
      [now left|]. right. unfold table_texts. apply in_or_app. right.
    apply in_or_app. right. apply in_or_app. now left. }
  assert (Pax : forall k, P (Py.dict_get_or (arxiv_map t) k EmptyString)).
  { intros k.
    destruct (dict_get_or_in (arxiv_map t) k EmptyString) as [E|E];
      [now left|]. right. unfold table_texts. apply in_or_app. right.
    apply in_or_app. right. apply in_or_app. now right. }
  change (P (lookup_abstract t r)). unfold lookup_abstract. cbv zeta.
  repeat (apply if_preserves; auto).
Qed.

Lemma lookup_abstract_empty_tables (r : record) :
  lookup_abstract empty_tables r = EmptyString.
Proof. destruct (lookup_abstract_in_tables empty_tables r) as [E|[]]. exact E. Qed.

(** X6.  The provider chain never makes text up: what it returns for a
    record is the empty string or one of the abstracts stored in the
    four tables.  With all four tables empty it returns the empty string
    for every record. *)
Theorem lookup_abstract_from_tables (t : tables) (r : record) :
  (lookup_abstract t r = EmptyString \/
   In (lookup_abstract t r) (table_texts t)) /\
  lookup_abstract empty_tables r = EmptyString.
Proof.
  split; [apply lookup_abstract_in_tables | apply lookup_abstract_empty_tables].
Qed.

Section Stage2More.
Context {RE : Regex}.

Lemma no_identifier_lookup (t : tables) (r : record) :
  no_identifier r = true -> lookup_abstract t r = EmptyString.
Proof.
  unfold no_identifier. rewrite !andb_true_iff, !negb_true_iff.
  intros (((((H1 & H2) & H3) & H4) & H5) & H6).
  unfold lookup_abstract. cbv zeta.
  rewrite H1, H2, H3, H4, H5, H6. reflexivity.
Qed.

Lemma stage2_row_empty (g : knobs) (t : tables) (r : record) :
  lookup_abstract t r = EmptyString ->
  stage2_row g t r = kept_without_abstract r /\ is_dropped g t r = false /\
  has_no_abstract t r = true.
Proof.
  intros H. unfold stage2_row, is_dropped, has_no_abstract, abs_clean_of.
  rewrite H. repeat split.
Qed.

Lemma abstract_stage_all_blind (g : knobs) (t : tables) (rows : list record) :
  (forall r, In r rows -> lookup_abstract t r = EmptyString) ->
  Filter.abstract_stage g t rows =
  (map kept_without_abstract rows, [],
   mk_abs_counts (len rows) (len rows) 0 (len rows)).
Proof.
  intros H. rewrite abstract_stage_eq.
  assert (Hd : filter (is_dropped g t) rows = []).
  { apply filter_none. intros r Hr. now apply stage2_row_empty, H. }
  assert (Hk : filter (fun r => negb (is_dropped g t r)) rows = rows).
  { apply filter_all. intros r Hr. apply negb_true_iff.
    now apply stage2_row_empty, H. }
  assert (Hn : filter (has_no_abstract t) rows = rows).
  { apply filter_all. intros r Hr. now apply (stage2_row_empty g), H. }
  rewrite Hd, Hk, Hn. cbn [map]. f_equal. f_equal.
  apply map_ext_in. intros r Hr. now apply stage2_row_empty, H.
Qed.

(** X7.  Stage 2 fails open when the providers give nothing: with all
    four tables empty every screened-in record is kept with
    [keep_no_abstract], in the given order, nothing is dropped, and the
    counts are [checked = kept = no_abstract = len(rows)],
    [dropped_by_abstract = 0]. *)
Theorem abstract_stage_providers_empty (g : knobs) (rows : list record) :
  Filter.abstract_stage g empty_tables rows =
  (map kept_without_abstract rows, [],
   mk_abs_counts (len rows) (len rows) 0 (len rows)).
Proof.
  apply abstract_stage_all_blind. intros r _.
  apply lookup_abstract_empty_tables.
Qed.

(** X8.  A record that gives the providers nothing to look up (source
    other than PubMed, OpenAlex and arXiv, no DOI, no OpenAlex id, no
    arXiv URL) is never dropped at stage 2, whatever the tables hold: a
    list of such records is kept in full with [keep_no_abstract]. *)
Theorem abstract_stage_no_identifier (g : knobs) (t : tables)
  (rows : list record) :
  Forall (fun r => no_identifier r = true) rows ->
  Filter.abstract_stage g t rows =
  (map kept_without_abstract rows, [],
   mk_abs_counts (len rows) (len rows) 0 (len rows)).
Proof.
  intros H. apply abstract_stage_all_blind. intros r Hr.
  apply no_identifier_lookup. rewrite Forall_forall in H. now apply H.
Qed.

End Stage2More.

(** ** Accounting *)

Lemma filter_partition_perm {A : Type} (p : A -> bool) (l : list A) :
  Permutation (filter (fun x => negb (p x)) l ++ filter p l) l.
Proof.
  induction l as [|x l IH]; simpl; [constructor|].
  destruct (p x); simpl.
  - apply Permutation_sym, Permutation_cons_app, Permutation_sym, IH.
  - now constructor.
Qed.

Lemma len_app {A : Type} (l1 l2 : list A) : len (l1 ++ l2) = (len l1 + len l2)%Z.
Proof. unfold len. rewrite length_app. lia. Qed.

Lemma len_filter_le {A : Type} (p q : A -> bool) (l : list A) :
  (forall x, p x = true -> q x = true) ->
  (0 <= len (filter p l) <= len (filter q l))%Z.
Proof.
  intros Hpq. unfold len. induction l as [|x l IH]; cbn [filter]; [simpl; lia|].
  destruct (p x) eqn:Ep.
  - rewrite (Hpq x Ep). cbn [List.length]. lia.
  - destruct (q x); cbn [List.length]; lia.
Qed.

Lemma len_filter_split {A : Type} (p q s : A -> bool) (l : list A) :
  (forall x, s x = xorb (p x) (q x)) ->
  (forall x, p x && q x = false) ->
  len (filter s l) = (len (filter p l) + len (filter q l))%Z.
Proof.
  intros Hs Hd. unfold len. induction l as [|x l IH]; [reflexivity|].
  cbn [filter]. rewrite (Hs x). specialize (Hd x).
  destruct (p x), (q x); cbn [xorb andb List.length] in *;
    try discriminate; lia.
Qed.

Section Accounting.
Context {RE : Regex}.

Lemma no_abstract_not_dropped (g : knobs) (t : tables) (r : record) :
  has_no_abstract t r = true -> negb (is_dropped g t r) = true.
Proof.
  unfold has_no_abstract, is_dropped, stage2_decision.
  intros H. now rewrite H.
Qed.

(** X9.  Stage-2 accounting: every screened-in row ends in exactly one
    of the two lists (together they are a rearrangement of the rows,
    each with its stage-2 annotations), [checked] is the number of rows,
    [kept] and [dropped_by_abstract] are the lengths of the two lists
    and add up to [checked], and [no_abstract] is at most [kept]. *)
Theorem abstract_stage_accounting (g : knobs) (t : tables) (rows : list record) :
  let '(keepers, dropped, c) := Filter.abstract_stage g t rows in
  Permutation (keepers ++ dropped) (map (stage2_row g t) rows) /\
  cnt_checked c = len rows /\
  cnt_kept c = len keepers /\
  cnt_dropped_by_abstract c = len dropped /\
  (cnt_kept c + cnt_dropped_by_abstract c = cnt_checked c)%Z /\
  (0 <= cnt_no_abstract c <= cnt_kept c)%Z.
Proof.
  rewrite abstract_stage_eq. cbn [cnt_checked cnt_kept cnt_dropped_by_abstract
    cnt_no_abstract].
  split; [|split; [|split; [|split; [|split]]]].
  - rewrite <- map_app. apply Permutation_map, filter_partition_perm.
  - reflexivity.
  - now rewrite len_map.
  - now rewrite len_map.
  - rewrite <- len_app.
    unfold len. f_equal. apply Permutation_length, filter_partition_perm.
  - apply len_filter_le. intros r. apply no_abstract_not_dropped.
Qed.

Lemma rescue_decision_flags (g : knobs) (t : tables) (r : record) :
  negb (is_confirmed g t r) = xorb (is_rescued g t r) (has_no_abstract t r) /\
  is_rescued g t r && has_no_abstract t r = false.
Proof.
  unfold is_confirmed, is_rescued, has_no_abstract, rescue_decision.
  destruct (Py.truthy (abs_clean_of t r)); [|split; reflexivity].
  destruct (abstract_evidence g (abs_clean_of t r)); split; reflexivity.
Qed.

(** X10.  Rescue-pass accounting: [checked] is the number of excluded
    rows read, the rows written out are as many as [rescued] plus
    [no_abstract], never more than [checked], and they keep the order of
    the input. *)
Theorem rescue_accounting (g : knobs) (t : tables) (stored : option prisma)
  (rows : list record) :
  let '(keepers, p) := Rescreen.main g t stored rows in
  exists c,
    abstract_rescreen p = Some c /\
    rs_checked c = len rows /\
    len keepers = (rs_rescued c + rs_no_abstract c)%Z /\
    (0 <= rs_rescued c)%Z /\ (0 <= rs_no_abstract c)%Z /\
    (rs_rescued c + rs_no_abstract c <= rs_checked c)%Z /\
    keepers = filter Rescreen.not_confirmed_exclude (map (rescue_row g t) rows).
Proof.
  rewrite rescue_main_eq. cbv zeta. eexists. split; [reflexivity|].
  cbn [rs_checked rs_rescued rs_no_abstract].
  assert (Hsplit :
    len (filter (fun r => negb (is_confirmed g t r)) rows)
    = (len (filter (is_rescued g t) rows)
       + len (filter (has_no_abstract t) rows))%Z).
  { apply len_filter_split; intros r; apply rescue_decision_flags. }
  split; [reflexivity|]. split; [now rewrite len_map|].
  split; [unfold len; lia|]. split; [unfold len; lia|].
  split.
  - rewrite <- Hsplit. unfold len.
    pose proof (filter_length_le (fun r => negb (is_confirmed g t r)) rows).
    lia.
  - now rewrite filter_map_commute.
Qed.


End Accounting.

(** ** [main] of [filter.py] *)

Lemma deduplicate_length (records out : list record) :
  Filter.deduplicate records = Ok out ->
  List.length out <= List.length records.
Proof.
  unfold Filter.deduplicate.
  destruct (for_each Filter.dedup_step records (Filter.mk_dedup [] [] []))
    as [st|e] eqn:Hst; cbn [bind]; [|discriminate].
  intros H. injection H as <-.
  pose proof (dedup_inv_loop records [] _ st dedup_inv_init Hst) as Hinv.
  destruct Hinv as [_ _ _ Hlen]. cbn [app] in Hlen.
  unfold Filter.dedup_finish, Py.dict_values.
  rewrite !length_app, !length_map. lia.
Qed.

Lemma deduplicate_returns (records : list record) :
  Forall (fun r => In (source r) Filter.SOURCE_PRIORITY) records ->
  exists out, Filter.deduplicate records = Ok out.
Proof.
  intros Hall.
  destruct (dedup_loop_returns records [] _ dedup_inv_init Hall) as [st Hst].
  unfold Filter.deduplicate. rewrite Hst. cbn [bind]. eauto.
Qed.

Section MainAccounting.
Context {RE : Regex}.

(** X12.  On records whose sources are in [SOURCE_PRIORITY], [main]
    returns, and the count object it writes is consistent with the files
    it writes: [after_dedup] is at most [identified_raw_total] and is the
    sum of [auto_screen_in] and [auto_screen_out], which are the lengths
    of the two stage-1 files; stage 2 checked every screened-in row;
    [auto_screen_in_after_abstract] is [kept], the number of rows of
    [abstract_check]; and no rescue key is present yet. *)
Theorem filter_main_accounting (g : knobs) (t : tables)
  (all_records : list record) :
  Forall (fun r => In (source r) Filter.SOURCE_PRIORITY) all_records ->
  exists o n c,
    Filter.main g t all_records = Ok o /\
    identified_raw_total (Filter.prisma_counts o) = Some (len all_records) /\
    after_dedup (Filter.prisma_counts o) = Some n /\
    (0 <= n <= len all_records)%Z /\
    auto_screen_in (Filter.prisma_counts o)
    = Some (len (Filter.screened_candidates o)) /\
    auto_screen_out (Filter.prisma_counts o)
    = Some (len (Filter.excluded_non_mv_weaning o)) /\
    (len (Filter.screened_candidates o)
     + len (Filter.excluded_non_mv_weaning o) = n)%Z /\
    abstract_stage_counts (Filter.prisma_counts o) = Some c /\
    cnt_checked c = len (Filter.screened_candidates o) /\
    cnt_kept c = len (Filter.abstract_check o) /\
    (cnt_kept c + cnt_dropped_by_abstract c = cnt_checked c)%Z /\
    auto_screen_in_after_abstract (Filter.prisma_counts o) = Some (cnt_kept c) /\
    abstract_rescreen (Filter.prisma_counts o) = None /\
    auto_screen_out_after_abstract (Filter.prisma_counts o) = None.
Proof.
  intros Hall. destruct (deduplicate_returns all_records Hall) as [dedup Hd].
  pose proof (deduplicate_length _ _ Hd) as Hlen.
  unfold Filter.main. rewrite Hd. cbn [bind].
  pose proof (apply_filters_eq g dedup) as Hf.
  destruct (Filter.apply_filters g dedup) as [si so].
  assert (Hsum : (len si + len so = len dedup)%Z).
  { injection Hf as -> ->. rewrite !len_map. unfold len.
    pose proof (filter_partition_length (title_evidence g) dedup). lia. }
  destruct si as [|x si].
  - eexists. exists (len dedup). eexists.
    split; [reflexivity|].
    cbn. unfold len in *. cbn [List.length] in Hsum.
    repeat split; try reflexivity; try lia.
  - cbv beta iota. remember (x :: si) as rows eqn:Hrows.
    pose proof (abstract_stage_eq g t rows) as Ha.
    destruct (Filter.abstract_stage g t rows) as [[k d] c].
    eexists. exists (len dedup). exists c.
    split; [reflexivity|].
    injection Ha as -> -> ->.
    cbn [Filter.prisma_counts Filter.screened_candidates
         Filter.excluded_non_mv_weaning Filter.abstract_check
         identified_raw_total after_dedup auto_screen_in auto_screen_out
         abstract_stage_counts auto_screen_in_after_abstract
         abstract_rescreen auto_screen_out_after_abstract
         cnt_checked cnt_kept cnt_dropped_by_abstract int_or_0].
    assert (Hkd :
      (len (filter (fun r => negb (is_dropped g t r)) rows)
       + len (filter (is_dropped g t) rows) = len rows)%Z).
    { rewrite <- len_app. unfold len. f_equal.
      apply Permutation_length, filter_partition_perm. }
    rewrite len_map.
    repeat split; try reflexivity; try (unfold len in *; lia).
    f_equal. lia.
Qed.

Lemma filter_main_stage1_counts (g : knobs) (t : tables)
  (all_records : list record) (o : Filter.outputs) :
  Filter.main g t all_records = Ok o ->
  auto_screen_in (Filter.prisma_counts o)
  = Some (len (Filter.screened_candidates o)) /\
  auto_screen_out (Filter.prisma_counts o)
  = Some (len (Filter.excluded_non_mv_weaning o)) /\
  after_dedup (Filter.prisma_counts o)
  = Some (len (Filter.screened_candidates o)
          + len (Filter.excluded_non_mv_weaning o))%Z.
Proof.
  unfold Filter.main.
  destruct (Filter.deduplicate all_records) as [dedup|e]; cbn [bind];
    [|discriminate].
  pose proof (apply_filters_eq g dedup) as Hf.
  destruct (Filter.apply_filters g dedup) as [si so].
  assert (Hsum : (len si + len so = len dedup)%Z).
  { injection Hf as -> ->. rewrite !len_map. unfold len.
    pose proof (filter_partition_length (title_evidence g) dedup). lia. }
  destruct si as [|x si].
  - intros H. injection H as <-.
    cbn [Filter.prisma_counts Filter.screened_candidates
         Filter.excluded_non_mv_weaning auto_screen_in auto_screen_out
         after_dedup].
    rewrite Hsum. repeat split.
  - destruct (Filter.abstract_stage g t (x :: si)) as [[k d] c].
    intros H. injection H as <-.
    cbn [Filter.prisma_counts Filter.screened_candidates
         Filter.excluded_non_mv_weaning auto_screen_in auto_screen_out
         after_dedup].
    rewrite Hsum. repeat split.
Qed.

(** X13.  The rescue pass after [filter.py]: run on as many rows as
    [filter.py] excluded, with the count object that [filter.py] wrote,
    the rescue pass never needs its clamp at zero, and the two totals it
    writes add up to [after_dedup]. *)
Theorem rescue_after_filter_totals (g1 g2 : knobs) (t1 t2 : tables)
  (all_records rows : list record) (o : Filter.outputs) :
  Filter.main g1 t1 all_records = Ok o ->
  List.length rows = List.length (Filter.excluded_non_mv_weaning o) ->
  let p := snd (Rescreen.main g2 t2 (Some (Filter.prisma_counts o)) rows) in
  let rescued := len (filter (is_rescued g2 t2) rows) in
  auto_screen_in_after_abstract p
  = Some (len (Filter.screened_candidates o) + rescued)%Z /\
  auto_screen_out_after_abstract p
  = Some (len (Filter.excluded_non_mv_weaning o) - rescued)%Z /\
  (0 <= len (Filter.excluded_non_mv_weaning o) - rescued)%Z /\
  after_dedup p
  = Some (len (Filter.screened_candidates o) + rescued
          + (len (Filter.excluded_non_mv_weaning o) - rescued))%Z.
Proof.
  intros Hmain Hrows. cbv zeta. rewrite rescue_main_eq.
  destruct (filter_main_stage1_counts _ _ _ _ Hmain) as (Hin & Hout & Hdd).
  cbv zeta. cbn [snd auto_screen_in_after_abstract
                 auto_screen_out_after_abstract after_dedup].
  rewrite Hin, Hout, Hdd. cbn [int_or_0].
  assert (Hle : (len (filter (is_rescued g2 t2) rows)
                 <= len (Filter.excluded_non_mv_weaning o))%Z).
  { unfold len. rewrite <- Hrows.
    pose proof (filter_length_le (is_rescued g2 t2) rows). lia. }
  repeat split; try (f_equal; lia); lia.
Qed.

(** X14.  With [CASE_SENSITIVE] off the rescue script and stage 2
    compute the same three flags on every abstract; then a rescued
    abstract that has RL evidence would be kept by stage 2, and an
    abstract that stage 2 keeps and that has weaning evidence would be
    rescued. *)
Theorem rescue_and_stage2_agree (g : knobs) (a : string) :
  CASE_SENSITIVE g = false ->
  rescue_has_mv g a = abs_has_mv g a /\
  rescue_has_wean g a = abs_has_wean g a /\
  rescue_has_rl g a = abs_has_rl g a /\
  (rescue_decision g a = "rescue" -> rescue_has_rl g a = true ->
   stage2_decision g a = "keep") /\
  (stage2_decision g a = "keep" -> abs_has_wean g a = true ->
   rescue_decision g a = "rescue").
Proof.
  intros Hc.
  assert (Hterms : forall terms,
    Rescreen.compile_terms g terms = Filter.abs_compile_terms terms).
  { intros terms. unfold Rescreen.compile_terms, Filter.abs_compile_terms.
    rewrite Hc. reflexivity. }
  assert (Hmv : rescue_has_mv g a = abs_has_mv g a).
  { unfold rescue_has_mv, abs_has_mv, Rescreen.MV_RX, Filter.ABS_MV_RX.
    now rewrite Hterms. }
  assert (Hwn : rescue_has_wean g a = abs_has_wean g a).
  { unfold rescue_has_wean, abs_has_wean, Rescreen.WEAN_RX, Filter.ABS_WEAN_RX.
    now rewrite Hterms. }
  assert (Hrl : rescue_has_rl g a = abs_has_rl g a).
  { unfold rescue_has_rl, abs_has_rl, Rescreen.RL_RX, Filter.ABS_RL_RX.
    now rewrite Hterms. }
  split; [exact Hmv|]. split; [exact Hwn|]. split; [exact Hrl|].
  unfold rescue_decision, stage2_decision, abstract_evidence.
  rewrite Hmv, Hwn, Hrl.
  destruct (Py.truthy a), (abs_has_mv g a), (abs_has_wean g a),
    (abs_has_rl g a), (STRICT_REQUIRE_RL g); cbn; split; intros; 
    try reflexivity; try discriminate.
Qed.

End MainAccounting.

(** ** [deduplicate]: pairs, distinct keys, and the order of the output *)

Lemma for_each_two {S A : Type} (step : S -> A -> result S) (a b : A) (st : S) :
  for_each step [a; b] st = st1 <- step st a ;; st2 <- step st1 b ;; Ok st2.
Proof.
  simpl. destruct (step st a) as [st1|e]; simpl; [|reflexivity].
  now destruct (step st1 b).
Qed.

(** X15.  On a pair of records with the same identity key,
    [deduplicate] is [better_record]: it returns the one record that
    [better_record] chooses, and raises when [better_record] raises. *)
Theorem deduplicate_pair (a b : record) :
  identity_key a = identity_key b ->
  identity_key a <> Standalone ->
  Filter.deduplicate [a; b] = w <- Filter.better_record a b ;; Ok [w].
Proof.
  intros Hab Ha. unfold Filter.deduplicate. rewrite for_each_two.
  rewrite dedup_step_by_key.
  destruct (identity_key a) as [k|k|] eqn:Hk; [| |now elim Ha].
  - cbn [Filter.by_doi Filter.by_title Filter.kept Filter.merge_into
         Py.dict_get Py.dict_set bind].
    rewrite dedup_step_by_key, <- Hab.
    cbn [Filter.by_doi Filter.by_title Filter.kept].
    unfold Filter.merge_into. cbn [Py.dict_get]. rewrite String.eqb_refl.
    destruct (Filter.better_record a b) as [w|e]; cbn [bind];
      [|reflexivity].
    cbn [Py.dict_set]. rewrite String.eqb_refl. reflexivity.
  - cbn [Filter.by_doi Filter.by_title Filter.kept Filter.merge_into
         Py.dict_get Py.dict_set bind].
    rewrite dedup_step_by_key, <- Hab.
    cbn [Filter.by_doi Filter.by_title Filter.kept].
    unfold Filter.merge_into. cbn [Py.dict_get]. rewrite String.eqb_refl.
    destruct (Filter.better_record a b) as [w|e]; cbn [bind];
      [|reflexivity].
    cbn [Py.dict_set]. rewrite String.eqb_refl. reflexivity.
Qed.

Lemma first_seen_snoc (l : list identity) (i : identity) :
  first_seen (l ++ [i]) =
  if existsb (identity_eqb i) (first_seen l) then first_seen l
  else first_seen l ++ [i].
Proof. unfold first_seen. now rewrite fold_left_app. Qed.

Lemma existsb_tagged (tag : string -> identity) (k : string)
  (keys : list string) :
  (forall k1 k2, tag k1 = tag k2 -> k1 = k2) ->
  existsb (identity_eqb (tag k)) (map tag keys) = true <-> In k keys.
Proof.
  intros Hinj. rewrite existsb_exists. split.
  - intros (i & Hi & He). apply in_map_iff in Hi. destruct Hi as (k' & <- & Hk').
    apply identity_eqb_eq in He. apply Hinj in He. now subst.
  - intros Hk. exists (tag k). split; [now apply in_map|].
    now apply identity_eqb_eq.
Qed.

Lemma merge_into_keys (tag : string -> identity) (d d' : Py.dict record)
  (k : string) (r : record) :
  (forall k1 k2, tag k1 = tag k2 -> k1 = k2) ->
  Filter.merge_into d k r = Ok d' ->
  map tag (Py.dict_keys d') =
  if existsb (identity_eqb (tag k)) (map tag (Py.dict_keys d))
  then map tag (Py.dict_keys d)
  else map tag (Py.dict_keys d) ++ [tag k].
Proof.
  intros Hinj Hm. destruct (merge_into_selects _ _ _ _ Hm) as (w & -> & _).
  destruct (Py.dict_get d k) as [old|] eqn:Hg.
  - rewrite (dict_set_keys_present d k w old Hg).
    assert (Hin : In k (Py.dict_keys d)).
    { apply dict_get_in in Hg. unfold Py.dict_keys. apply in_map_iff.
      now exists (k, old). }
    apply (existsb_tagged tag k _ Hinj) in Hin. now rewrite Hin.
  - rewrite (dict_set_new d k w Hg).
    assert (Hnot : existsb (identity_eqb (tag k)) (map tag (Py.dict_keys d))
                   = false).
    { destruct (existsb _ _) eqn:E; [|reflexivity].
      apply (existsb_tagged tag k _ Hinj) in E.
      now apply dict_get_none_iff in Hg. }
    rewrite Hnot. unfold Py.dict_keys. now rewrite !map_app.
Qed.

(** The keys of the two dictionaries after the records [xs]. *)
Lemma dedup_keys_step (xs : list record) (st st' : Filter.dedup_state)
  (r : record) :
  map ByDoi (Py.dict_keys (Filter.by_doi st))
  = first_seen (filter keyed_by_doi (map identity_key xs)) ->
  map ByTitle (Py.dict_keys (Filter.by_title st))
  = first_seen (filter keyed_by_title (map identity_key xs)) ->
  Filter.dedup_step st r = Ok st' ->
  map ByDoi (Py.dict_keys (Filter.by_doi st'))
  = first_seen (filter keyed_by_doi (map identity_key (xs ++ [r]))) /\
  map ByTitle (Py.dict_keys (Filter.by_title st'))
  = first_seen (filter keyed_by_title (map identity_key (xs ++ [r]))).
Proof.
  intros Hd Ht. rewrite dedup_step_by_key, map_app, !filter_app. cbn [map filter].
  destruct (identity_key r) as [k|k|] eqn:Hid;
    cbn [keyed_by_doi keyed_by_title].
  - destruct (Filter.merge_into (Filter.by_doi st) k r) as [d|e] eqn:Hm;
      cbn [bind]; [|discriminate].
    intros H. injection H as <-. cbn [Filter.by_doi Filter.by_title].
    rewrite app_nil_r, first_seen_snoc, <- Hd. split; [|exact Ht].
    apply (merge_into_keys ByDoi _ _ _ _ ByDoi_inj Hm).
  - destruct (Filter.merge_into (Filter.by_title st) k r) as [d|e] eqn:Hm;
      cbn [bind]; [|discriminate].
    intros H. injection H as <-. cbn [Filter.by_doi Filter.by_title].
    rewrite app_nil_r, first_seen_snoc, <- Ht. split; [exact Hd|].
    apply (merge_into_keys ByTitle _ _ _ _ ByTitle_inj Hm).
  - intros H. injection H as <-. cbn [Filter.by_doi Filter.by_title].
    rewrite !app_nil_r. now split.
Qed.

Lemma dedup_keys_loop (records xs : list record) (st st' : Filter.dedup_state) :
  map ByDoi (Py.dict_keys (Filter.by_doi st))
  = first_seen (filter keyed_by_doi (map identity_key xs)) ->
  map ByTitle (Py.dict_keys (Filter.by_title st))
  = first_seen (filter keyed_by_title (map identity_key xs)) ->
  for_each Filter.dedup_step records st = Ok st' ->
  map ByDoi (Py.dict_keys (Filter.by_doi st'))
  = first_seen (filter keyed_by_doi (map identity_key (xs ++ records))) /\
  map ByTitle (Py.dict_keys (Filter.by_title st'))
  = first_seen (filter keyed_by_title (map identity_key (xs ++ records))).
Proof.
  revert xs st. induction records as [|r records IH]; intros xs st Hd Ht; simpl.
  - intros H. injection H as <-. now rewrite app_nil_r.
  - destruct (Filter.dedup_step st r) as [st1|e] eqn:Hs; cbn [bind];
      [|discriminate].
    intros H. replace (xs ++ r :: records) with ((xs ++ [r]) ++ records)
      by now rewrite <- app_assoc.
    destruct (dedup_keys_step xs st st1 r Hd Ht Hs) as [Hd1 Ht1].
    now apply (IH _ st1).
Qed.

Lemma dict_wf_value_keys (tag : string -> identity) (xs : list record)
  (d : Py.dict record) :
  dict_wf tag xs d ->
  map identity_key (Py.dict_values d) = map tag (Py.dict_keys d).
Proof.
  intros [_ Hk _]. unfold Py.dict_values, Py.dict_keys. rewrite !map_map.
  apply map_ext_in. intros [k v] Hin. simpl. now destruct (Hk k v Hin).
Qed.

Lemma map_filter_commute {A B : Type} (f : A -> B) (p : B -> bool) (l : list A) :
  map f (filter (fun x => p (f x)) l) = filter p (map f l).
Proof. symmetry. apply filter_map_commute. Qed.

(** X16.  The keys of the output of [deduplicate], in order: first one
    entry per record without a key, as often as there are such records;
    then the DOI keys, each once, in the order in which each first
    occurs in the input; then the title keys, likewise. *)
Theorem deduplicate_key_order (records out : list record) :
  Filter.deduplicate records = Ok out ->
  map identity_key out =
  filter not_keyed (map identity_key records)
  ++ first_seen (filter keyed_by_doi (map identity_key records))
  ++ first_seen (filter keyed_by_title (map identity_key records)).
Proof.
  unfold Filter.deduplicate.
  destruct (for_each Filter.dedup_step records (Filter.mk_dedup [] [] []))
    as [st|e] eqn:Hst; cbn [bind]; [|discriminate].
  intros H. injection H as <-.
  pose proof (dedup_inv_loop records [] _ st dedup_inv_init Hst) as Hinv.
  cbn [app] in Hinv. destruct Hinv as [Hkept Hdoi Htitle _].
  destruct (dedup_keys_loop records [] (Filter.mk_dedup [] [] []) st
              eq_refl eq_refl Hst) as [Hd Ht].
  cbn [app] in Hd, Ht.
  unfold Filter.dedup_finish. rewrite !map_app, Hkept.
  rewrite (dict_wf_value_keys ByDoi records _ Hdoi), Hd.
  rewrite (dict_wf_value_keys ByTitle records _ Htitle), Ht.
  f_equal. rewrite <- map_filter_commute. f_equal.
Qed.

(** With pairwise distinct keys every record opens a new entry. *)
Lemma dedup_distinct_loop (rest pre : list record) (st : Filter.dedup_state) :
  NoDup (filter (fun i => negb (not_keyed i)) (map identity_key (pre ++ rest))) ->
  Filter.kept st = filter is_standalone pre ->
  Filter.by_doi st
  = map (fun r => (key_string (identity_key r), r)) (filter filed_by_doi pre) ->
  Filter.by_title st
  = map (fun r => (key_string (identity_key r), r)) (filter filed_by_title pre) ->
  for_each Filter.dedup_step rest st =
  Ok (Filter.mk_dedup
        (map (fun r => (key_string (identity_key r), r))
             (filter filed_by_doi (pre ++ rest)))
        (map (fun r => (key_string (identity_key r), r))
             (filter filed_by_title (pre ++ rest)))
        (filter is_standalone (pre ++ rest))).
Proof.
  revert pre st. induction rest as [|r rest IH]; intros pre st Hnd Hk Hd Ht.
  - rewrite app_nil_r. simpl. destruct st; simpl in *. now subst.
  - assert (Hfresh : forall x, In x pre -> identity_key r <> Standalone ->
                               identity_key x <> identity_key r).
    { intros x Hx Hr Heq. rewrite map_app, filter_app in Hnd. cbn [map filter] in Hnd.
      assert (Hkr : negb (not_keyed (identity_key r)) = true)
        by (destruct (identity_key r); [reflexivity|reflexivity|now elim Hr]).
      rewrite Hkr in Hnd. apply NoDup_remove_2 in Hnd. apply Hnd.
      apply in_or_app. left. apply filter_In. split.
      - rewrite <- Heq. now apply in_map.
      - exact Hkr. }
    replace (pre ++ r :: rest) with ((pre ++ [r]) ++ rest) in *
      by now rewrite <- app_assoc.
    cbn [for_each]. rewrite dedup_step_by_key.
    destruct (identity_key r) as [k|k|] eqn:Hid.
    + rewrite merge_into_new.
      * cbn [bind]. apply IH; [exact Hnd| | |];
          cbn [Filter.kept Filter.by_doi Filter.by_title];
          rewrite filter_snoc.
        -- unfold is_standalone, has_identity. rewrite Hid. cbn.
           now rewrite app_nil_r.
        -- unfold filed_by_doi at 2. rewrite Hid. cbn [keyed_by_doi].
           rewrite map_app, Hd. cbn [map]. now rewrite Hid.
        -- unfold filed_by_title at 2. rewrite Hid. cbn [keyed_by_title].
           now rewrite app_nil_r.
      * rewrite Hd. unfold Py.dict_keys. rewrite map_map. cbn [fst].
        intros Hin. apply in_map_iff in Hin. destruct Hin as (x & Hx & Hxin).
        apply filter_In in Hxin. destruct Hxin as [Hxin Hf].
        apply (Hfresh x Hxin); [discriminate|].
        unfold filed_by_doi in Hf. destruct (identity_key x); try discriminate.
        simpl in Hx. now subst.
    + rewrite merge_into_new.
      * cbn [bind]. apply IH; [exact Hnd| | |];
          cbn [Filter.kept Filter.by_doi Filter.by_title];
          rewrite filter_snoc.
        -- unfold is_standalone, has_identity. rewrite Hid. cbn.
           now rewrite app_nil_r.
        -- unfold filed_by_doi at 2. rewrite Hid. cbn [keyed_by_doi].
           now rewrite app_nil_r.
        -- unfold filed_by_title at 2. rewrite Hid. cbn [keyed_by_title].
           rewrite map_app, Ht. cbn [map]. now rewrite Hid.
      * rewrite Ht. unfold Py.dict_keys. rewrite map_map. cbn [fst].
        intros Hin. apply in_map_iff in Hin. destruct Hin as (x & Hx & Hxin).
        apply filter_In in Hxin. destruct Hxin as [Hxin Hf].
        apply (Hfresh x Hxin); [discriminate|].
        unfold filed_by_title in Hf. destruct (identity_key x); try discriminate.
        simpl in Hx. now subst.
    + apply IH; [exact Hnd| | |];
        cbn [Filter.kept Filter.by_doi Filter.by_title];
        rewrite filter_snoc.
      * unfold is_standalone at 2, has_identity. rewrite Hid. cbn.
        now rewrite Hk.
      * unfold filed_by_doi at 2. rewrite Hid. cbn [keyed_by_doi].
        now rewrite app_nil_r.
      * unfold filed_by_title at 2. rewrite Hid. cbn [keyed_by_title].
        now rewrite app_nil_r.
Qed.

Lemma dedup_distinct (records : list record) :
  NoDup (filter (fun i => negb (not_keyed i)) (map identity_key records)) ->
  Filter.deduplicate records =
  Ok (filter is_standalone records ++ filter filed_by_doi records
      ++ filter filed_by_title records).
Proof.
  intros Hnd. unfold Filter.deduplicate.
  rewrite (dedup_distinct_loop records [] (Filter.mk_dedup [] [] []) Hnd
             eq_refl eq_refl eq_refl).
  cbn [bind app]. unfold Filter.dedup_finish, Py.dict_values.
  cbn [Filter.kept Filter.by_doi Filter.by_title].
  rewrite !map_map. cbn [snd]. now rewrite !map_id.
Qed.

(** X17.  When no two keyed records of the input share an identity key,
    [deduplicate] merges nothing and never raises, whatever the sources
    are: it returns the records without a key, then the records with a
    DOI, then the records with a title key only, each group in input
    order. *)
Theorem deduplicate_distinct_keys (records : list record) :
  NoDup (filter (fun i => negb (not_keyed i)) (map identity_key records)) ->
  Filter.deduplicate records =
  Ok (filter is_standalone records ++ filter filed_by_doi records
      ++ filter filed_by_title records).
Proof. exact (dedup_distinct records). Qed.

Lemma identity_key_with_doi (a : record) :
  doi a <> EmptyString -> identity_key a = ByDoi (Py.lower (doi a)).
Proof.
  intros Ha. unfold identity_key. rewrite truthy_lower.
  apply truthy_true_iff in Ha. now rewrite Ha.
Qed.

Lemma identity_key_without_doi (b : record) :
  doi b = EmptyString -> Filter.norm_title_key (title b) <> EmptyString ->
  exists k, identity_key b = ByTitle k.
Proof.
  intros Hb Ht. unfold identity_key. rewrite Hb. cbn [Py.lower Py.truthy].
  apply truthy_true_iff in Ht. rewrite Ht. cbn [negb].
  destruct (year_truthy b); eauto.
Qed.

(** X18.  A record with a DOI and a record without one are never
    merged, even when their titles and years are the same: both come
    out, the one with the DOI first, in whichever order they went in. *)
Theorem doi_and_title_records_never_merge (a b : record) :
  doi a <> EmptyString ->
  doi b = EmptyString ->
  Filter.norm_title_key (title b) <> EmptyString ->
  Filter.deduplicate [a; b] = Ok [a; b] /\
  Filter.deduplicate [b; a] = Ok [a; b].
Proof.
  intros Ha Hb Ht.
  pose proof (identity_key_with_doi a Ha) as Hka.
  destruct (identity_key_without_doi b Hb Ht) as [k Hkb].
  split.
  - rewrite dedup_distinct.
    + cbn [filter]. unfold is_standalone, has_identity, filed_by_doi,
        filed_by_title. rewrite Hka, Hkb. reflexivity.
    + cbn [map filter]. rewrite Hka, Hkb. cbn.
      repeat constructor; simpl; intuition discriminate.
  - rewrite dedup_distinct.
    + cbn [filter]. unfold is_standalone, has_identity, filed_by_doi,
        filed_by_title. rewrite Hka, Hkb. reflexivity.
    + cbn [map filter]. rewrite Hka, Hkb. cbn.
      repeat constructor; simpl; intuition discriminate.
Qed.

(** ** [safe_year] *)

Lemma isdigit_value (c : ascii) :
  Py.isdigit c = true -> (0 <= Py.digit_value c <= 9)%Z.
Proof.
  unfold Py.isdigit, Py.between, Py.digit_value.
  rewrite andb_true_iff, !Nat.leb_le. lia.
Qed.

Lemma year_at_range (s : string) (y : Z) :
  Filter.year_at s = Some y -> (1900 <= y <= 2099)%Z.
Proof.
  destruct s as [|a [|b [|c [|d s]]]]; try discriminate. unfold Filter.year_at.
  destruct (Py.isdigit c) eqn:Hc; [|rewrite andb_false_r; discriminate].
  destruct (Py.isdigit d) eqn:Hd; [|rewrite andb_false_r; discriminate].
  apply isdigit_value in Hc, Hd. rewrite !andb_true_r.
  destruct ((a =? "1")%char && (b =? "9")%char) eqn:H19.
  - apply andb_true_iff in H19. destruct H19 as [Ha Hb].
    apply Ascii.eqb_eq in Ha, Hb. subst a b. cbn [orb].
    intros H. injection H as <-.
    unfold Py.int_of_digits. cbn [Py.int_of_digits_from].
    change (Py.digit_value "1") with 1%Z. change (Py.digit_value "9") with 9%Z.
    lia.
  - cbn [orb]. destruct ((a =? "2")%char && (b =? "0")%char) eqn:H20;
      [|discriminate].
    apply andb_true_iff in H20. destruct H20 as [Ha Hb].
    apply Ascii.eqb_eq in Ha, Hb. subst a b.
    intros H. injection H as <-.
    unfold Py.int_of_digits. cbn [Py.int_of_digits_from].
    change (Py.digit_value "2") with 2%Z. change (Py.digit_value "0") with 0%Z.
    lia.
Qed.

Lemma search_year_range (s : string) (y : Z) :
  Filter.search_year s = Some y -> (1900 <= y <= 2099)%Z.
Proof.
  induction s as [|c s IH]; cbn [Filter.search_year].
  - discriminate.
  - destruct (Filter.year_at (String c s)) as [y'|] eqn:E.
    + intros H. injection H as <-. now apply (year_at_range _ _ E).
    + exact IH.
Qed.

(** X19.  Whatever text it is given, [safe_year] returns nothing or a
    year between 1900 and 2099. *)
Theorem safe_year_range (text : option string) (y : Z) :
  Filter.safe_year text = Some y -> (1900 <= y <= 2099)%Z.
Proof.
  destruct text as [s|]; [|discriminate]. unfold Filter.safe_year.
  destruct (negb (Py.truthy s)); [discriminate|]. apply search_year_range.
Qed.

Lemma safe_year_range_witness :
  Filter.safe_year (Some "J Smith - Critical Care, 2021 - Springer") = Some 2021%Z /\
  (1900 <= 2021 <= 2099)%Z.
Proof.
  assert (H : Filter.safe_year (Some "J Smith - Critical Care, 2021 - Springer")
              = Some 2021%Z) by reflexivity.
  split; [exact H|]. exact (safe_year_range _ _ H).
Defined.

Lemma safe_year_printed_all :
  forallb (fun n =>
             match Py.str_of_int (1900 + Z.of_nat n) with
             | String a (String b (String c (String d EmptyString))) =>
                 match Filter.year_at
                         (String a (String b (String c (String d EmptyString))))
                 with
                 | Some y => (y =? 1900 + Z.of_nat n)%Z
                 | None => false
                 end
             | _ => false
             end)
          (seq 0 200) = true.
Proof. vm_compute. reflexivity. Qed.

(** X20.  A text that begins with a year between 1900 and 2099 written
    in decimal, such as an ISO date, gives that year. *)
Theorem safe_year_of_leading_year (y : Z) (rest : string) :
  (1900 <= y <= 2099)%Z ->
  Filter.safe_year (Some (Py.str_of_int y ++ rest)%string) = Some y.
Proof.
  intros Hy. pose proof safe_year_printed_all as H.
  rewrite forallb_forall in H.
  specialize (H (Z.to_nat (y - 1900))).
  replace (1900 + Z.of_nat (Z.to_nat (y - 1900)))%Z with y in H by lia.
  assert (Hin : In (Z.to_nat (y - 1900)) (seq 0 200)) by (apply in_seq; lia).
  specialize (H Hin).
  destruct (Py.str_of_int y) as [|a [|b [|c [|d [|e s]]]]]; try discriminate.
  cbn [append]. unfold Filter.safe_year. cbn [Py.truthy negb].
  cbn [Filter.search_year].
  change (Filter.year_at (String a (String b (String c (String d rest)))))
    with (Filter.year_at
            (String a (String b (String c (String d EmptyString))))).
  destruct (Filter.year_at _) as [y'|]; [|discriminate].
  apply Z.eqb_eq in H. now subst.
Qed.

Lemma safe_year_of_leading_year_witness :
  (1900 <= 2021 <= 2099)%Z /\
  Filter.safe_year (Some (Py.str_of_int 2021 ++ "-05-01")%string)
  = Some 2021%Z.
Proof.
  assert (H : (1900 <= 2021 <= 2099)%Z) by lia.
  split; [exact H|]. exact (safe_year_of_leading_year 2021 "-05-01" H).
Defined.

(** ** Splitting, PubMed identifiers and the authors cell *)

Lemma append_empty_r (s : string) : (s ++ EmptyString)%string = s.
Proof. induction s as [|c s IH]; simpl; [reflexivity | now rewrite IH]. Qed.

Lemma append_assoc (a b c : string) :
  ((a ++ b) ++ c)%string = (a ++ (b ++ c))%string.
Proof. induction a as [|x a IH]; simpl; [reflexivity | now rewrite IH]. Qed.

(** A separator that does not occur is never cut at. *)
Lemma split_from_no_occurrence (sep p cur : string) :
  Py.contains sep p = false ->
  Py.split_from sep 0 cur p = [(cur ++ p)%string].
Proof.
  revert cur. induction p as [|c p IH]; intros cur Hc.
  - simpl. now rewrite append_empty_r.
  - cbn [Py.contains] in Hc. apply orb_false_iff in Hc. destruct Hc as [Hp Hc].
    cbn [Py.split_from]. rewrite Hp, (IH _ Hc), append_assoc. reflexivity.
Qed.

Lemma pmid_split (pmid : string) :
  Py.contains "PMID:" pmid = false ->
  Py.startswith ("PMID:" ++ pmid) "PMID:" = true /\
  Py.item1 (Py.split ("PMID:" ++ pmid) "PMID:") = pmid.
Proof.
  intros Hc. split.
  - unfold Py.startswith. apply prefix_app.
  - unfold Py.split. simpl.
    rewrite (split_from_no_occurrence "PMID:" pmid EmptyString Hc).
    now destruct pmid.
Qed.

Lemma normalize_pubmed_standalone (data : option (list string)) (r : record) :
  In r (Filter.normalize_pubmed data) -> identity_key r = Standalone.
Proof.
  destruct data as [pmids|]; [|intros []]. unfold Filter.normalize_pubmed.
  intros Hin. apply in_map_iff in Hin. destruct Hin as (pmid & <- & _).
  reflexivity.
Qed.

(** X21.  The records that [normalize_pubmed] builds have no title and
    no DOI, so [deduplicate] never merges them: it returns them all, a
    PMID listed twice twice, in the given order. *)
Theorem pubmed_records_never_merged (data : option (list string)) :
  Filter.deduplicate (Filter.normalize_pubmed data)
  = Ok (Filter.normalize_pubmed data) /\
  List.length (Filter.normalize_pubmed data)
  = List.length (match data with Some pmids => pmids | None => [] end).
Proof.
  split.
  - unfold Filter.deduplicate.
    rewrite run_standalone by apply normalize_pubmed_standalone.
    cbn [bind]. unfold Filter.dedup_finish.
    cbn [Filter.kept Filter.by_doi Filter.by_title Py.dict_values map app].
    now rewrite app_nil_r.
  - destruct data as [pmids|]; [|reflexivity].
    unfold Filter.normalize_pubmed. now rewrite length_map.
Qed.

Lemma lookup_abstract_pubmed_first (t : tables) (r : record) (a : string) :
  Py.lower (source r) = "pubmed" ->
  Py.startswith (id r) "PMID:" = true ->
  Py.dict_get (pmid_to_abs t) (Py.item1 (Py.split (id r) "PMID:")) = Some a ->
  a <> EmptyString ->
  lookup_abstract t r = a.
Proof.
  intros Hsrc Hs Hg Ha. apply truthy_true_iff in Ha.
  assert (Hor : Py.dict_get_or (pmid_to_abs t)
                  (Py.item1 (Py.split (id r) "PMID:")) EmptyString = a).
  { unfold Py.dict_get_or. now rewrite Hg. }
  unfold lookup_abstract. cbv zeta. rewrite Hsrc, Hs, Hor.
  cbn [String.eqb Ascii.eqb Bool.eqb andb].
  repeat (rewrite Ha; cbn [negb andb]). reflexivity.
Qed.

(** X22.  The id that [normalize_pubmed] writes is the id that the
    provider chain reads: for a PMID that does not itself contain
    ["PMID:"], the record is looked up in the PubMed table under that
    PMID, and a non-empty abstract found there is the result, whatever
    the other tables hold. *)
Theorem pubmed_lookup_round_trip (t : tables) (pmid a : string) :
  Py.contains "PMID:" pmid = false ->
  Py.dict_get (pmid_to_abs t) pmid = Some a ->
  a <> EmptyString ->
  map (lookup_abstract t) (Filter.normalize_pubmed (Some [pmid])) = [a].
Proof.
  intros Hc Hg Ha. destruct (pmid_split pmid Hc) as [Hs Hi].
  cbn [Filter.normalize_pubmed map]. f_equal.
  apply lookup_abstract_pubmed_first; try assumption.
  - reflexivity.
  - cbn [id Filter.norm_record Filter.or_empty]. now rewrite Hi.
Qed.



Lemma join_cons2 (sep x y : string) (l : list string) :
  Py.join sep (x :: y :: l) = (x ++ sep ++ Py.join sep (y :: l))%string.
Proof. reflexivity. Qed.



(** ** Title keys *)

Lemma all_chars_app (p : ascii -> bool) (a b : string) :
  all_chars p (a ++ b) = all_chars p a && all_chars p b.
Proof.
  induction a as [|c a IH]; simpl; [reflexivity|].
  now rewrite IH, andb_assoc.
Qed.

Lemma all_chars_sub_runs (cls q : ascii -> bool) (b : bool) (s : string) :
  q " "%char = true ->
  (forall c, cls c = false -> q c = true) ->
  all_chars q (Py.sub_runs_from cls b s) = true.
Proof.
  intros Hsp Hq. revert b. induction s as [|c s IH]; intros b; simpl;
    [reflexivity|].
  destruct (cls c) eqn:Hc.
  - destruct b; simpl; [apply IH | rewrite Hsp; apply IH].
  - simpl. rewrite (Hq c Hc). apply IH.
Qed.

Lemma all_chars_sub_runs_keep (cls q : ascii -> bool) (b : bool) (s : string) :
  q " "%char = true ->
  all_chars q s = true ->
  all_chars q (Py.sub_runs_from cls b s) = true.
Proof.
  intros Hsp. revert b. induction s as [|c s IH]; intros b; simpl;
    [reflexivity|].
  rewrite andb_true_iff. intros [Hc Hs].
  destruct (cls c); [destruct b|]; simpl; rewrite ?Hsp, ?Hc; now apply IH.
Qed.

Lemma all_chars_lstrip (q : ascii -> bool) (s : string) :
  all_chars q s = true -> all_chars q (Py.lstrip s) = true.
Proof.
  induction s as [|c s IH]; simpl; [reflexivity|].
  rewrite andb_true_iff. intros [Hc Hs].
  destruct (Py.isspace c); [now apply IH|]. simpl. now rewrite Hc, Hs.
Qed.

Lemma all_chars_rstrip (q : ascii -> bool) (s : string) :
  all_chars q s = true -> all_chars q (Py.rstrip s) = true.
Proof.
  induction s as [|c s IH]; simpl; [reflexivity|].
  rewrite andb_true_iff. intros [Hc Hs]. specialize (IH Hs).
  destruct (Py.rstrip s) as [|d r].
  - destruct (Py.isspace c); simpl; [reflexivity | now rewrite Hc].
  - cbn [all_chars] in IH |- *. now rewrite Hc, IH.
Qed.

Lemma norm_title_key_chars (t : string) :
  all_chars key_char (Filter.norm_title_key t) = true.
Proof.
  unfold Filter.norm_title_key, Py.strip, Py.sub_runs. cbv zeta.
  apply all_chars_rstrip, all_chars_lstrip.
  apply all_chars_sub_runs_keep; [reflexivity|].
  apply all_chars_sub_runs; [reflexivity|].
  intros c Hc. unfold Filter.not_key_char in Hc. apply negb_false_iff in Hc.
  unfold key_char. now rewrite Hc.
Qed.

Lemma key_bar_unique (k k' y y' : string) :
  all_chars key_char k = true -> all_chars key_char k' = true ->
  (k ++ "|" ++ y)%string = (k' ++ "|" ++ y')%string ->
  k = k' /\ y = y'.
Proof.
  revert k'. induction k as [|c k IH]; intros [|c' k'] Hk Hk'; cbn [append].
  - intros H. injection H as H. now split.
  - intros H. injection H as Hc _. subst c'. discriminate.
  - intros H. injection H as Hc _. subst c. discriminate.
  - cbn [all_chars] in Hk, Hk'. apply andb_true_iff in Hk, Hk'.
    intros H. injection H as Hc Ht. subst c'.
    destruct (IH k' (proj2 Hk) (proj2 Hk') Ht) as [-> ->]. now split.
Qed.

Lemma key_bar_not_plain (k k' y : string) :
  all_chars key_char k' = true -> (k ++ "|" ++ y)%string <> k'.
Proof.
  intros Hk' H. rewrite <- H, !all_chars_app in Hk'.
  apply andb_true_iff in Hk'. destruct Hk' as [_ Hk'].
  apply andb_true_iff in Hk'. destruct Hk' as [Hk' _]. discriminate.
Qed.

Lemma str_of_int_inj (n m : Z) : Py.str_of_int n = Py.str_of_int m -> n = m.
Proof.
  unfold Py.str_of_int. intros H.
  assert (Hnn : forall z, Z.to_int z <> Decimal.Pos Decimal.Nil /\
                          Z.to_int z <> Decimal.Neg Decimal.Nil).
  { intros [|p|p]; simpl; split; try discriminate; intros E;
      injection E as E; now apply (DecimalPos.Unsigned.to_uint_nonnil p). }
  apply DecimalZ.to_int_inj.
  assert (E : Some (Z.to_int n) = Some (Z.to_int m)).
  { rewrite <- (NilZero.isi (Z.to_int n)) by apply Hnn.
    rewrite <- (NilZero.isi (Z.to_int m)) by apply Hnn.
    now rewrite H. }
  now injection E.
Qed.

Lemma truthy_false_empty (s : string) : Py.truthy s = false -> s = EmptyString.
Proof. now destruct s. Qed.

Lemma year_truthy_some (r : record) :
  year_truthy r = true -> exists y, year r = Some y /\ year_str r = Py.str_of_int y.
Proof.
  unfold year_truthy, year_str. destruct (year r) as [y|]; [|discriminate].
  intros _. now exists y.
Qed.

(** X24.  The key under which a record without DOI is filed is
    unambiguous: two such records have the same identity key exactly
    when their normalized titles are equal and they have the same year,
    where an absent year and the year zero count as no year (a title
    key never contains the bar that separates it from the year). *)
Theorem title_key_unambiguous (a b : record) :
  doi a = EmptyString ->
  doi b = EmptyString ->
  Filter.norm_title_key (title a) <> EmptyString ->
  (identity_key a = identity_key b <->
   Filter.norm_title_key (title a) = Filter.norm_title_key (title b) /\
   effective_year a = effective_year b).
Proof.
  intros Ha Hb Hka. unfold identity_key, effective_year. rewrite Ha, Hb.
  cbn [Py.lower Py.truthy].
  pose proof (norm_title_key_chars (title a)) as Hca.
  pose proof (norm_title_key_chars (title b)) as Hcb.
  set (ka := Filter.norm_title_key (title a)) in *.
  set (kb := Filter.norm_title_key (title b)) in *.
  assert (Hta : Py.truthy ka = true) by now apply truthy_true_iff.
  rewrite Hta. cbn [negb].
  destruct (Py.truthy kb) eqn:Htb; cbn [negb].
  2:{ apply truthy_false_empty in Htb. split.
      - destruct (year_truthy a); discriminate.
      - intros [E _]. rewrite Htb in E. contradiction. }
  destruct (year_truthy a) eqn:Hya, (year_truthy b) eqn:Hyb.
  - destruct (year_truthy_some a Hya) as (ya & Hya1 & Hya2).
    destruct (year_truthy_some b Hyb) as (yb & Hyb1 & Hyb2).
    rewrite Hya1, Hyb1, Hya2, Hyb2. split.
    + intros H. injection H as H.
      destruct (key_bar_unique _ _ _ _ Hca Hcb H) as [E1 E2].
      apply str_of_int_inj in E2. now subst.
    + intros [E1 E2]. injection E2 as E2. now rewrite E1, E2.
  - destruct (year_truthy_some a Hya) as (ya & Hya1 & Hya2). split.
    + intros H. injection H as H. now apply key_bar_not_plain in H.
    + intros [_ E]. rewrite Hya1 in E. discriminate.
  - destruct (year_truthy_some b Hyb) as (yb & Hyb1 & Hyb2). split.
    + intros H. injection H as H. symmetry in H.
      now apply key_bar_not_plain in H.
    + intros [_ E]. rewrite Hyb1 in E. discriminate.
  - split.
    + intros H. injection H as H. now split.
    + intros [E _]. now rewrite E.
Qed.

(** ** [normalize_text] *)

Lemma collapsed_sub_runs (b : bool) (s : string) :
  collapsed_from b (Py.sub_runs_from Py.isspace b s) = true.
Proof.
  revert b. induction s as [|c s IH]; intros b; cbn [Py.sub_runs_from];
    [reflexivity|].
  destruct (Py.isspace c) eqn:Hc.
  - destruct b; [apply IH|]. cbn [collapsed_from].
    replace (Py.isspace " ") with true by reflexivity.
    cbn [negb andb Ascii.eqb Bool.eqb]. apply IH.
  - cbn [collapsed_from]. rewrite Hc. apply IH.
Qed.

Lemma collapsed_after_space_lstrip (r : string) :
  collapsed_from true r = true -> Py.lstrip r = r.
Proof.
  destruct r as [|d r]; [reflexivity|]. cbn [collapsed_from Py.lstrip].
  destruct (Py.isspace d); [|reflexivity].
  rewrite andb_false_r. discriminate.
Qed.

Lemma collapsed_lstrip (t : string) :
  collapsed_from false t = true -> collapsed_from true (Py.lstrip t) = true.
Proof.
  destruct t as [|c r]; [reflexivity|]. cbn [collapsed_from Py.lstrip].
  destruct (Py.isspace c) eqn:Hc.
  - rewrite !andb_true_iff. intros [_ Hr].
    now rewrite (collapsed_after_space_lstrip r Hr).
  - intros Hr. cbn [collapsed_from]. now rewrite Hc.
Qed.

Lemma collapsed_rstrip (b : bool) (u : string) :
  collapsed_from b u = true ->
  Py.rstrip u = EmptyString \/ tidy_from b (Py.rstrip u) = true.
Proof.
  revert b. induction u as [|c r IH]; intros b; [now left|].
  cbn [collapsed_from Py.rstrip]. destruct (Py.isspace c) eqn:Hc.
  - rewrite !andb_true_iff. intros [[Hsp Hb] Hr].
    destruct (IH true Hr) as [E|E].
    + rewrite E. now left.
    + destruct (Py.rstrip r) as [|d r0]; [now left|]. right.
      cbn [tidy_from]. rewrite Hc, Hsp, Hb. exact E.
  - intros Hr. right. destruct (IH false Hr) as [E|E].
    + rewrite E. cbn [tidy_from]. now rewrite Hc.
    + destruct (Py.rstrip r) as [|d r0].
      * cbn [tidy_from]. now rewrite Hc.
      * cbn [tidy_from]. rewrite Hc. exact E.
Qed.

Lemma tidy_from_weaken (v : string) :
  tidy_from true v = true -> tidy_from false v = true.
Proof.
  destruct v as [|c r]; [discriminate|]. cbn [tidy_from].
  destruct (Py.isspace c); [|auto]. rewrite andb_false_r. discriminate.
Qed.

Lemma tidy_from_sub_runs (b : bool) (v : string) :
  tidy_from b v = true -> Py.sub_runs_from Py.isspace b v = v.
Proof.
  revert b. induction v as [|c r IH]; intros b; [reflexivity|].
  cbn [tidy_from Py.sub_runs_from]. destruct (Py.isspace c).
  - rewrite !andb_true_iff. intros [[Hsp Hb] Hr].
    apply Ascii.eqb_eq in Hsp. apply negb_true_iff in Hb. subst c b.
    now rewrite (IH true Hr).
  - intros Hr. now rewrite (IH false Hr).
Qed.

Lemma tidy_from_lstrip (v : string) :
  tidy_from true v = true -> Py.lstrip v = v.
Proof.
  destruct v as [|c r]; [reflexivity|]. cbn [tidy_from Py.lstrip].
  destruct (Py.isspace c); [|reflexivity]. rewrite andb_false_r. discriminate.
Qed.

Lemma tidy_from_rstrip (b : bool) (v : string) :
  tidy_from b v = true -> Py.rstrip v = v.
Proof.
  revert b. induction v as [|c r IH]; intros b; [reflexivity|].
  cbn [tidy_from Py.rstrip]. destruct (Py.isspace c) eqn:Hc.
  - rewrite !andb_true_iff. intros [_ Hr]. rewrite (IH true Hr).
    destruct r; [discriminate | reflexivity].
  - intros Hr. rewrite (IH false Hr). now destruct r.
Qed.

Lemma normalize_text_tidy (s : string) : tidy (Filter.normalize_text s) = true.
Proof.
  unfold Filter.normalize_text, Py.strip, Py.sub_runs.
  pose proof (collapsed_sub_runs false s) as H1.
  apply collapsed_lstrip in H1. apply collapsed_rstrip in H1.
  destruct H1 as [E|E]; [now rewrite E|].
  unfold tidy. now destruct (Py.rstrip _).
Qed.

Lemma normalize_text_of_tidy (s : string) :
  tidy s = true -> Filter.normalize_text s = s.
Proof.
  destruct s as [|c r]; [reflexivity|]. unfold tidy. intros H.
  unfold Filter.normalize_text, Py.strip, Py.sub_runs.
  rewrite (tidy_from_sub_runs false _ (tidy_from_weaken _ H)).
  rewrite (tidy_from_lstrip _ H). exact (tidy_from_rstrip true _ H).
Qed.

(** X25.  [normalize_text] returns a tidy text (no whitespace at either
    end, and inside only single spaces), leaves a tidy text as it is,
    and is therefore idempotent; the abstract that both abstract stages
    store, being cleaned the same way, is tidy too. *)
Theorem normalize_text_idempotent (s : string) :
  tidy (Filter.normalize_text s) = true /\
  (tidy s = true -> Filter.normalize_text s = s) /\
  Filter.normalize_text (Filter.normalize_text s) = Filter.normalize_text s /\
  (forall t r, tidy (abs_clean_of t r) = true).
Proof.
  split; [apply normalize_text_tidy|]. split; [apply normalize_text_of_tidy|].
  split.
  - apply normalize_text_of_tidy, normalize_text_tidy.
  - intros t r. exact (normalize_text_tidy (lookup_abstract t r)).
Qed.

(** ** [norm_title_key] *)

Ltac each_char c := destruct c as [[] [] [] [] [] [] [] []].

Lemma lower_char_idem (c : ascii) : Py.lower_char (Py.lower_char c) = Py.lower_char c.
Proof. each_char c; reflexivity. Qed.

Lemma isspace_lower_char (c : ascii) : Py.isspace (Py.lower_char c) = Py.isspace c.
Proof. each_char c; reflexivity. Qed.

Lemma key_char_lower (c : ascii) : key_char c = true -> Py.lower_char c = c.
Proof. each_char c; intros H; try reflexivity; discriminate H. Qed.

Lemma key_char_space (c : ascii) :
  key_char c = true ->
  Py.isspace c = (c =? " ")%char /\ Filter.not_key_char c = (c =? " ")%char.
Proof. each_char c; intros H; try (split; reflexivity); discriminate H. Qed.

Lemma lower_idem (s : string) : Py.lower (Py.lower s) = Py.lower s.
Proof.
  induction s as [|c s IH]; simpl; [reflexivity|].
  now rewrite lower_char_idem, IH.
Qed.

Lemma lower_key_chars (s : string) :
  all_chars key_char s = true -> Py.lower s = s.
Proof.
  induction s as [|c s IH]; simpl; [reflexivity|].
  rewrite andb_true_iff. intros [Hc Hs]. now rewrite (key_char_lower c Hc), IH.
Qed.

Lemma sub_runs_lower (b : bool) (s : string) :
  Py.sub_runs_from Py.isspace b (Py.lower s)
  = Py.lower (Py.sub_runs_from Py.isspace b s).
Proof.
  revert b. induction s as [|c s IH]; intros b; simpl; [reflexivity|].
  rewrite isspace_lower_char. destruct (Py.isspace c).
  - destruct b; simpl; now rewrite IH.
  - simpl. now rewrite IH.
Qed.

Lemma lstrip_lower (s : string) : Py.lstrip (Py.lower s) = Py.lower (Py.lstrip s).
Proof.
  induction s as [|c s IH]; simpl; [reflexivity|].
  rewrite isspace_lower_char. now destruct (Py.isspace c).
Qed.

Lemma rstrip_lower (s : string) : Py.rstrip (Py.lower s) = Py.lower (Py.rstrip s).
Proof.
  induction s as [|c s IH]; simpl; [reflexivity|].
  rewrite IH, isspace_lower_char.
  destruct (Py.rstrip s); simpl; [now destruct (Py.isspace c) | reflexivity].
Qed.

Lemma normalize_text_lower (s : string) :
  Filter.normalize_text (Py.lower s) = Py.lower (Filter.normalize_text s).
Proof.
  unfold Filter.normalize_text, Py.strip, Py.sub_runs.
  now rewrite sub_runs_lower, lstrip_lower, rstrip_lower.
Qed.

Lemma key_sub_runs (b : bool) (k : string) :
  all_chars key_char k = true -> tidy_from b k = true ->
  Py.sub_runs_from Filter.not_key_char b k = k.
Proof.
  revert b. induction k as [|c r IH]; intros b; [reflexivity|].
  cbn [all_chars tidy_from Py.sub_runs_from]. rewrite andb_true_iff.
  intros [Hc Hr]. destruct (key_char_space c Hc) as [-> ->].
  destruct (c =? " ")%char eqn:Hsp.
  - rewrite !andb_true_iff. intros [[_ Hb] Ht].
    apply Ascii.eqb_eq in Hsp. apply negb_true_iff in Hb. subst c b.
    now rewrite (IH true Hr Ht).
  - intros Ht. now rewrite (IH false Hr Ht).
Qed.

Lemma norm_title_key_tidy (t : string) : tidy (Filter.norm_title_key t) = true.
Proof.
  exact (normalize_text_tidy
           (Py.sub_runs Filter.not_key_char (Py.lower (Filter.normalize_text t)))).
Qed.

(** X26.  A title key is written with lower-case letters, digits and
    single spaces only, with no space at either end; taking the key of
    a key changes nothing; and the key does not depend on the case of
    the title. *)
Theorem norm_title_key_canonical (t : string) :
  all_chars key_char (Filter.norm_title_key t) = true /\
  tidy (Filter.norm_title_key t) = true /\
  Filter.norm_title_key (Filter.norm_title_key t) = Filter.norm_title_key t /\
  Filter.norm_title_key (Py.lower t) = Filter.norm_title_key t.
Proof.
  pose proof (norm_title_key_chars t) as Hc.
  pose proof (norm_title_key_tidy t) as Ht.
  split; [exact Hc|]. split; [exact Ht|]. split.
  - set (k := Filter.norm_title_key t) in *.
    unfold Filter.norm_title_key. cbv zeta.
    rewrite (normalize_text_of_tidy k Ht), (lower_key_chars k Hc).
    assert (Hs : Py.sub_runs Filter.not_key_char k = k).
    { unfold Py.sub_runs. destruct k as [|c r] eqn:Hk; [reflexivity|].
      apply key_sub_runs; [exact Hc|]. now apply tidy_from_weaken. }
    rewrite Hs. exact (normalize_text_of_tidy k Ht).
  - unfold Filter.norm_title_key. cbv zeta.
    now rewrite normalize_text_lower, lower_idem.
Qed.

(** ** [reconstruct_openalex_abstract] *)

Lemma length_list_set {A : Type} (l : list A) (i : nat) (v : A) :
  List.length (Py.list_set l i v) = List.length l.
Proof.
  revert i. induction l as [|x l IH]; intros [|i]; simpl; auto.
Qed.

Lemma nth_list_set {A : Type} (l : list A) (i j : nat) (v d : A) :
  j < List.length l ->
  nth i (Py.list_set l j v) d = if i =? j then v else nth i l d.
Proof.
  revert i j. induction l as [|x l IH]; intros i j Hj; [simpl in Hj; lia|].
  destruct j as [|j], i as [|i]; simpl; try reflexivity.
  apply IH. simpl in Hj. lia.
Qed.

Lemma place_word_length (w : string) (words : list string) (p : Z) :
  List.length (Filter.place_word w words p) = List.length words.
Proof.
  unfold Filter.place_word. destruct (_ && _); [apply length_list_set | reflexivity].
Qed.

Lemma place_word_nth (w : string) (words : list string) (p : Z) (i : nat) :
  i < List.length words ->
  nth i (Filter.place_word w words p) EmptyString
  = if (Z.of_nat i =? p)%Z then w else nth i words EmptyString.
Proof.
  intros Hi. unfold Filter.place_word.
  destruct (Z.leb_spec 0 p), (Z.ltb_spec p (Z.of_nat (List.length words)));
    cbn [andb].
  - rewrite nth_list_set by lia.
    destruct (Nat.eqb_spec i (Z.to_nat p)), (Z.eqb_spec (Z.of_nat i) p);
      try reflexivity; lia.
  - destruct (Z.eqb_spec (Z.of_nat i) p); [lia | reflexivity].
  - destruct (Z.eqb_spec (Z.of_nat i) p); [lia | reflexivity].
  - destruct (Z.eqb_spec (Z.of_nat i) p); [lia | reflexivity].
Qed.

Lemma place_words_spec (w : string) (ps : list Z) (words : list string) :
  List.length (fold_left (Filter.place_word w) ps words) = List.length words /\
  forall i, i < List.length words ->
    nth i (fold_left (Filter.place_word w) ps words) EmptyString
    = if listed_in i ps then w else nth i words EmptyString.
Proof.
  revert words. induction ps as [|p ps IH]; intros words; cbn [fold_left].
  - split; [reflexivity|]. intros i _. reflexivity.
  - destruct (IH (Filter.place_word w words p)) as [Hl Hn].
    rewrite place_word_length in Hl. split; [exact Hl|].
    intros i Hi. rewrite Hn by (rewrite place_word_length; exact Hi).
    rewrite place_word_nth by exact Hi.
    unfold listed_in. cbn [existsb].
    destruct (Z.of_nat i =? p)%Z; cbn [orb]; [|reflexivity].
    now destruct (existsb _ ps).
Qed.

Lemma fill_spec (ws : list string) (idx : Py.dict (list Z)) (words : list string) :
  (forall w ps p, In (w, ps) idx -> In p ps ->
     (0 <= p < Z.of_nat (List.length ws))%Z /\
     nth (Z.to_nat p) ws EmptyString = w) ->
  List.length words = List.length ws ->
  let final :=
    fold_left (fun words '(word, positions) =>
                 fold_left (Filter.place_word word) positions words)
              idx words in
  List.length final = List.length ws /\
  forall i, i < List.length ws ->
    nth i final EmptyString
    = if listed i idx then nth i ws EmptyString else nth i words EmptyString.
Proof.
  revert words. induction idx as [|[w ps] idx IH]; intros words Hcons Hlen;
    cbn [fold_left].
  - split; [exact Hlen|]. intros i _. reflexivity.
  - destruct (place_words_spec w ps words) as [Hl Hn].
    assert (Hcons' : forall w' ps' p, In (w', ps') idx -> In p ps' ->
              (0 <= p < Z.of_nat (List.length ws))%Z /\
              nth (Z.to_nat p) ws EmptyString = w').
    { intros w' ps' p Hin. apply Hcons. now right. }
    destruct (IH (fold_left (Filter.place_word w) ps words) Hcons'
                 (eq_trans Hl Hlen)) as [Hl' Hn'].
    split; [exact Hl'|]. intros i Hi. rewrite (Hn' i Hi).
    unfold listed. cbn [existsb snd]. fold (listed i idx).
    destruct (listed i idx); [now rewrite orb_true_r|].
    rewrite orb_false_r, Hn by (rewrite Hlen; exact Hi).
    destruct (listed_in i ps) eqn:E; [|reflexivity].
    unfold listed_in in E. apply existsb_exists in E.
    destruct E as (p & Hp & Hip). apply Z.eqb_eq in Hip. subst p.
    destruct (Hcons w ps (Z.of_nat i) (or_introl eq_refl) Hp) as [_ Hw].
    now rewrite Nat2Z.id in Hw.
Qed.

Lemma max_of_ge (ps : list Z) (p : Z) : In p ps -> (p <= Py.max_of ps)%Z.
Proof.
  destruct ps as [|x ps]; [intros []|]. unfold Py.max_of.
  assert (H : forall l a, (a <= fold_left Z.max l a)%Z /\
                          forall q, In q l -> (q <= fold_left Z.max l a)%Z).
  { induction l as [|y l IH]; intros a; cbn [fold_left].
    - split; [lia | intros q []].
    - destruct (IH (Z.max a y)) as [H1 H2]. split; [lia|].
      intros q [<-|Hq]; [lia | now apply H2]. }
  destruct (H ps x) as [H1 H2]. intros [<-|Hp]; [exact H1 | now apply H2].
Qed.

Lemma max_of_le (ps : list Z) (B : Z) :
  ps <> [] -> (forall p, In p ps -> (p <= B)%Z) -> (Py.max_of ps <= B)%Z.
Proof.
  destruct ps as [|x ps]; [intros H; now elim H|]. intros _ Hall.
  unfold Py.max_of.
  assert (H : forall l a, (a <= B)%Z -> (forall q, In q l -> (q <= B)%Z) ->
                          (fold_left Z.max l a <= B)%Z).
  { induction l as [|y l IH]; intros a Ha Hl; cbn [fold_left]; [exact Ha|].
    apply IH; [|intros q Hq; apply Hl; now right].
    specialize (Hl y (or_introl eq_refl)). lia. }
  apply H; [apply Hall; now left | intros q Hq; apply Hall; now right].
Qed.

Lemma maxpos_spec (vals : list (list Z)) (init B : Z) :
  let m :=
    fold_left (fun maxpos positions =>
                 match positions with
                 | [] => maxpos
                 | _ => Z.max maxpos (Py.max_of positions)
                 end) vals init in
  (init <= m)%Z /\
  (forall ps p, In ps vals -> In p ps -> (p <= m)%Z) /\
  ((init <= B)%Z -> (forall ps p, In ps vals -> In p ps -> (p <= B)%Z) ->
   (m <= B)%Z).
Proof.
  revert init. induction vals as [|ps vals IH]; intros init; cbn [fold_left].
  - split; [lia|]. split; [intros ps p []|]. intros H _. exact H.
  - set (init' := match ps with [] => init | _ => Z.max init (Py.max_of ps) end).
    destruct (IH init') as (H1 & H2 & H3).
    assert (Hi : (init <= init')%Z) by (subst init'; destruct ps; lia).
    split; [lia|]. split.
    + intros qs p [<-|Hq] Hp; [|now apply (H2 qs)].
      assert ((p <= init')%Z).
      { subst init'. pose proof (max_of_ge ps p Hp). destruct ps; [now elim Hp|].
        lia. }
      lia.
    + intros Hb Hall. apply H3.
      * subst init'. destruct ps as [|x ps']; [exact Hb|].
        assert ((Py.max_of (x :: ps') <= B)%Z).
        { apply max_of_le; [discriminate|]. intros p Hp.
          apply (Hall (x :: ps')); [now left | exact Hp]. }
        lia.
      * intros qs p Hq. apply Hall. now right.
Qed.

Lemma word_tidy_open (w rest : string) :
  all_chars (fun c => negb (Py.isspace c)) w = true ->
  tidy_from true rest = true ->
  tidy_from false (w ++ String " " rest) = true.
Proof.
  induction w as [|c w IH]; cbn [append all_chars tidy_from].
  - intros _ H. replace (Py.isspace " ") with true by reflexivity.
    cbn [Ascii.eqb Bool.eqb andb negb]. exact H.
  - rewrite andb_true_iff. intros [Hc Hw] H. apply negb_true_iff in Hc.
    rewrite Hc. now apply IH.
Qed.

Lemma word_tidy_last (w : string) :
  all_chars (fun c => negb (Py.isspace c)) w = true ->
  tidy_from false w = true.
Proof.
  induction w as [|c w IH]; cbn [all_chars tidy_from]; [reflexivity|].
  rewrite andb_true_iff. intros [Hc Hw]. apply negb_true_iff in Hc.
  rewrite Hc. now apply IH.
Qed.

Lemma words_join_tidy (w : string) (ws : list string) :
  Forall (fun w => is_word w = true) (w :: ws) ->
  tidy_from true (Py.join " " (w :: ws)) = true.
Proof.
  revert w. induction ws as [|y ws IH]; intros w Hall;
    inversion Hall as [|? ? Hw Hrest]; subst;
    unfold is_word in Hw; apply andb_true_iff in Hw; destruct Hw as [Hne Hw];
    destruct w as [|c w]; try discriminate.
  - cbn [Py.join String.concat]. cbn [all_chars] in Hw.
    apply andb_true_iff in Hw. destruct Hw as [Hc Hw].
    cbn [tidy_from]. apply negb_true_iff in Hc. rewrite Hc.
    now apply word_tidy_last.
  - rewrite join_cons2. cbn [all_chars] in Hw.
    apply andb_true_iff in Hw. destruct Hw as [Hc Hw].
    cbn [append tidy_from]. apply negb_true_iff in Hc. rewrite Hc.
    change (" " ++ Py.join " " (y :: ws))%string
      with (String " " (Py.join " " (y :: ws))).
    apply word_tidy_open; [exact Hw|]. now apply IH.
Qed.

(** X27.  [reconstruct_openalex_abstract] inverts an inverted index:
    when the index describes a sequence of words (each position of the
    sequence listed under the word it holds, nothing else listed), the
    result is those words joined by single spaces.  An argument that is
    not a dictionary gives the empty string. *)
Theorem reconstruct_openalex_round_trip (idx : Py.dict (list Z))
  (ws : list string) :
  describes idx ws ->
  Forall (fun w => is_word w = true) ws ->
  Filter.reconstruct_openalex_abstract (Some idx) = Py.join " " ws /\
  Filter.reconstruct_openalex_abstract None = EmptyString.
Proof.
  intros [Hcons Hcov] Hwords. split; [|reflexivity].
  unfold Filter.reconstruct_openalex_abstract. cbv zeta.
  set (n := List.length ws) in *.
  match goal with
  | |- context [fold_left ?f (Py.dict_values idx) (-1)%Z] =>
      set (m := fold_left f (Py.dict_values idx) (-1)%Z)
  end.
  destruct (maxpos_spec (Py.dict_values idx) (-1)%Z (Z.of_nat n - 1))
    as (Hm1 & Hm2 & Hm3). fold m in Hm1, Hm2, Hm3.
  assert (Hm : m = (Z.of_nat n - 1)%Z).
  { assert (Hle : (m <= Z.of_nat n - 1)%Z).
    { apply Hm3; [lia|]. intros ps p Hps Hp.
      unfold Py.dict_values in Hps. apply in_map_iff in Hps.
      destruct Hps as ([w ps'] & <- & Hin). simpl in Hp.
      destruct (Hcons w ps' p Hin Hp). lia. }
    destruct n as [|n'] eqn:Hn; [lia|].
    destruct (Hcov n') as (w & ps & Hin & Hp); [subst n; lia|].
    assert ((Z.of_nat n' <= m)%Z).
    { apply (Hm2 ps); [|exact Hp]. unfold Py.dict_values.
      apply in_map_iff. now exists (w, ps). }
    lia. }
  assert (Hlen0 :
    List.length (repeat EmptyString
                   (if (0 <=? m)%Z then Z.to_nat (m + 1) else 0)) = n).
  { rewrite repeat_length, Hm. destruct (Z.leb_spec 0 (Z.of_nat n - 1)); lia. }
  destruct (fill_spec ws idx _ Hcons Hlen0) as [Hlen Hnth]. cbv zeta in Hlen, Hnth.
  match goal with
  | |- context [filter Py.truthy ?l] => set (final := l) in *
  end.
  assert (Hfinal : final = ws).
  { apply (nth_ext _ _ EmptyString EmptyString); [exact Hlen|].
    intros i Hi. rewrite Hlen in Hi. rewrite (Hnth i Hi).
    destruct (Hcov i Hi) as (w & ps & Hin & Hp).
    assert (Hl : listed i idx = true).
    { unfold listed. apply existsb_exists. exists (w, ps). split; [exact Hin|].
      unfold listed_in. apply existsb_exists. exists (Z.of_nat i).
      split; [exact Hp | apply Z.eqb_refl]. }
    now rewrite Hl. }
  rewrite Hfinal.
  assert (Hf : filter Py.truthy ws = ws).
  { apply filter_all. intros w Hw. rewrite Forall_forall in Hwords.
    specialize (Hwords w Hw). unfold is_word in Hwords.
    now apply andb_true_iff in Hwords. }
  rewrite Hf. destruct ws as [|w ws']; [reflexivity|].
  pose proof (words_join_tidy w ws' Hwords) as Ht. unfold Py.strip.
  rewrite (tidy_from_lstrip _ Ht). exact (tidy_from_rstrip true _ Ht).
Qed.

(** ** [norm_record] *)

Lemma split_from_skip (sep p cur d : string) :
  Py.split_from sep (String.length p) cur (p ++ d) = Py.split_from sep 0 cur d.
Proof.
  induction p as [|c p IH]; [reflexivity|].
  cbn [String.length append Py.split_from]. exact IH.
Qed.

(** A text that begins with the separator is cut there. *)
Lemma split_from_at_sep (c : ascii) (sep cur d : string) :
  Py.split_from (String c sep) 0 cur (String c sep ++ d)
  = cur :: Py.split_from (String c sep) 0 EmptyString d.
Proof.
  change (String c sep ++ d)%string with (String c (sep ++ d)).
  cbn [Py.split_from].
  change (String c (sep ++ d)) with (String c sep ++ d)%string.
  rewrite prefix_app. cbn [String.length]. rewrite Nat.sub_succ, Nat.sub_0_r.
  now rewrite split_from_skip.
Qed.

Lemma replace_doi_prefix (d : string) :
  Py.replace ("https://doi.org/" ++ d) "https://doi.org/" EmptyString
  = Py.replace d "https://doi.org/" EmptyString.
Proof.
  unfold Py.replace, Py.split. rewrite split_from_at_sep.
  unfold Py.join.
  now destruct (Py.split_from "https://doi.org/" 0 EmptyString d).
Qed.

(** X28.  [norm_record] stores the same DOI for a DOI given as an
    [https://doi.org/] address and for the bare DOI, so the two records
    are filed under the same DOI key by [deduplicate], whatever their
    other fields are. *)
Theorem norm_record_doi_url_form (source1 source2 : string)
  (id1 id2 title1 title2 : option string)
  (authors1 authors2 : option (list string)) (year1 year2 : Filter.year_arg)
  (url1 url2 venue1 venue2 : option string)
  (extra1 extra2 : option (Py.dict string)) (d : string) :
  let a := Filter.norm_record source1 id1 title1 authors1 year1
             (Some ("https://doi.org/" ++ d)%string) url1 venue1 extra1 in
  let b := Filter.norm_record source2 id2 title2 authors2 year2
             (Some d) url2 venue2 extra2 in
  doi a = doi b /\
  (doi b <> EmptyString ->
   identity_key a = identity_key b /\ identity_key a <> Standalone).
Proof.
  cbv zeta.
  assert (Hd : doi (Filter.norm_record source1 id1 title1 authors1 year1
                      (Some ("https://doi.org/" ++ d)%string) url1 venue1 extra1)
               = doi (Filter.norm_record source2 id2 title2 authors2 year2
                        (Some d) url2 venue2 extra2)).
  { cbn [doi Filter.norm_record Filter.or_empty].
    now rewrite replace_doi_prefix. }
  split; [exact Hd|]. intros Hne.
  rewrite !identity_key_with_doi by (rewrite ?Hd; exact Hne).
  rewrite Hd. split; [reflexivity | discriminate].
Qed.

(** ** The statements above at concrete inputs *)

(** Two Web of Science records without DOI, against tables that hold
    abstracts for other records. *)
Lemma abstract_stage_no_identifier_witness :
  Forall (fun r => no_identifier r = true) [tie_wos; nodoi_long] /\
  Filter.abstract_stage default_knobs story_tables [tie_wos; nodoi_long] =
  (map kept_without_abstract [tie_wos; nodoi_long], [],
   mk_abs_counts (len [tie_wos; nodoi_long]) (len [tie_wos; nodoi_long]) 0
                 (len [tie_wos; nodoi_long])).
Proof.
  assert (H : Forall (fun r => no_identifier r = true) [tie_wos; nodoi_long]).
  { repeat (apply Forall_cons; [reflexivity|]). apply Forall_nil. }
  split; [exact H|].
  exact (abstract_stage_no_identifier default_knobs story_tables
           [tie_wos; nodoi_long] H).
Defined.


Lemma filter_main_accounting_witness :
  Forall (fun r => In (source r) Filter.SOURCE_PRIORITY) raw_three /\
  exists o n c,
    Filter.main default_knobs raw_three_tables raw_three = Ok o /\
    identified_raw_total (Filter.prisma_counts o) = Some (len raw_three) /\
    after_dedup (Filter.prisma_counts o) = Some n /\
    (0 <= n <= len raw_three)%Z /\
    auto_screen_in (Filter.prisma_counts o)
    = Some (len (Filter.screened_candidates o)) /\
    auto_screen_out (Filter.prisma_counts o)
    = Some (len (Filter.excluded_non_mv_weaning o)) /\
    (len (Filter.screened_candidates o)
     + len (Filter.excluded_non_mv_weaning o) = n)%Z /\
    abstract_stage_counts (Filter.prisma_counts o) = Some c /\
    cnt_checked c = len (Filter.screened_candidates o) /\
    cnt_kept c = len (Filter.abstract_check o) /\
    (cnt_kept c + cnt_dropped_by_abstract c = cnt_checked c)%Z /\
    auto_screen_in_after_abstract (Filter.prisma_counts o) = Some (cnt_kept c) /\
    abstract_rescreen (Filter.prisma_counts o) = None /\
    auto_screen_out_after_abstract (Filter.prisma_counts o) = None.
Proof.
  assert (H : Forall (fun r => In (source r) Filter.SOURCE_PRIORITY) raw_three).
  { unfold raw_three. repeat (apply Forall_cons; [in_list|]). apply Forall_nil. }
  split; [exact H|].
  exact (filter_main_accounting default_knobs raw_three_tables raw_three H).
Defined.

Lemma rescue_after_filter_totals_witness :
  Filter.main default_knobs raw_three_tables raw_three = Ok raw_three_outputs /\
  List.length [sedation_row]
  = List.length (Filter.excluded_non_mv_weaning raw_three_outputs) /\
  let o := raw_three_outputs in
  let p := snd (Rescreen.main default_knobs sedation_tables
                              (Some (Filter.prisma_counts o)) [sedation_row]) in
  let rescued := len (filter (is_rescued default_knobs sedation_tables)
                             [sedation_row]) in
  auto_screen_in_after_abstract p
  = Some (len (Filter.screened_candidates o) + rescued)%Z /\
  auto_screen_out_after_abstract p
  = Some (len (Filter.excluded_non_mv_weaning o) - rescued)%Z /\
  (0 <= len (Filter.excluded_non_mv_weaning o) - rescued)%Z /\
  after_dedup p
  = Some (len (Filter.screened_candidates o) + rescued
          + (len (Filter.excluded_non_mv_weaning o) - rescued))%Z.
Proof.
  assert (H1 : Filter.main default_knobs raw_three_tables raw_three
               = Ok raw_three_outputs) by (vm_compute; reflexivity).
  assert (H2 : List.length [sedation_row]
               = List.length (Filter.excluded_non_mv_weaning raw_three_outputs))
    by reflexivity.
  split; [exact H1|]. split; [exact H2|].
  exact (rescue_after_filter_totals default_knobs default_knobs
           raw_three_tables sedation_tables raw_three [sedation_row]
           raw_three_outputs H1 H2).
Defined.

Lemma rescue_and_stage2_agree_witness :
  let g := default_knobs in
  let a := "Ventilator weaning outcomes in adults" in
  CASE_SENSITIVE g = false /\
  rescue_has_mv g a = abs_has_mv g a /\
  rescue_has_wean g a = abs_has_wean g a /\
  rescue_has_rl g a = abs_has_rl g a /\
  (rescue_decision g a = "rescue" -> rescue_has_rl g a = true ->
   stage2_decision g a = "keep") /\
  (stage2_decision g a = "keep" -> abs_has_wean g a = true ->
   rescue_decision g a = "rescue").
Proof.
  assert (H : CASE_SENSITIVE default_knobs = false) by reflexivity.
  split; [exact H|].
  exact (rescue_and_stage2_agree default_knobs
           "Ventilator weaning outcomes in adults" H).
Defined.

Lemma deduplicate_pair_witness :
  identity_key scopus_doi = identity_key arxiv_doi /\
  identity_key scopus_doi <> Standalone /\
  Filter.deduplicate [scopus_doi; arxiv_doi]
  = w <- Filter.better_record scopus_doi arxiv_doi ;; Ok [w].
Proof.
  assert (H1 : identity_key scopus_doi = identity_key arxiv_doi) by reflexivity.
  assert (H2 : identity_key scopus_doi <> Standalone)
    by (vm_compute; discriminate).
  split; [exact H1|]. split; [exact H2|].
  exact (deduplicate_pair scopus_doi arxiv_doi H1 H2).
Defined.

Lemma deduplicate_key_order_witness :
  Filter.deduplicate dup_records = Ok dup_merged /\
  map identity_key dup_merged =
  filter not_keyed (map identity_key dup_records)
  ++ first_seen (filter keyed_by_doi (map identity_key dup_records))
  ++ first_seen (filter keyed_by_title (map identity_key dup_records)).
Proof.
  assert (H : Filter.deduplicate dup_records = Ok dup_merged)
    by (vm_compute; reflexivity).
  split; [exact H|]. exact (deduplicate_key_order dup_records dup_merged H).
Defined.

Lemma deduplicate_distinct_keys_witness :
  let records := [nodoi_long; tie_pubmed; doi_short] in
  NoDup (filter (fun i => negb (not_keyed i)) (map identity_key records)) /\
  Filter.deduplicate records =
  Ok (filter is_standalone records ++ filter filed_by_doi records
      ++ filter filed_by_title records).
Proof.
  assert (H : NoDup (filter (fun i => negb (not_keyed i))
                            (map identity_key [nodoi_long; tie_pubmed; doi_short]))).
  { vm_compute.
    repeat (apply NoDup_cons;
            [simpl; intros Hin;
             repeat (destruct Hin as [Hin|Hin]; [discriminate|]); exact Hin|]).
    apply NoDup_nil. }
  split; [exact H|].
  exact (deduplicate_distinct_keys [nodoi_long; tie_pubmed; doi_short] H).
Defined.

Lemma doi_and_title_records_never_merge_witness :
  doi doi_short <> EmptyString /\
  doi nodoi_long = EmptyString /\
  Filter.norm_title_key (title nodoi_long) <> EmptyString /\
  Filter.deduplicate [doi_short; nodoi_long] = Ok [doi_short; nodoi_long] /\
  Filter.deduplicate [nodoi_long; doi_short] = Ok [doi_short; nodoi_long].
Proof.
  assert (H1 : doi doi_short <> EmptyString) by (vm_compute; discriminate).
  assert (H2 : doi nodoi_long = EmptyString) by reflexivity.
  assert (H3 : Filter.norm_title_key (title nodoi_long) <> EmptyString)
    by (vm_compute; discriminate).
  split; [exact H1|]. split; [exact H2|]. split; [exact H3|].
  exact (doi_and_title_records_never_merge doi_short nodoi_long H1 H2 H3).
Defined.

Lemma pubmed_lookup_round_trip_witness :
  Py.contains "PMID:" "31" = false /\
  Py.dict_get (pmid_to_abs pubmed_tables) "31"
  = Some "A trial of ventilator weaning." /\
  "A trial of ventilator weaning." <> EmptyString /\
  map (lookup_abstract pubmed_tables) (Filter.normalize_pubmed (Some ["31"]))
  = ["A trial of ventilator weaning."].
Proof.
  assert (H1 : Py.contains "PMID:" "31" = false) by reflexivity.
  assert (H2 : Py.dict_get (pmid_to_abs pubmed_tables) "31"
               = Some "A trial of ventilator weaning.") by reflexivity.
  assert (H3 : "A trial of ventilator weaning." <> EmptyString) by discriminate.
  split; [exact H1|]. split; [exact H2|]. split; [exact H3|].
  exact (pubmed_lookup_round_trip pubmed_tables "31"
           "A trial of ventilator weaning." H1 H2 H3).
Defined.


Lemma title_key_unambiguous_witness :
  doi tie_pubmed = EmptyString /\
  doi tie_wos = EmptyString /\
  Filter.norm_title_key (title tie_pubmed) <> EmptyString /\
  (identity_key tie_pubmed = identity_key tie_wos <->
   Filter.norm_title_key (title tie_pubmed)
   = Filter.norm_title_key (title tie_wos) /\
   effective_year tie_pubmed = effective_year tie_wos).
Proof.
  assert (H1 : doi tie_pubmed = EmptyString) by reflexivity.
  assert (H2 : doi tie_wos = EmptyString) by reflexivity.
  assert (H3 : Filter.norm_title_key (title tie_pubmed) <> EmptyString)
    by (vm_compute; discriminate).
  split; [exact H1|]. split; [exact H2|]. split; [exact H3|].
  exact (title_key_unambiguous tie_pubmed tie_wos H1 H2 H3).
Defined.

Lemma reconstruct_openalex_round_trip_witness :
  describes cat_index cat_words /\
  Forall (fun w => is_word w = true) cat_words /\
  Filter.reconstruct_openalex_abstract (Some cat_index)
  = Py.join " " cat_words /\
  Filter.reconstruct_openalex_abstract None = EmptyString.
Proof.
  assert (H1 : describes cat_index cat_words).
  { split.
    - intros w ps p Hin Hp. simpl in Hin.
      repeat (destruct Hin as [Hin|Hin];
              [injection Hin as <- <-; simpl in Hp;
               repeat (destruct Hp as [Hp|Hp];
                       [subst p; split; [simpl; lia | reflexivity]|]);
               contradiction|]).
      contradiction.
    - intros i Hi. simpl in Hi.
      destruct i as [|[|[|[|[|i]]]]];
        [exists "the", [0; 3]%Z | exists "cat", [1]%Z | exists "saw", [2]%Z
        | exists "the", [0; 3]%Z | exists "dog", [4]%Z | lia];
        (split; in_list). }
  assert (H2 : Forall (fun w => is_word w = true) cat_words).
  { unfold cat_words. repeat (apply Forall_cons; [reflexivity|]).
    apply Forall_nil. }
  split; [exact H1|]. split; [exact H2|].
  exact (reconstruct_openalex_round_trip cat_index cat_words H1 H2).
Defined.
